(** * team_jdkkb: the ESP32-CAM object counter and the route/emission service

    A shallow embedding of [backend/main.py] (multi-scale template matcher and
    debounced counter) and of [backend/optimizer.py] (the Flask handlers
    [/counts], [/optimize] and [/calculate-manual]), with the properties the
    specification states about them.

    Python's [float] is IEEE binary64.  The program text is embedded once, over
    an interface [PyNum] of the arithmetic it uses, and read at two instances:
    - the kernel's primitive floats, on which every operation rounds as
      CPython's does; this is the arithmetic of the program;
    - the real numbers, without rounding, overflow or NaN, to say what a
      computation would give in exact arithmetic.
    What the program leaves to its platform is a parameter of the embedding:
    the calls of OpenCV ([CV2]), the [pow] of the C library ([LibM]) and the
    reading of a number out of a string. *)

From Stdlib Require Import ZArith List String Bool Lia Permutation.
From Stdlib Require Import Reals Lra Floats.
Import ListNotations.
Open Scope string_scope.
Open Scope list_scope.

Set Implicit Arguments.
Set Warnings "-inexact-float,-register-all".

(** ** The arithmetic of the program *)

Declare Scope py_scope.
Delimit Scope py_scope with py.

Class PyNum (F : Type) : Type := {
  f_add : F -> F -> F;
  f_sub : F -> F -> F;
  f_mul : F -> F -> F;
  f_div : F -> F -> F;
  f_neg : F -> F;             (* -a *)
  f_sqrt : F -> F;            (* the C library's sqrt *)
  f_ltb : F -> F -> bool;     (* a < b *)
  f_eqb : F -> F -> bool;     (* a == b *)
  f_eqb_int : F -> Z -> bool; (* a == n for an int n: the exact values are
                                 compared *)
  f_isinf : F -> bool;        (* math.isinf *)
  f_of_Z : Z -> F             (* the float nearest to an integer *)
}.

Infix "+" := f_add : py_scope.
Infix "-" := f_sub : py_scope.
Infix "*" := f_mul : py_scope.
Infix "/" := f_div : py_scope.
Notation "a <? b" := (f_ltb a b) : py_scope.
Notation "a >? b" := (f_ltb b a) : py_scope.
Notation "a =? b" := (f_eqb a b) : py_scope.

(** What the comparison [<] obeys in both arithmetics, NaN included: nothing
    is below itself, and below is transitive. *)
Class PyOrder (F : Type) `{PyNum F} : Prop := {
  f_ltb_irrefl : forall x : F, f_ltb x x = false;
  f_ltb_trans : forall x y z : F,
      f_ltb x y = true -> f_ltb y z = true -> f_ltb x z = true
}.
Arguments PyOrder F {_}.

Section Literals.
Context {F : Type} `{PyNum F}.

(** The decimal literal [n / 10^k] written in the source, e.g. [0.65] is
    [lit 65 100].  Both operands are exact and the division rounds
    correctly, so at binary64 this is the float the Python parser yields. *)
Definition lit (n d : Z) : F := (f_of_Z n / f_of_Z d)%py.

(** Python's [max(a, b)]: the first argument unless the second is greater. *)
Definition py_max (a b : F) : F := if (b >? a)%py then b else a.

(** [math.isnan]: a NaN is the one value that differs from itself. *)
Definition f_isnan (a : F) : bool := negb (a =? a)%py.
End Literals.

(** *** Instance: binary64 *)

(** The float nearest to an integer, ties to even; an integer beyond the
    range of binary64 gives an infinity. *)
Definition float_of_Z (z : Z) : float :=
  SF2Prim (binary_normalize prec emax z 0 false).

(** [x == n] for a float and an int: CPython compares the exact values, so
    no NaN or infinity equals an int, and a finite [m * 2^e] equals [n] when
    the two numbers are the same. *)
Definition float_eqb_int (x : float) (n : Z) : bool :=
  match Prim2SF x with
  | S754_zero _ => (n =? 0)%Z
  | S754_finite s m e =>
      let sm := if s then Z.neg m else Z.pos m in
      if (0 <=? e)%Z then (n =? sm * 2 ^ e)%Z
      else (n * 2 ^ (- e) =? sm)%Z
  | _ => false
  end.

#[export] Instance PyNum_float : PyNum float := {
  f_add := PrimFloat.add;
  f_sub := PrimFloat.sub;
  f_mul := PrimFloat.mul;
  f_div := PrimFloat.div;
  f_neg := PrimFloat.opp;
  f_sqrt := PrimFloat.sqrt;
  f_ltb := PrimFloat.ltb;
  f_eqb := PrimFloat.eqb;
  f_eqb_int := float_eqb_int;
  f_isinf := PrimFloat.is_infinity;
  f_of_Z := float_of_Z
}.

(** *** Instance: exact real arithmetic *)

Definition R_ltb (a b : R) : bool := if Rlt_dec a b then true else false.
Definition R_eqb (a b : R) : bool := if Req_dec_T a b then true else false.

#[export] Instance PyNum_R : PyNum R := {
  f_add := Rplus;
  f_sub := Rminus;
  f_mul := Rmult;
  f_div := Rdiv;
  f_neg := Ropp;
  f_sqrt := R_sqrt.sqrt;
  f_ltb := R_ltb;
  f_eqb := R_eqb;
  f_eqb_int := fun x n => R_eqb x (IZR n);
  f_isinf := fun _ => false;
  f_of_Z := IZR
}.

(** ** Exceptions and results *)

Inductive exn : Type :=
| AttributeError      (* an attribute of a value that lacks it was read *)
| TypeError
| ValueError
| OverflowError       (* a float operation of CPython went out of range *)
| CvError             (* cv2.error, raised by a call of OpenCV *)
| CaptureError        (* requests.get, cv2.imdecode or cv2.cvtColor failed *)
| LoopBound.          (* not a Python exception: the bound the model puts
                         on a [while] loop ran out *)

Inductive outcome (T : Type) : Type :=
| Done (v : T)
| Raised (e : exn).
Arguments Done {T} v.
Arguments Raised {T} e.

(** Sequencing of computations that may raise. *)
Definition and_then {T U : Type} (o : outcome T) (k : T -> outcome U)
  : outcome U :=
  match o with
  | Done v => k v
  | Raised e => Raised e
  end.

Notation "x <-- o ;;; k" := (and_then o (fun x => k))
  (at level 61, o at next level, right associativity) : py_scope.

(** The C library under CPython.  [platform_pow iv iw] is the step
    [errno = 0; ix = pow(iv, iw); _Py_ADJUST_ERANGE1(ix)] of [float_pow] with
    the test of [errno] that follows it: the value of [pow], or the
    [OverflowError] (or [ValueError]) CPython raises when the library
    reports a range (or another) error.  CPython calls it on a finite [iv]
    that is positive and not 1. *)
Class LibM (F : Type) : Type := {
  platform_pow : F -> F -> outcome F
}.

(** Over the reals [pow] is exact and never out of range. *)
#[export] Instance LibM_R : LibM R := {
  platform_pow := fun x y => Done (Rpower x y)
}.

(** A C library whose [pow] is correctly rounded at the exponent 2 and
    reports the overflow of the square: one platform among those the
    theorems quantify over, on which examples can be run. *)
Definition libm_squaring : LibM float := {|
  platform_pow := fun x _ =>
    let r := PrimFloat.mul x x in
    if PrimFloat.is_infinity r then Raised OverflowError else Done r
|}.

(** ** [backend/main.py]: the tracker *)

(** The OpenCV calls of the tracker.  Images are opaque.  [cv2.resize]
    raises [cv2.error] when a side of the scaled image rounds to 0 ([None]
    here); the other calls return on the images the program passes them. *)
Class CV2 (F img : Type) : Type := {
  (* cv2.imread(path, 0): the grayscale image, or None *)
  imread : string -> option img;
  (* img.shape of a grayscale image: (rows, cols) *)
  shape : img -> Z * Z;
  (* cv2.resize(src, (0,0), fx=fx, fy=fy): the image, or None for cv2.error *)
  resize : img -> F -> F -> option img;
  (* cv2.minMaxLoc(cv2.matchTemplate(image, templ, cv2.TM_CCOEFF_NORMED)):
     its components max_val and max_loc *)
  match_template : img -> img -> F * (Z * Z)
}.

Inductive label : Type := ObjectA | ObjectB.

(** What the tracker prints, draws and waits for. *)
Inductive event : Type :=
| PrintLoadError (path : string)
| PrintStarting
| PrintDetected (l : label) (total : Z)
| Rectangle (l : label) (top_left bottom_right : Z * Z)
| ImShow (shown_a shown_b : Z)
| PrintConnectionError (e : exn)
| Sleep (seconds : Z).

(** Statements: they read and write the module's globals [S], emit events
    and may raise. *)
Section Stmt.
Variable S : Type.

Definition stmt (T : Type) : Type := S -> outcome T * S * list event.

Definition ret {T} (v : T) : stmt T := fun st => (Done v, st, []).

Definition bind {T U} (m : stmt T) (k : T -> stmt U) : stmt U := fun st =>
  match m st with
  | (Done v, st1, ev1) =>
      let '(r, st2, ev2) := k v st1 in (r, st2, ev1 ++ ev2)
  | (Raised e, st1, ev1) => (Raised e, st1, ev1)
  end.

Definition lift {T} (o : outcome T) : stmt T := fun st => (o, st, []).
Definition emit (e : event) : stmt unit := fun st => (Done tt, st, [e]).
Definition get : stmt S := fun st => (Done st, st, []).
Definition modify (f : S -> S) : stmt unit := fun st => (Done tt, f st, []).

(** [try: body except Exception as e: handler(e)] *)
Definition try_except (body : stmt unit) (handler : exn -> stmt unit)
  : stmt unit :=
  fun st =>
    match body st with
    | (Done v, st1, ev1) => (Done v, st1, ev1)
    | (Raised e, st1, ev1) =>
        let '(r, st2, ev2) := handler e st1 in (r, st2, ev1 ++ ev2)
    end.

Definition result_of {T} (m : stmt T) (st : S) : outcome T := fst (fst (m st)).
Definition state_after {T} (m : stmt T) (st : S) : S := snd (fst (m st)).
Definition events_of {T} (m : stmt T) (st : S) : list event := snd (m st).
End Stmt.

Arguments ret {S T} v.
Arguments lift {S T} o.
Arguments emit {S} e.
Arguments get {S}.

Notation "x <- m ;; k" := (bind m (fun x => k))
  (at level 61, m at next level, right associativity) : py_scope.
Notation "m ;; k" := (bind m (fun _ => k))
  (at level 61, right associativity) : py_scope.


(** A [for] loop whose body may raise: the first exception ends it. *)
Fixpoint for_each {A B : Type} (body : A -> B -> outcome A) (l : list B) (a : A)
  : outcome A :=
  match l with
  | [] => Done a
  | x :: l' =>
      match body a x with
      | Done a' => for_each body l' a'
      | Raised e => Raised e
      end
  end.

Section Tracker.
Context {F : Type} `{PyNum F} {img : Type} `{CV2 F img}.

Definition THRESHOLD : F := lit 65 100.
Definition COOLDOWN_TIME : F := f_of_Z 2.

(** [load_and_prep(path)]: what it returns or raises, and what it prints. *)
Definition load_and_prep (path : string) : outcome (option img) * list event :=
  match imread path with
  | None => (Done None, [PrintLoadError path])
  | Some im =>
      let '(height, width) := shape im in
      if (200 <? width)%Z
      then let scale := (f_of_Z 200 / f_of_Z width)%py in
           match resize im scale scale with
           | Some im' => (Done (Some im'), [])
           | None => (Raised CvError, [])
           end
      else (Done (Some im), [])
  end.

(** [np.linspace(start, stop, num)] for [num >= 2]: [i * step + start] with
    [step = (stop - start) / (num - 1)], the last sample set to [stop]. *)
Definition linspace (start stop : F) (num : nat) : list F :=
  let step := ((stop - start) / f_of_Z (Z.of_nat (num - 1)))%py in
  map (fun i => (f_of_Z (Z.of_nat i) * step + start)%py) (seq 0 (num - 1))
  ++ [stop].

Definition scales : list F := linspace (lit 5 10) (lit 15 10) 5.

(** A match: [(max_val, max_loc, scale)]. *)
Definition found_t : Type := F * (Z * Z) * F.

Definition too_small (resized template : img) : bool :=
  (fst (shape resized) <? fst (shape template))%Z
  || (snd (shape resized) <? snd (shape template))%Z.

(** The update of [found] at a scale that is not skipped (lines 44 to 48). *)
Definition update_found (resized template : img)
    (found : option found_t) (scale : F) : option found_t :=
  let '(max_val, max_loc) := match_template resized template in
  match found with
  | None => Some (max_val, max_loc, scale)
  | Some (best, _, _) =>
      if (max_val >? best)%py then Some (max_val, max_loc, scale)
      else found
  end.

(** The body of the [for scale in ...] loop of [find_match]. *)
Definition try_scale (frame_gray template : img)
    (found : option found_t) (scale : F) : outcome (option found_t) :=
  match resize frame_gray scale scale with
  | None => Raised CvError
  | Some resized =>
      Done (if too_small resized template then found
            else update_found resized template found scale)
  end.

Definition find_match (frame_gray : img) (template : option img)
  : outcome (option found_t) :=
  match template with
  | None => Raised AttributeError            (* template.shape *)
  | Some t => for_each (try_scale frame_gray t) scales None
  end.

(** Counters and state. *)
Record tracker : Type := {
  count_a : Z;
  count_b : Z;
  last_seen_a : F;
  last_seen_b : F
}.

Definition initial : tracker :=
  {| count_a := 0; count_b := 0;
     last_seen_a := f_of_Z 0; last_seen_b := f_of_Z 0 |}.

Definition count (l : label) (st : tracker) : Z :=
  match l with ObjectA => count_a st | ObjectB => count_b st end.

Definition last_seen (l : label) (st : tracker) : F :=
  match l with ObjectA => last_seen_a st | ObjectB => last_seen_b st end.

(** [count_l += 1; last_seen_l = current_time] *)
Definition counted (l : label) (current_time : F) (st : tracker) : tracker :=
  match l with
  | ObjectA => {| count_a := count_a st + 1; count_b := count_b st;
            last_seen_a := current_time; last_seen_b := last_seen_b st |}
  | ObjectB => {| count_a := count_a st; count_b := count_b st + 1;
            last_seen_a := last_seen_a st; last_seen_b := current_time |}
  end.

Definition M : Type -> Type := stmt tracker.
End Tracker.

Arguments tracker F : clear implicits.
Arguments M F : clear implicits.

(** One turn of the [while True] loop sees one answer of the camera (the
    grayscale frame, when fetching and decoding succeeded), one reading of
    the clock and one of the keyboard. *)
Record cycle (F img : Type) : Type := {
  capture : option img;
  clock : F;                (* time.time() *)
  key_q : bool              (* cv2.waitKey(1) & 0xFF == ord('q') *)
}.

Section Loop.
Context {F : Type} `{PyNum F} {img : Type} `{CV2 F img}.
Variable template : label -> option img.     (* template_a, template_b *)

Local Open Scope py_scope.

(** [h, w = template.shape] *)
Definition template_shape (l : label) : outcome (Z * Z) :=
  match template l with
  | None => Raised AttributeError
  | Some t => Done (shape t)
  end.

(** Steps 2 and 3 of the loop body, for the label [l]. *)
Definition check_object (l : label) (gray : img) (current_time : F)
  : M F unit :=
  m <- lift (find_match gray (template l)) ;;
  match m with
  | Some (max_val, max_loc, _) =>
      if max_val >? THRESHOLD then
        st <- get ;;
        (if (current_time - last_seen l st) >? COOLDOWN_TIME then
           modify (counted l current_time) ;;
           st' <- get ;;
           emit (PrintDetected l (count l st'))
         else ret tt) ;;
        hw <- lift (template_shape l) ;;
        emit (Rectangle l max_loc
                ((fst max_loc + snd hw)%Z, (snd max_loc + fst hw)%Z))
      else ret tt
  | None => ret tt
  end.

Definition fetch (c : cycle F img) : M F img :=
  match capture c with
  | Some gray => ret gray
  | None => lift (Raised CaptureError)
  end.

(** The [try] block and its handler. *)
Definition loop_body (c : cycle F img) : M F unit :=
  try_except
    (gray <- fetch c ;;
     let current_time := clock c in
     check_object ObjectA gray current_time ;;
     check_object ObjectB gray current_time ;;
     st <- get ;;
     emit (ImShow (count_a st) (count_b st)))
    (fun e => emit (PrintConnectionError e) ;; emit (Sleep 2)).

(** The loop over the cycles the environment offers; it leaves at the
    first [q]. *)
Fixpoint run (cs : list (cycle F img)) : M F unit :=
  match cs with
  | [] => ret tt
  | c :: cs' => loop_body c ;; if key_q c then ret tt else run cs'
  end.

End Loop.

(** The whole script: both templates are loaded once, then the loop runs.
    The loads are at module level, outside any [try]: an exception of
    theirs ends the script. *)
Definition main {F img} `{PyNum F} `{CV2 F img} (cs : list (cycle F img))
  : outcome unit * tracker F * list event :=
  match load_and_prep "objectA.png" with
  | (Raised e, ev_a) => (Raised e, initial, ev_a)
  | (Done template_a, ev_a) =>
      match load_and_prep "objectB.png" with
      | (Raised e, ev_b) => (Raised e, initial, ev_a ++ ev_b)
      | (Done template_b, ev_b) =>
          let template l :=
            match l with ObjectA => template_a | ObjectB => template_b end in
          let '(r, st, ev) := run template cs initial in
          (r, st, ev_a ++ ev_b ++ [PrintStarting] ++ ev)
      end
  end.

(** ** [backend/optimizer.py]: the route and emission service *)

(** A decoded JSON value, as [request.json] hands it to a handler. *)
Inductive pyval (F : Type) : Type :=
| PNone
| PBool (b : bool)
| PInt (z : Z)
| PFloat (x : F)
| PStr (s : string)
| PList (items : list (pyval F))
| PDict (entries : list (string * pyval F)).
Arguments PNone {F}.
Arguments PBool {F} b.
Arguments PInt {F} z.
Arguments PStr {F} s.

(** A JSON number as Python decodes it: an [int] of any size when it is
    written without fraction and exponent, a [float] otherwise. *)
Inductive num (F : Type) : Type :=
| NInt (z : Z)
| NFloat (x : F).
Arguments NInt {F} z.

(** A location of a request: a dict with the two numbers [lat] and [lng]. *)
Record location (F : Type) : Type := { lat : num F; lng : num F }.

Inductive log_line (F : Type) : Type :=
| LogStarted                      (* "Optimization Started..." *)
| LogConnected (nearest_lat : F). (* f"Connected to nearest node at {lat:.4f}",
                                     by the float that is formatted *)
Arguments LogStarted {F}.

Record route_stats (F : Type) : Type := {
  total_distance_km : F;
  optimized : F;
  baseline : F;
  saved : F;
  percent : F
}.

Inductive json_body (F : Type) : Type :=
| CountsJson (counts : list (string * Z))
| ErrorJson (error : string)
| RouteJson (optimized_route : list (location F)) (logs : list (log_line F))
            (stats : route_stats F)
| ManualJson (emission_kg baseline_kg savings_kg : F).
Arguments CountsJson {F} counts.
Arguments ErrorJson {F} error.

Record response (F : Type) : Type := { status : Z; body : json_body F }.

(** [jsonify(x)] and [jsonify(x), code] *)
Definition jsonify {F} (b : json_body F) : response F :=
  {| status := 200; body := b |}.
Definition jsonify_with {F} (b : json_body F) (code : Z) : response F :=
  {| status := code; body := b |}.

(** The module's global state. *)
Record server_state : Type := { current_counts : list (string * Z) }.

Definition server_start : server_state :=
  {| current_counts := [("a", 0%Z); ("b", 0%Z)] |}.

(** The body of [POST /optimize]: the [locations] entry, when the key is
    present, is a list of [{lat, lng}] pairs of numbers. *)
Record optimize_request (F : Type) : Type := {
  locations : option (list (location F))
}.

(** Lookup in a dict, given by its entries (the keys are distinct). *)
Fixpoint dict_get {V : Type} (d : list (string * V)) (k : string) : option V :=
  match d with
  | [] => None
  | (k', v) :: d' => if String.eqb k' k then Some v else dict_get d' k
  end.

Section Numbers.
Context {F : Type} `{PyNum F} `{LibM F}.
Local Open Scope py_scope.

(** [float(n)] of an int, also where CPython converts an int operand of a
    float operation: the nearest float, or [OverflowError] ("int too large
    to convert to float") when that is out of range. *)
Definition float_of_int (n : Z) : outcome F :=
  if f_isinf (f_of_Z n) then Raised OverflowError else Done (f_of_Z n).

Definition as_float (a : num F) : outcome F :=
  match a with
  | NInt n => float_of_int n
  | NFloat x => Done x
  end.

(** [a - b] and [a + b]: exact on two ints, the float operation otherwise,
    on the operands converted from left to right. *)
Definition num_sub (a b : num F) : outcome (num F) :=
  match a, b with
  | NInt m, NInt n => Done (NInt (m - n))
  | _, _ => x <-- as_float a ;;; y <-- as_float b ;;; Done (NFloat (x - y))
  end.

Definition num_add (a b : num F) : outcome (num F) :=
  match a, b with
  | NInt m, NInt n => Done (NInt (m + n))
  | _, _ => x <-- as_float a ;;; y <-- as_float b ;;; Done (NFloat (x + y))
  end.

(** [iv ** 2] on a float, as CPython's [float_pow] does it at the exponent
    2.0: a NaN is returned as it is, an infinity gives [fabs(iv)], a zero
    gives 0.0, a negative base is replaced by its opposite (the exponent is
    even), 1.0 gives 1.0, and any other base goes to the platform's [pow]. *)
Definition float_pow2 (iv : F) : outcome F :=
  if f_isnan iv then Done iv
  else if f_isinf iv then Done (if iv <? f_of_Z 0 then f_neg iv else iv)
  else if iv =? f_of_Z 0 then Done (f_of_Z 0)
  else
    let iv := if iv <? f_of_Z 0 then f_neg iv else iv in
    if iv =? f_of_Z 1 then Done (f_of_Z 1)
    else platform_pow iv (f_of_Z 2).

(** [a ** 2]: exact on an int. *)
Definition num_pow2 (a : num F) : outcome (num F) :=
  match a with
  | NInt n => Done (NInt (n * n))
  | NFloat x => r <-- float_pow2 x ;;; Done (NFloat r)
  end.

(** [math.sqrt(a)]: the argument is converted to a float; a negative one
    is a "math domain error". *)
Definition math_sqrt (a : num F) : outcome F :=
  x <-- as_float a ;;;
  if x <? f_of_Z 0 then Raised ValueError else Done (f_sqrt x).

(** [a == b] on two numbers. *)
Definition num_eqb (a b : num F) : bool :=
  match a, b with
  | NInt m, NInt n => (m =? n)%Z
  | NFloat x, NFloat y => x =? y
  | NInt n, NFloat x | NFloat x, NInt n => f_eqb_int x n
  end.
End Numbers.

Section Service.
Context {F : Type} `{PyNum F} `{LibM F}.
Local Open Scope py_scope.

Definition handler (T : Type) : Type := stmt server_state T.

(** Emission factors (kg CO2 per ton-km). *)
Definition EMISSION_FACTORS : list (string * F) :=
  [("road", lit 80 1000); ("rail", lit 20 1000); ("air", lit 500 1000)].

(** [EMISSION_FACTORS['road']] *)
Definition road_factor : F := lit 80 1000.

(** [p == q] on two locations: the two dicts have equal values. *)
Definition loc_eqb (p q : location F) : bool :=
  num_eqb (lat p) (lat q) && num_eqb (lng p) (lng q).

Definition get_dist (p1 p2 : location F) : outcome F :=
  dlat <-- num_sub (lat p1) (lat p2) ;;;
  sq_lat <-- num_pow2 dlat ;;;
  dlng <-- num_sub (lng p1) (lng p2) ;;;
  sq_lng <-- num_pow2 dlng ;;;
  s <-- num_add sq_lat sq_lng ;;;
  math_sqrt s.

(** [EMISSION_FACTORS.get(mode, EMISSION_FACTORS['road'])]: a list or a
    dict is not hashable; any other key that is not in the table yields
    the default. *)
Definition factor_for (mode : pyval F) : outcome F :=
  match mode with
  | PStr m =>
      Done (match dict_get EMISSION_FACTORS m with
            | Some f => f
            | None => road_factor
            end)
  | PList _ | PDict _ => Raised TypeError
  | _ => Done road_factor
  end.

Definition calculate_emissions (dist_km weight_kg : F) (mode : pyval F)
  : outcome F :=
  match factor_for mode with
  | Done factor =>
      let weight_tons := weight_kg / f_of_Z 1000 in
      Done (dist_km * weight_tons * factor)
  | Raised e => Raised e
  end.

(** ROUTE 1 *)
Definition get_counts : handler (response F) :=
  st <- get ;; ret (jsonify (CountsJson (current_counts st))).

(** [min(rest, key=key)] once the first element is the best so far: each
    key is computed in turn, and an element replaces the best when its key
    is below the best's. *)
Fixpoint min_from {X : Type} (key : X -> outcome F) (best : X) (best_key : F)
    (rest : list X) : outcome X :=
  match rest with
  | [] => Done best
  | x :: rest' =>
      k <-- key x ;;;
      if k <? best_key then min_from key x k rest'
      else min_from key best best_key rest'
  end.

(** [min(first :: others, key=key)] *)
Definition py_min {X : Type} (key : X -> outcome F) (first : X)
    (others : list X) : outcome X :=
  k <-- key first ;;; min_from key first k others.

(** A location of the request as the Python object it is decoded to: its
    identity (here its position in the request) and its value.  The lists
    of the handler hold these objects; [min] returns one of them. *)
Definition obj : Type := nat * location F.

(** How [list.remove] compares an element with its argument: the same
    object, or an equal one. *)
Definition same_or_equal (y x : obj) : bool :=
  Nat.eqb (fst y) (fst x) || loc_eqb (snd y) (snd x).

(** [unvisited.remove(nearest)]: drops the first element that is [nearest]
    or equals it. *)
Fixpoint remove_first (x : obj) (l : list obj) : option (list obj) :=
  match l with
  | [] => None
  | y :: l' =>
      if same_or_equal y x then Some l'
      else match remove_first x l' with
           | Some r => Some (y :: r)
           | None => None
           end
  end.

(** The [while unvisited:] loop; [path] and [logs] grow at their end.  The
    log line formats the latitude with [.4f], which converts an int to a
    float. *)
Fixpoint visit (bound : nat) (current : obj)
    (unvisited path : list obj) (logs : list (log_line F))
  : outcome (list obj * list (log_line F)) :=
  match unvisited with
  | [] => Done (path, logs)
  | first :: others =>
      match bound with
      | O => Raised LoopBound
      | S bound' =>
          nearest <-- py_min (fun node => get_dist (snd current) (snd node))
                        first others ;;;
          let path' := path ++ [nearest] in
          shown <-- as_float (lat (snd nearest)) ;;;
          let logs' := logs ++ [LogConnected shown] in
          match remove_first nearest unvisited with
          | Some unvisited' => visit bound' nearest unvisited' path' logs'
          | None => Raised ValueError
          end
      end
  end.

(** The objects of a decoded list, numbered from [start]. *)
Definition objects (start : nat) (l : list (location F)) : list obj :=
  combine (seq start (List.length l)) l.

(** [for i in range(len(path) - 1): total_deg += get_dist(path[i], path[i+1])] *)
Fixpoint add_legs (total_deg : F) (path : list (location F)) : outcome F :=
  match path with
  | p :: (q :: _) as rest =>
      d <-- get_dist p q ;;; add_legs (total_deg + d) rest
  | _ => Done total_deg
  end.

(** Lines 61 to 85: the statistics of a path. *)
Definition stats_of (path : list (location F)) : outcome (route_stats F) :=
  total_deg <-- add_legs (f_of_Z 0) path ;;;
  let total_km := total_deg * f_of_Z 111 in
  let default_weight_kg := f_of_Z 1000 in
  optimized_emission <--
    calculate_emissions total_km default_weight_kg (PStr "road") ;;;
  let baseline_km := total_km * lit 145 100 in
  baseline_emission <--
    calculate_emissions baseline_km default_weight_kg (PStr "road") ;;;
  let saved_emission :=
    py_max (f_of_Z 0) (baseline_emission - optimized_emission) in
  let reduction_pct :=
    if baseline_emission >? f_of_Z 0
    then saved_emission / baseline_emission * f_of_Z 100
    else f_of_Z 0 in
  Done {| total_distance_km := total_km;
          optimized := optimized_emission;
          baseline := baseline_emission;
          saved := saved_emission;
          percent := reduction_pct |}.

(** ROUTE 2 *)
Definition optimize_route (data : optimize_request F) : handler (response F) :=
  let locations := match locations data with Some l => l | None => [] end in
  match locations with
  | [] | [_] => ret (jsonify_with (ErrorJson "Need at least 2 points") 400)
  | current :: unvisited =>
      r <- lift (visit (List.length unvisited) (O, current)
                   (objects 1 unvisited) [(O, current)] [LogStarted]) ;;
      let path := map snd (fst r) in
      stats <- lift (stats_of path) ;;
      ret (jsonify (RouteJson path (snd r) stats))
  end.

(** [float(v)].  How Python reads a number out of a [str] is not part of
    this program: [float_of_str] stands for it ([None]: the text is no
    number). *)
Variable float_of_str : string -> option F.

Definition py_float (v : pyval F) : outcome F :=
  match v with
  | PFloat x => Done x
  | PInt z => float_of_int z
  | PBool b => Done (f_of_Z (if b then 1 else 0))
  | PStr s =>
      match float_of_str s with
      | Some x => Done x
      | None => Raised ValueError
      end
  | PNone | PList _ | PDict _ => Raised TypeError
  end.

(** Truth value of a decoded JSON value. *)
Definition truthy (v : pyval F) : bool :=
  match v with
  | PNone => false
  | PBool b => b
  | PInt z => negb (z =? 0)%Z
  | PFloat x => negb (x =? f_of_Z 0)
  | PStr s => negb (String.eqb s "")
  | PList items => match items with [] => false | _ => true end
  | PDict entries => match entries with [] => false | _ => true end
  end.

(** [payload.get(key, default)]: only a dict has [get]. *)
Definition payload_get (payload : pyval F) (key : string)
    (default : pyval F) : outcome (pyval F) :=
  match payload with
  | PDict entries =>
      Done (match dict_get entries key with
            | Some v => v
            | None => default
            end)
  | _ => Raised AttributeError
  end.

(** ROUTE 3 *)
Definition calculate_manual (request_json : pyval F)
  : handler (response F) :=
  let payload := if truthy request_json then request_json else PDict [] in
  d <- lift (payload_get payload "distance" (PFloat (f_of_Z 0))) ;;
  distance <- lift (py_float d) ;;
  w <- lift (payload_get payload "weight" (PFloat (f_of_Z 0))) ;;
  weight <- lift (py_float w) ;;
  mode <- lift (payload_get payload "mode" (PStr "road")) ;;
  emission_kg <- lift (calculate_emissions distance weight mode) ;;
  baseline_kg <- lift (calculate_emissions distance weight (PStr "air")) ;;
  let savings_kg := py_max (f_of_Z 0) (baseline_kg - emission_kg) in
  ret (jsonify (ManualJson emission_kg baseline_kg savings_kg)).
End Service.

(** ** Vocabulary of the properties *)

Section MatcherVocabulary.
Context {F : Type} `{PyNum F} {img : Type} `{CV2 F img}.

(** [cv2.resize] accepts the frame at the factor [s] and gives
    [resized s]. *)
Definition resizes_to (frame_gray : img) (resized : F -> img) (s : F) : Prop :=
  resize frame_gray s s = Some (resized s).

(** The frame resized by [s], where [cv2.resize] accepts it. *)
Definition resized_of (frame_gray : img) (s : F) : img :=
  match resize frame_gray s s with
  | Some r => r
  | None => frame_gray
  end.

Variable resized : F -> img.

(** The scales at which the matcher is run: those not skipped. *)
Definition tried (template : img) (l : list F) : list F :=
  filter (fun s => negb (too_small (resized s) template)) l.

(** What the matcher answers at one scale. *)
Definition answer_at (template : img) (s : F) : F * (Z * Z) :=
  match_template (resized s) template.

Definition score_at (template : img) (s : F) : F :=
  fst (answer_at template s).

(** The update of [found] at a scale that is not skipped. *)
Definition keep_best (template : img)
    (found : option found_t) (scale : F) : option found_t :=
  update_found (resized scale) template found scale.
End MatcherVocabulary.

Section MatcherOrderVocabulary.
Context {img : Type} `{CV2 R img}.
Variable resized : R -> img.
Variable template : img.

(** [r] is the answer at [s], the first scale of [l] whose score is
    greatest. *)
Definition first_best (l : list R) (r : found_t) : Prop :=
  let '(v, loc, s) := r in
  exists before after,
    l = before ++ s :: after
    /\ answer_at resized template s = (v, loc)
    /\ Forall (fun s' => (score_at resized template s' < v)%R) before
    /\ Forall (fun s' => (score_at resized template s' <= v)%R) after.
End MatcherOrderVocabulary.

Section CounterVocabulary.
Context {F : Type} `{PyNum F} {img : Type} `{CV2 F img}.
Variable template : label -> option img.
Local Open Scope py_scope.

(** The condition under which a turn of the loop counts the label [l]:
    a match whose score exceeds [THRESHOLD], seen more than [COOLDOWN_TIME]
    after the last count. *)
Definition qualifies (l : label) (c : cycle F img) (st : tracker F) : Prop :=
  exists gray v loc s,
    capture c = Some gray
    /\ find_match gray (template l) = Done (Some (v, loc, s))
    /\ (v >? THRESHOLD) = true
    /\ ((clock c - last_seen l st) >? COOLDOWN_TIME) = true.

(** The clock readings at which [run] counted the label [l], in order. *)
Fixpoint count_times (l : label) (cs : list (cycle F img)) (st : tracker F)
  : list F :=
  match cs with
  | [] => []
  | c :: cs' =>
      let st' := state_after (loop_body template c) st in
      (if (count l st <? count l st')%Z then [clock c] else [])
      ++ (if key_q c then [] else count_times l cs' st')
  end.

(** Each reading passes the program's cooldown test against the one before
    it, the first against [prev]. *)
Fixpoint cooled_down (prev : F) (ts : list F) : Prop :=
  match ts with
  | [] => True
  | t :: ts' => ((t - prev) >? COOLDOWN_TIME) = true /\ cooled_down t ts'
  end.
End CounterVocabulary.


(** [maybeCount] of the specification, on the count and timestamp of one
    label: what a turn of the loop does to them when the frame shows a
    match above the threshold. *)
Definition debounce {F : Type} `{PyNum F} (cs : Z * F) (now : F) : Z * F :=
  if ((now - snd cs) >? COOLDOWN_TIME)%py then ((fst cs + 1)%Z, now) else cs.

(** Clock readings every 0.5 s from [t]. *)
Fixpoint ticks {F : Type} `{PyNum F} (t : F) (n : nat) : list F :=
  match n with
  | O => []
  | S n' => t :: ticks (t + lit 5 10)%py n'
  end.

(** The readings at which [debounce] counts, from the count and timestamp
    [cs]. *)
Fixpoint debounce_times {F : Type} `{PyNum F} (cs : Z * F) (times : list F)
  : list F :=
  match times with
  | [] => []
  | t :: times' =>
      (if (fst cs <? fst (debounce cs t))%Z then [t] else [])
      ++ debounce_times (debounce cs t) times'
  end.

(** Turns of the loop that all see the frame [gray], at the given clock
    readings. *)
Definition watching {F img : Type} (gray : img) (times : list F)
  : list (cycle F img) :=
  map (fun t => {| capture := Some gray; clock := t; key_q := false |}) times.


(** ** A scripted camera, to run the tracker on concrete inputs

    An image is a name, the factor it was last resized by, and a script:
    the shape the image has after a resize by a factor, and the answer the
    matcher gives on it, for the template of a given name, at a factor. *)
Record scripted (F : Type) : Type := {
  name : string;
  zoom : F;
  shape_at : F -> Z * Z;
  match_at : string -> F -> F * (Z * Z)
}.

Definition scripted_cv {F : Type} (disk : string -> option (scripted F))
  : CV2 F (scripted F) :=
  {| imread := disk;
     shape := fun im => shape_at im (zoom im);
     resize := fun im fx _ =>
       let '(rows, cols) := shape_at im fx in
       if (rows <=? 0)%Z || (cols <=? 0)%Z then None
       else Some {| name := name im; zoom := fx;
                    shape_at := shape_at im; match_at := match_at im |};
     match_template := fun im t => match_at im (name t) (zoom im) |}.

(** A template 200 wide and 130 high. *)
Definition small_template {F : Type} `{PyNum F} (n : string) : scripted F :=
  {| name := n; zoom := f_of_Z 1;
     shape_at := fun _ => (130, 200)%Z;
     match_at := fun _ _ => (f_of_Z 0, (0, 0)%Z) |}.

(** A 320 x 240 frame: resized by [s] it is [320 s] x [240 s] (the five
    scales give whole sizes), and at the scale [s] the matcher answers
    [score_a s] at (40, 30) for "objectA.png" and [score_b s] at (200, 100)
    for "objectB.png". *)
Definition frame_320x240 {F : Type} `{PyNum F} (score_a score_b : F -> F)
  : scripted F :=
  {| name := "frame"; zoom := f_of_Z 1;
     shape_at := fun s =>
       if (s <? lit 75 100)%py then (120, 160)%Z
       else if (s <? f_of_Z 1)%py then (180, 240)%Z
       else if (s <? lit 125 100)%py then (240, 320)%Z
       else if (s <? lit 15 10)%py then (300, 400)%Z
       else (360, 480)%Z;
     match_at := fun n s =>
       if String.eqb n "objectA.png" then (score_a s, (40, 30)%Z)
       else (score_b s, (200, 100)%Z) |}.

(** Disks: both templates present, or only B's. *)
Definition disk_both {F : Type} `{PyNum F} (path : string)
  : option (scripted F) :=
  if String.eqb path "objectA.png" then Some (small_template path)
  else if String.eqb path "objectB.png" then Some (small_template path)
  else None.

Definition disk_without_a {F : Type} `{PyNum F} (path : string)
  : option (scripted F) :=
  if String.eqb path "objectB.png" then Some (small_template path)
  else None.

Definition disk_without_b {F : Type} `{PyNum F} (path : string)
  : option (scripted F) :=
  if String.eqb path "objectA.png" then Some (small_template path)
  else None.

(** A frame of 1 x 1 pixel: resized by 0.5 its sides round to 0. *)
Definition frame_1x1 {F : Type} `{PyNum F} : scripted F :=
  {| name := "frame"; zoom := f_of_Z 1;
     shape_at := fun s =>
       if (s <? lit 75 100)%py then (0, 0)%Z
       else if (s <? lit 15 10)%py then (1, 1)%Z
       else (2, 2)%Z;
     match_at := fun _ _ => (f_of_Z 0, (0, 0)%Z) |}.

(** A frame of 1 row and 3 columns: resized by 0.5 it has no row. *)
Definition frame_1x3 {F : Type} `{PyNum F} : scripted F :=
  {| name := "frame"; zoom := f_of_Z 1;
     shape_at := fun s =>
       if (s <? lit 75 100)%py then (0, 2)%Z
       else if (s <? f_of_Z 1)%py then (1, 2)%Z
       else if (s <? lit 125 100)%py then (1, 3)%Z
       else if (s <? lit 15 10)%py then (1, 4)%Z
       else (2, 4)%Z;
     match_at := fun _ _ => (f_of_Z 0, (0, 0)%Z) |}.

(** A template 1000 wide and 2 high: resized by 200 / 1000 it has no
    row. *)
Definition flat_template {F : Type} `{PyNum F} (n : string) : scripted F :=
  {| name := n; zoom := f_of_Z 1;
     shape_at := fun s =>
       if (s <? f_of_Z 1)%py then (0, 200)%Z else (2, 1000)%Z;
     match_at := fun _ _ => (f_of_Z 0, (0, 0)%Z) |}.

(** A disk on which "objectA.png" is that template. *)
Definition disk_flat_a {F : Type} `{PyNum F} (path : string)
  : option (scripted F) :=
  if String.eqb path "objectA.png" then Some (flat_template path)
  else if String.eqb path "objectB.png" then Some (small_template path)
  else None.

Definition templates_of {img : Type} (template_a template_b : option img)
  (l : label) : option img :=
  match l with ObjectA => template_a | ObjectB => template_b end.


(** The script [main] run on the scripted camera over a disk. *)
Definition tracker_on {F : Type} `{PyNum F}
    (disk : string -> option (scripted F)) (cs : list (cycle F (scripted F)))
  : outcome unit * tracker F * list event :=
  @main F (scripted F) _ (scripted_cv disk) cs.


(** [d.get(key, default)] on the entries of a dict. *)
Definition field {F : Type} (entries : list (string * pyval F))
    (key : string) (default : pyval F) : pyval F :=
  match dict_get entries key with
  | Some v => v
  | None => default
  end.

(** The emission formula of the specification:
    [distance_km * (weight_kg / 1000) * factor]. *)
Definition emission_formula {F : Type} `{PyNum F} (distance weight factor : F) : F :=
  (distance * (weight / f_of_Z 1000) * factor)%py.


(** The real number a JSON number stands for, in exact arithmetic. *)
Definition num_value (a : num R) : R :=
  match a with
  | NInt n => IZR n
  | NFloat x => x
  end.

(** The lengths of the consecutive legs of a path, as [get_dist] gives
    them. *)
Fixpoint leg_lengths {F : Type} `{PyNum F} `{LibM F}
    (path : list (location F)) : outcome (list F) :=
  match path with
  | p :: (q :: _) as rest =>
      (d <-- get_dist p q ;;; ds <-- leg_lengths rest ;;; Done (d :: ds))%py
  | _ => Done []
  end.

(** A greedy nearest-neighbour visit, on the values of the locations.
    From [current], with [unvisited] left, the stops are made in the order
    [stops]: each stop is one of the locations left; no location left has a
    computed distance from [current] below the stop's; and one location is
    then struck off, the first one left that is the stop or equals it
    ([==]). *)
Fixpoint greedy {F : Type} `{PyNum F} `{LibM F}
    (current : location F) (unvisited stops : list (location F)) : Prop :=
  match stops with
  | [] => unvisited = []
  | stop :: stops' =>
      In stop unvisited
      /\ (exists d_stop,
            get_dist current stop = Done d_stop
            /\ forall x, In x unvisited ->
                         exists d_x, get_dist current x = Done d_x
                                     /\ (d_x <? d_stop)%py = false)
      /\ (exists before struck after,
            unvisited = before ++ struck :: after
            /\ (struck = stop \/ loc_eqb struck stop = true)
            /\ Forall (fun y => loc_eqb y stop = false) before
            /\ greedy stop (before ++ after) stops')
  end.


(** The turns [run] goes through: up to and including the first [q]. *)
Fixpoint until_quit {F img : Type} (cs : list (cycle F img))
  : list (cycle F img) :=
  match cs with
  | [] => []
  | c :: cs' => c :: (if key_q c then [] else until_quit cs')
  end.

(** The events of a turn that come from a detection: the printed line and
    the box. *)
Definition is_detection (e : event) : bool :=
  match e with
  | PrintDetected _ _ | Rectangle _ _ _ => true
  | _ => false
  end.


(** What one turn does to the count and timestamp of a label whose template
    is [t], when the turn gets as far as looking at the label: [debounce] on
    a match above the threshold, nothing otherwise. *)
Definition own_step {F img : Type} `{PyNum F} `{CV2 F img}
    (t : option img) (cl : Z * F) (c : cycle F img) : Z * F :=
  match capture c with
  | None => cl
  | Some gray =>
      match find_match gray t with
      | Done (Some (v, _, _)) =>
          if (v >? THRESHOLD)%py then debounce cl (clock c) else cl
      | _ => cl
      end
  end.


(** A decoded JSON value that is an object (a Python [dict]). *)
Definition is_object {F : Type} (v : pyval F) : bool :=
  match v with
  | PDict _ => true
  | _ => false
  end.



(** * Properties *)

Unset Implicit Arguments.

(** ** The literals of the program, at binary64 *)

Lemma literals_float :
  lit (F:=float) 65 100 = 0.65%float
  /\ lit (F:=float) 80 1000 = 0.080%float
  /\ lit (F:=float) 20 1000 = 0.020%float
  /\ lit (F:=float) 500 1000 = 0.500%float
  /\ lit (F:=float) 145 100 = 1.45%float
  /\ lit (F:=float) 5 10 = 0.5%float
  /\ lit (F:=float) 15 10 = 1.5%float
  /\ f_of_Z (F:=float) 111 = 111.0%float
  /\ f_of_Z (F:=float) 1000 = 1000.0%float.
Proof. repeat split. Qed.

(** ** The order of the two arithmetics *)

Lemma SFltb_irrefl (x : spec_float) : SFltb x x = false.
Proof.
  unfold SFltb, SFcompare.
  destruct x as [s|s| |s m e]; try (destruct s; reflexivity);
    try reflexivity.
  destruct s; rewrite Z.compare_refl, Pos.compare_cont_refl; reflexivity.
Qed.

Lemma SFltb_trans (x y z : spec_float) :
  SFltb x y = true -> SFltb y z = true -> SFltb x z = true.
Proof.
  unfold SFltb, SFcompare.
  destruct x as [s1|s1| |s1 m1 e1], y as [s2|s2| |s2 m2 e2],
           z as [s3|s3| |s3 m3 e3];
    try discriminate; try (destruct s1; try discriminate);
    try (destruct s2; try discriminate);
    try (destruct s3; try discriminate); try reflexivity; try discriminate.
  all: fold (Pos.compare m1 m2); fold (Pos.compare m2 m3);
    fold (Pos.compare m1 m3).
  all: destruct (Z.compare_spec e1 e2), (Z.compare_spec e2 e3),
         (Z.compare_spec e1 e3);
    try lia; try discriminate; try reflexivity; subst.
  all: destruct (Pos.compare_spec m1 m2), (Pos.compare_spec m2 m3),
         (Pos.compare_spec m1 m3);
    try lia; try discriminate; try reflexivity.
Qed.

#[export] Instance PyOrder_float : PyOrder float.
Proof.
  split.
  - intros x. cbn. rewrite ltb_spec. apply SFltb_irrefl.
  - intros x y z. cbn. rewrite !ltb_spec. apply SFltb_trans.
Qed.

Lemma R_ltb_lt (a b : R) : R_ltb a b = true <-> (a < b)%R.
Proof. unfold R_ltb. destruct (Rlt_dec a b); split; auto; discriminate. Qed.

Lemma R_ltb_ge (a b : R) : R_ltb a b = false <-> (b <= a)%R.
Proof.
  unfold R_ltb. destruct (Rlt_dec a b); split; auto; try discriminate; lra.
Qed.

#[export] Instance PyOrder_R : PyOrder R.
Proof.
  split.
  - intros x. cbn. apply R_ltb_ge. lra.
  - intros x y z. cbn. rewrite !R_ltb_lt. lra.
Qed.

(** ** The scale factors *)

Lemma scales_float :
  scales (F:=float) = [0.5; 0.75; 1; 1.25; 1.5]%float.
Proof. vm_compute. reflexivity. Qed.

Lemma scales_R :
  scales (F:=R) = [0.5; 0.75; 1; 1.25; 1.5]%R.
Proof.
  unfold scales, linspace, lit; cbn.
  repeat (f_equal; try lra).
Qed.

(** ** The matcher *)

Section MatcherFacts.
Context {F : Type} `{PyNum F} {img : Type} `{CV2 F img}.
Variables frame_gray template : img.

Lemma try_scale_skipped found s resized :
  resize frame_gray s s = Some resized ->
  too_small resized template = true ->
  try_scale frame_gray template found s = Done found.
Proof. intros Hr Hs. unfold try_scale. now rewrite Hr, Hs. Qed.

Lemma try_scale_tried (resized : F -> img) found s :
  resizes_to frame_gray resized s ->
  too_small (resized s) template = false ->
  try_scale frame_gray template found s
  = Done (keep_best resized template found s).
Proof.
  intros Hr Hs. unfold try_scale, keep_best. now rewrite Hr, Hs.
Qed.

(** Where every resize succeeds, the loop over all scales is the loop over
    the tried ones. *)
Lemma for_each_try_scale (resized : F -> img) l : forall found,
  (forall s, In s l -> resizes_to frame_gray resized s) ->
  for_each (try_scale frame_gray template) l found
  = Done (fold_left (keep_best resized template)
            (tried resized template l) found).
Proof.
  induction l as [|s l IH]; intros found Hall; [reflexivity|].
  cbn [for_each tried filter].
  assert (Hs : resizes_to frame_gray resized s) by (apply Hall; now left).
  assert (Hl : forall s', In s' l -> resizes_to frame_gray resized s')
    by (intros s' Hin; apply Hall; now right).
  destruct (too_small (resized s) template) eqn:Hsm; cbn [negb].
  - rewrite (try_scale_skipped found s (resized s) Hs Hsm). now apply IH.
  - rewrite (try_scale_tried resized found s Hs Hsm). cbn [fold_left].
    now apply IH.
Qed.

(** The loop raises nothing but [cv2.error], and raises it exactly when a
    resize fails. *)
Lemma for_each_try_scale_raises l : forall found e,
  for_each (try_scale frame_gray template) l found = Raised e ->
  e = CvError /\ exists s, In s l /\ resize frame_gray s s = None.
Proof.
  induction l as [|s l IH]; intros found e; cbn [for_each]; [discriminate|].
  unfold try_scale at 1.
  destruct (resize frame_gray s s) as [r|] eqn:Hr.
  - intros He. destruct (IH _ _ He) as (-> & s' & Hin & Hs').
    split; [reflexivity|]. exists s'. split; [now right|exact Hs'].
  - intros [= <-]. split; [reflexivity|]. exists s. split; [now left|exact Hr].
Qed.

Lemma for_each_try_scale_fails l : forall found s,
  In s l -> resize frame_gray s s = None ->
  for_each (try_scale frame_gray template) l found = Raised CvError.
Proof.
  induction l as [|c l IH]; intros found s Hin Hs; [destruct Hin|].
  cbn [for_each]. unfold try_scale at 1.
  destruct (resize frame_gray c c) as [r|] eqn:Hr; [|reflexivity].
  destruct Hin as [->|Hin]; [congruence|]. now apply (IH _ s).
Qed.

(** Every resize succeeds: the frames are those of [resized_of]. *)
Lemma resized_of_all l :
  (forall s, In s l -> resize frame_gray s s <> None) ->
  forall s, In s l -> resizes_to frame_gray (resized_of frame_gray) s.
Proof.
  intros Hall s Hin. specialize (Hall s Hin).
  unfold resizes_to, resized_of.
  destruct (resize frame_gray s s); [reflexivity|congruence].
Qed.

Lemma keep_best_some (resized : F -> img) found s :
  exists r, keep_best resized template found s = Some r.
Proof.
  unfold keep_best, update_found.
  destruct (match_template (resized s) template) as [v loc].
  destruct found as [[[best loc0] s0]|]; [|eauto].
  destruct (f_ltb best v); eauto.
Qed.

Lemma fold_keep_best_some (resized : F -> img) l r :
  exists r', fold_left (keep_best resized template) l (Some r) = Some r'.
Proof.
  revert r. induction l as [|s l IH]; intros r; cbn [fold_left]; [eauto|].
  destruct (keep_best_some resized (Some r) s) as [r1 ->]. apply IH.
Qed.

Lemma fold_keep_best_none (resized : F -> img) l :
  fold_left (keep_best resized template) l None = None <-> l = [].
Proof.
  destruct l as [|s l]; cbn [fold_left]; [tauto|].
  destruct (keep_best_some resized None s) as [r1 ->].
  destruct (fold_keep_best_some resized l r1) as [r2 ->].
  split; discriminate.
Qed.

Lemma tried_nil_iff (resized : F -> img) l :
  tried resized template l = []
  <-> forall s, In s l -> too_small (resized s) template = true.
Proof.
  unfold tried. induction l as [|s l IH]; cbn [filter].
  - split; [intros _ s []|reflexivity].
  - destruct (too_small (resized s) template) eqn:Hs; cbn [negb].
    + rewrite IH. split.
      * intros Hl s' [<-|Hin]; [exact Hs|now apply Hl].
      * intros Hl s' Hin. apply Hl. now right.
    + split; [discriminate|].
      intros Hl. rewrite (Hl s) in Hs by now left. discriminate.
Qed.

(** [find_match] on a loaded template: it raises [cv2.error] exactly when a
    resize fails, and returns otherwise. *)
Lemma find_match_raises_iff :
  find_match frame_gray (Some template) = Raised CvError
  <-> exists s, In s scales /\ resize frame_gray s s = None.
Proof.
  unfold find_match. split.
  - intros He. now destruct (for_each_try_scale_raises _ _ _ He).
  - intros (s & Hin & Hs). now apply (for_each_try_scale_fails _ _ s).
Qed.

Lemma find_match_raised e :
  find_match frame_gray (Some template) = Raised e -> e = CvError.
Proof.
  unfold find_match. intros He.
  now destruct (for_each_try_scale_raises _ _ _ He).
Qed.

Lemma find_match_resized (resized : F -> img) :
  (forall s, In s scales -> resizes_to frame_gray resized s) ->
  find_match frame_gray (Some template)
  = Done (fold_left (keep_best resized template)
            (tried resized template scales) None).
Proof. intros Hall. unfold find_match. now apply for_each_try_scale. Qed.

Lemma find_match_returns :
  (forall s, In s scales -> resize frame_gray s s <> None) ->
  exists r, find_match frame_gray (Some template) = Done r.
Proof.
  intros Hall.
  rewrite (find_match_resized (resized_of frame_gray)); [eauto|].
  now apply resized_of_all.
Qed.
End MatcherFacts.

(** Whether [find_match] raises on a frame does not depend on the
    template, once there is one. *)
Lemma find_match_raises_any_template {F : Type} `{PyNum F} {img : Type}
    `{CV2 F img} (frame_gray t t' : img) (e : exn) :
  find_match frame_gray (Some t) = Raised e ->
  find_match frame_gray (Some t') = Raised CvError.
Proof.
  intros He. pose proof (find_match_raised _ _ _ He) as ->.
  apply find_match_raises_iff. now apply (find_match_raises_iff frame_gray t).
Qed.

(** With real scores the comparison [max_val > found[0]] is a total order,
    and the loop keeps the first scale of greatest score. *)
Section MatcherOrder.
Context {img : Type} `{CV2 R img}.
Variable resized : R -> img.
Variable template : img.
Local Open Scope R_scope.

Local Abbreviation score := (score_at resized template).
Local Abbreviation answer := (answer_at resized template).

Lemma keep_best_R v0 loc0 s0 s :
  keep_best resized template (Some (v0, loc0, s0)) s
  = if Rlt_dec v0 (score s)
    then Some (score s, snd (answer s), s)
    else Some (v0, loc0, s0).
Proof.
  unfold keep_best, update_found, score_at, answer_at.
  destruct (match_template (resized s) template) as [v loc]; cbn.
  unfold R_ltb. now destruct (Rlt_dec v0 v).
Qed.

(** Starting from a best-so-far of score [v0], the loop either keeps it
    (nothing later is strictly better) or ends on the first strictly
    better scale of greatest score. *)
Lemma fold_keep_best_from l : forall v0 loc0 s0,
  let r := fold_left (keep_best resized template) l (Some (v0, loc0, s0)) in
  (r = Some (v0, loc0, s0) /\ Forall (fun s' => score s' <= v0) l)
  \/ (exists v loc s, r = Some (v, loc, s)
                      /\ v0 < v /\ first_best resized template l (v, loc, s)).
Proof.
  induction l as [|c l IH]; intros v0 loc0 s0; cbn zeta.
  - left. split; [reflexivity|constructor].
  - cbn [fold_left]. rewrite keep_best_R.
    destruct (Rlt_dec v0 (score c)) as [Hlt|Hge].
    + right.
      destruct (IH (score c) (snd (answer c)) c) as [[-> Hall]|(v & loc & s & -> & Hv & Hfb)].
      * exists (score c), (snd (answer c)), c. split; [reflexivity|].
        split; [exact Hlt|].
        exists [], l. repeat split; auto.
        unfold score_at. now destruct (answer c).
      * exists v, loc, s. split; [reflexivity|]. split; [lra|].
        destruct Hfb as (before & after & -> & Hans & Hb & Ha).
        exists (c :: before), after. repeat split; auto.
    + destruct (IH v0 loc0 s0) as [[-> Hall]|(v & loc & s & -> & Hv & Hfb)].
      * left. split; [reflexivity|]. constructor; [lra|exact Hall].
      * right. exists v, loc, s. split; [reflexivity|]. split; [exact Hv|].
        destruct Hfb as (before & after & -> & Hans & Hb & Ha).
        exists (c :: before), after. repeat split; auto.
        constructor; [lra|exact Hb].
Qed.

Lemma fold_keep_best_first l :
  match fold_left (keep_best resized template) l None with
  | None => l = []
  | Some r => first_best resized template l r
  end.
Proof.
  destruct l as [|c l]; [reflexivity|].
  cbn [fold_left]. unfold keep_best at 2, update_found.
  fold (answer c).
  destruct (answer c) as [vc locc] eqn:Hc.
  assert (Hsc : score c = vc) by (unfold score_at; now rewrite Hc).
  destruct (fold_keep_best_from l vc locc c) as [[-> Hall]|(v & loc & s & -> & Hv & Hfb)].
  - exists [], l. repeat split; auto.
  - destruct Hfb as (before & after & -> & Hans & Hb & Ha).
    exists (c :: before), after. repeat split; auto.
    constructor; [lra|exact Hb].
Qed.
End MatcherOrder.

(** C3 as stated fails: on the scripted camera, at binary64, a frame of
    1 x 1 pixel is smaller than the 200 x 130 template at every scale at
    which it can be resized at all, yet [find_match] does not return
    [None]: the resize by 0.5 is refused and the call raises
    [cv2.error]. *)
Lemma tiny_frame_is_not_answered_none :
  @resize float _ (scripted_cv disk_both) frame_1x1 0.5%float 0.5%float = None
  /\ @find_match float _ _ (scripted_cv disk_both) frame_1x1
       (Some (small_template "objectA.png"))
     = Raised CvError.
Proof. split; vm_compute; reflexivity. Qed.

(** C3 (amended).  A scale whose resized frame has fewer rows or fewer
    columns than the template is skipped (it leaves [found] as it was).
    [find_match] raises [cv2.error] exactly when [cv2.resize] refuses the
    frame at one of the 5 scales (a side of the scaled frame rounds to 0);
    when every resize succeeds it returns, and it returns [None] exactly
    when every resized frame is smaller than the template in either
    dimension. *)
Theorem find_match_none_iff_all_skipped
    {F : Type} `{PyNum F} {img : Type} `{CV2 F img} (frame_gray template : img) :
  (forall resized,
      too_small resized template = true
      <-> (fst (shape resized) < fst (shape template))%Z
          \/ (snd (shape resized) < snd (shape template))%Z)
  /\ (forall found s resized,
        resize frame_gray s s = Some resized ->
        too_small resized template = true ->
        try_scale frame_gray template found s = Done found)
  /\ List.length (scales (F:=F)) = 5%nat
  /\ (find_match frame_gray (Some template) = Raised CvError
      <-> exists s, In s scales /\ resize frame_gray s s = None)
  /\ ((forall s, In s scales -> resize frame_gray s s <> None) ->
      exists r, find_match frame_gray (Some template) = Done r)
  /\ (find_match frame_gray (Some template) = Done None
      <-> forall s, In s scales ->
                    exists resized,
                      resize frame_gray s s = Some resized
                      /\ too_small resized template = true).
Proof.
  split; [|split; [|split; [|split; [|split]]]].
  - intros resized. unfold too_small.
    rewrite orb_true_iff, !Z.ltb_lt. reflexivity.
  - intros found s resized. apply try_scale_skipped.
  - reflexivity.
  - apply find_match_raises_iff.
  - apply find_match_returns.
  - split.
    + intros Hnone.
      assert (Hall : forall s, In s scales -> resize frame_gray s s <> None).
      { intros s Hin Hs.
        assert (Hr : find_match frame_gray (Some template) = Raised CvError)
          by (apply find_match_raises_iff; eauto).
        congruence. }
      pose proof (resized_of_all frame_gray scales Hall) as Hres.
      rewrite (find_match_resized frame_gray template _ Hres) in Hnone.
      injection Hnone as Hnone. apply fold_keep_best_none in Hnone.
      intros s Hin. exists (resized_of frame_gray s). split; [now apply Hres|].
      now apply (proj1 (tried_nil_iff template _ scales) Hnone).
    + intros Hall.
      assert (Hres : forall s, In s scales ->
                               resizes_to frame_gray (resized_of frame_gray) s).
      { apply resized_of_all. intros s Hin.
        destruct (Hall s Hin) as (r & -> & _). discriminate. }
      rewrite (find_match_resized frame_gray template _ Hres). f_equal.
      apply fold_keep_best_none. apply tried_nil_iff.
      intros s Hin. destruct (Hall s Hin) as (r & Hr & Hsm).
      unfold resized_of. now rewrite Hr.
Qed.

(** C3, at an input: on the scripted camera, at binary64, a frame that is
    130 x 200 at every scale is resized at each of the five scales and is
    each time narrower than a template 1000 wide: [find_match] returns
    [None]. *)
Lemma find_match_none_iff_all_skipped_witness :
  @find_match float _ _ (scripted_cv disk_both) (small_template "frame")
    (Some (flat_template "objectA.png"))
  = Done None.
Proof.
  apply (proj2 (proj2 (proj2 (proj2 (proj2 (proj2
           (@find_match_none_iff_all_skipped float _ _ (scripted_cv disk_both)
              (small_template "frame") (flat_template "objectA.png")))))))).
  intros s _. eexists. split; [reflexivity|]. vm_compute. reflexivity.
Defined.

(** C2 as stated fails: on the scripted camera, at binary64, a frame of
    1 row and 3 columns has no row left when it is resized by 0.5, the
    first of the scale factors; [cv2.resize] refuses it and [find_match]
    raises [cv2.error] instead of returning a triple or [None]. *)
Lemma flat_frame_is_not_matched :
  @resize float _ (scripted_cv disk_both) frame_1x3 0.5%float 0.5%float = None
  /\ @find_match float _ _ (scripted_cv disk_both) frame_1x3
       (Some (small_template "objectA.png"))
     = Raised CvError.
Proof. split; vm_compute; reflexivity. Qed.

(** C2 (amended).  [find_match] goes through exactly the 5 evenly spaced
    scale factors 0.5, 0.75, 1.0, 1.25, 1.5 (both as binary64 values and as
    real numbers) and resizes the frame by each factor on both axes.  It
    raises [cv2.error] exactly when [cv2.resize] refuses the frame at one
    of them.  When every resize succeeds it returns the
    [(score, location, scale)] triple of highest score over the scales that
    were not skipped ([None] when all were); among scales of equal score
    the first encountered wins, the comparison with the best so far being
    strict: every scale tried before the returned one scored strictly less,
    every scale tried after it scored at most as much. *)
Theorem find_match_first_best
    {img : Type} `{CV2 R img} (frame_gray template : img) :
  scales (F:=float) = [0.5; 0.75; 1; 1.25; 1.5]%float
  /\ scales (F:=R) = [0.5; 0.75; 1; 1.25; 1.5]%R
  /\ (find_match frame_gray (Some template) = Raised CvError
      <-> exists s, In s scales /\ resize frame_gray s s = None)
  /\ (forall resized : R -> img,
        (forall s, In s scales -> resize frame_gray s s = Some (resized s)) ->
        (forall s, answer_at resized template s
                   = match_template (resized s) template)
        /\ exists r,
            find_match frame_gray (Some template) = Done r
            /\ match r with
               | None => tried resized template scales = []
               | Some (v, loc, s) =>
                   exists before after,
                     tried resized template scales = before ++ s :: after
                     /\ answer_at resized template s = (v, loc)
                     /\ Forall (fun s' => (score_at resized template s' < v)%R)
                          before
                     /\ Forall (fun s' => (score_at resized template s' <= v)%R)
                          after
               end).
Proof.
  split; [exact scales_float|]. split; [exact scales_R|].
  split; [apply find_match_raises_iff|].
  intros resized Hres. split; [reflexivity|].
  eexists. split; [apply (find_match_resized frame_gray template resized Hres)|].
  pose proof (fold_keep_best_first resized template
                (tried resized template scales)) as Hfb.
  destruct (fold_left _ _ None) as [[[v loc] s]|]; exact Hfb.
Qed.

(** C2, at an input: on the scripted camera over the reals, a frame that
    is 130 x 200 at every scale is resized at each of the five scales, so
    [find_match] returns, and what it returns is first-best over the
    scales tried. *)
Lemma find_match_first_best_witness :
  let resized := fun s : R =>
    {| name := "frame"; zoom := s;
       shape_at := fun _ : R => (130, 200)%Z;
       match_at := fun (_ : string) (_ : R) => (f_of_Z 0, (0, 0)%Z) |} in
  let template := small_template (F:=R) "objectA.png" in
  (forall s, @answer_at R _ (scripted_cv disk_both) resized template s
             = @match_template R _ (scripted_cv disk_both) (resized s) template)
  /\ exists r,
      @find_match R _ _ (scripted_cv disk_both) (small_template "frame")
        (Some template) = Done r
      /\ match r with
         | None => @tried R _ (scripted_cv disk_both) resized template scales = []
         | Some (v, loc, s) =>
             exists before after,
               @tried R _ (scripted_cv disk_both) resized template scales
               = before ++ s :: after
               /\ @answer_at R _ (scripted_cv disk_both) resized template s
                  = (v, loc)
               /\ Forall (fun s' =>
                            (@score_at R _ (scripted_cv disk_both) resized
                               template s' < v)%R) before
               /\ Forall (fun s' =>
                            (@score_at R _ (scripted_cv disk_both) resized
                               template s' <= v)%R) after
         end.
Proof.
  intros resized template.
  apply (proj2 (proj2 (proj2
           (@find_match_first_best _ (scripted_cv disk_both)
              (small_template "frame") template))) resized).
  intros s _. reflexivity.
Defined.

(** ** Statements *)

Lemma bind_ret_l {S T U : Type} (v : T) (k : T -> stmt S U) (st : S) :
  bind (ret v) k st = k v st.
Proof. unfold bind, ret. now destruct (k v st) as [[r st2] ev2]. Qed.

(** ** The debounced counter *)

Section CounterFacts.
Context {F : Type} `{PyNum F} {img : Type} `{CV2 F img}.
Variable template : label -> option img.
Local Open Scope py_scope.

Lemma counted_same l now (st : tracker F) :
  count l (counted l now st) = (count l st + 1)%Z
  /\ last_seen l (counted l now st) = now.
Proof. destruct l; split; reflexivity. Qed.

Lemma counted_other l l' now (st : tracker F) :
  l <> l' ->
  count l' (counted l now st) = count l' st
  /\ last_seen l' (counted l now st) = last_seen l' st.
Proof. destruct l, l'; intros Hne; try congruence; split; reflexivity. Qed.

(** One [check_object] either leaves the state alone or counts [l], and it
    counts only a qualifying match. *)
Lemma check_object_state l gray now st :
  state_after (check_object template l gray now) st = st
  \/ (state_after (check_object template l gray now) st = counted l now st
      /\ exists v loc s,
          find_match gray (template l) = Done (Some (v, loc, s))
          /\ (v >? THRESHOLD) = true
          /\ ((now - last_seen l st) >? COOLDOWN_TIME) = true).
Proof.
  unfold state_after, check_object, bind, lift.
  destruct (find_match gray (template l)) as [[[[v loc] s]|]|e] eqn:Hfm;
    cbn; auto.
  destruct (v >? THRESHOLD) eqn:Hv; cbn; auto.
  unfold bind, get, modify, emit, ret, lift; cbn.
  destruct ((now - last_seen l st) >? COOLDOWN_TIME) eqn:Hcd; cbn.
  - right. split; [|exists v, loc, s; auto].
    destruct (template_shape template l); reflexivity.
  - left. destruct (template_shape template l); reflexivity.
Qed.

(** The state a turn of the loop leaves: [check_object] ran for A, then for
    B, each as far as the turn got. *)
Lemma loop_body_state c st :
  state_after (loop_body template c) st = st
  \/ (exists gray,
        capture c = Some gray
        /\ let st1 := state_after (check_object template ObjectA gray (clock c)) st in
           state_after (loop_body template c) st = st1
           \/ state_after (loop_body template c) st
              = state_after (check_object template ObjectB gray (clock c)) st1).
Proof.
  unfold loop_body, fetch.
  destruct (capture c) as [gray|]; [|left; reflexivity].
  right. exists gray. split; [reflexivity|]. cbn zeta.
  unfold state_after at 1 3. unfold try_except. rewrite bind_ret_l.
  set (mA := check_object template ObjectA gray (clock c)).
  set (mB := check_object template ObjectB gray (clock c)).
  clearbody mA mB.
  unfold state_after, try_except, bind, ret, lift, get, emit; cbn.
  destruct (mA st) as [[[[]|e1] st1] ev1]; cbn; [|left; reflexivity].
  right.
  destruct (mB st1) as [[[[]|e2] st2] ev2]; reflexivity.
Qed.

(** C1, one turn, one label: the turn leaves the label's count and timestamp
    alone, or it adds one to the count and stamps it with the clock; it does
    the latter only on a qualifying match. *)
Lemma loop_body_label l c st :
  let st' := state_after (loop_body template c) st in
  (count l st' = count l st /\ last_seen l st' = last_seen l st)
  \/ (count l st' = (count l st + 1)%Z
      /\ last_seen l st' = clock c
      /\ qualifies template l c st).
Proof.
  cbn zeta.
  destruct (loop_body_state c st) as [->|(gray & Hcap & Hst)]; [now left|].
  cbn zeta in Hst.
  pose proof (check_object_state ObjectA gray (clock c) st) as HA.
  set (st1 := state_after (check_object template ObjectA gray (clock c)) st) in *.
  pose proof (check_object_state ObjectB gray (clock c) st1) as HB.
  assert (H1 : (count l st1 = count l st /\ last_seen l st1 = last_seen l st)
               \/ (l = ObjectA /\ st1 = counted ObjectA (clock c) st
                   /\ qualifies template ObjectA c st)).
  { destruct HA as [->|[-> (v & loc & s & Hfm & Hv & Hcd)]]; [now left|].
    destruct l.
    - right. repeat split; auto. exists gray, v, loc, s. auto.
    - left. apply counted_other. discriminate. }
  destruct Hst as [->| ->].
  - destruct H1 as [H1|(-> & -> & Hq)]; [now left|].
    right. destruct (counted_same ObjectA (clock c) st). auto.
  - destruct HB as [->|[-> (v & loc & s & Hfm & Hv & Hcd)]].
    + destruct H1 as [H1|(-> & -> & Hq)]; [now left|].
      right. destruct (counted_same ObjectA (clock c) st). auto.
    + destruct l.
      * destruct (counted_other ObjectB ObjectA (clock c) st1) as [Hc Hl];
          [discriminate|]. rewrite Hc, Hl.
        destruct H1 as [H1|(_ & -> & Hq)]; [now left|].
        right. destruct (counted_same ObjectA (clock c) st). auto.
      * destruct (counted_same ObjectB (clock c) st1) as [Hc Hl].
        rewrite Hc, Hl. right.
        assert (Hsame : count ObjectB st1 = count ObjectB st
                        /\ last_seen ObjectB st1 = last_seen ObjectB st).
        { destruct H1 as [H1|(Habs & _)]; [exact H1|discriminate]. }
        destruct Hsame as [Hc1 Hl1]. rewrite Hc1. repeat split.
        exists gray, v, loc, s. rewrite <- Hl1. auto.
Qed.

(** A turn of the loop never lets an exception out. *)
Lemma loop_body_done c st :
  result_of (loop_body template c) st = Done tt.
Proof.
  unfold result_of, loop_body, try_except.
  destruct (bind (fetch c) _ st) as [[[[]|e] st1] ev1]; reflexivity.
Qed.

Lemma run_cons_state c cs st :
  state_after (run template (c :: cs)) st
  = let st' := state_after (loop_body template c) st in
    if key_q c then st' else state_after (run template cs) st'.
Proof.
  cbn [run]. cbn zeta.
  pose proof (loop_body_done c st) as Hd.
  unfold state_after, result_of, bind in *.
  destruct (loop_body template c st) as [[r st1] ev1]; cbn in Hd |- *.
  subst r. destruct (key_q c); cbn; [reflexivity|].
  now destruct (run template cs st1) as [[r2 st2] ev2].
Qed.

(** Over a run, the count of a label is its count at the start plus the
    number of times it was counted. *)
Lemma run_count l cs : forall st,
  count l (state_after (run template cs) st)
  = (count l st + Z.of_nat (List.length (count_times template l cs st)))%Z.
Proof.
  induction cs as [|c cs IH]; intros st.
  - cbn. lia.
  - rewrite run_cons_state. cbn [count_times]. cbn zeta.
    rewrite length_app.
    destruct (loop_body_label l c st) as [[Hc _]|(Hc & _ & _)];
      cbn zeta in Hc; rewrite Hc.
    + rewrite Z.ltb_irrefl. destruct (key_q c); [cbn; lia|].
      rewrite IH, Hc. cbn [List.length]. lia.
    + replace (count l st <? count l st + 1)%Z with true
        by (symmetry; apply Z.ltb_lt; lia).
      destruct (key_q c); [cbn; lia|].
      rewrite IH, Hc. cbn [List.length]. lia.
Qed.

(** Counts never go down. *)
Lemma run_count_monotone l cs st :
  (count l st <= count l (state_after (run template cs) st))%Z.
Proof. rewrite run_count. lia. Qed.

(** Every count passed the cooldown test against the count before it. *)
Lemma run_cooled_down l cs : forall st,
  cooled_down (last_seen l st) (count_times template l cs st).
Proof.
  induction cs as [|c cs IH]; intros st; [exact I|].
  cbn [count_times]. cbn zeta.
  destruct (loop_body_label l c st) as [[Hc Hl]|(Hc & Hl & Hq)];
    cbn zeta in Hc, Hl; rewrite Hc.
  - rewrite Z.ltb_irrefl. cbn [app].
    destruct (key_q c); [exact I|]. rewrite <- Hl. apply IH.
  - replace (count l st <? count l st + 1)%Z with true
      by (symmetry; apply Z.ltb_lt; lia).
    cbn [app cooled_down]. split.
    + destruct Hq as (gray & v & loc & s & _ & _ & _ & Hcd). exact Hcd.
    + destruct (key_q c); [exact I|]. rewrite <- Hl. apply IH.
Qed.

(** A frame that shows [l] above the threshold: the turn applies [debounce]
    to the label's count and timestamp.  (For B this needs A's template:
    without it the turn ends in the handler before B is looked at.) *)
Lemma check_object_fixed_match l gray v loc s now st :
  find_match gray (template l) = Done (Some (v, loc, s)) ->
  (v >? THRESHOLD) = true ->
  result_of (check_object template l gray now) st = Done tt
  /\ state_after (check_object template l gray now) st
     = if (now - last_seen l st) >? COOLDOWN_TIME
       then counted l now st else st.
Proof.
  intros Hfm Hv.
  assert (Hsh : exists hw, template_shape template l = Done hw).
  { unfold template_shape. unfold find_match in Hfm.
    destruct (template l); [eauto|discriminate]. }
  destruct Hsh as [hw Hsh].
  unfold result_of, state_after, check_object, bind, lift.
  rewrite Hfm; cbn. rewrite Hv; cbn.
  unfold bind, get, modify, emit, ret, lift; cbn. rewrite Hsh.
  destruct ((now - last_seen l st) >? COOLDOWN_TIME); cbn; auto.
Qed.

Lemma check_object_done l gray now st m :
  find_match gray (template l) = Done m ->
  result_of (check_object template l gray now) st = Done tt.
Proof.
  intros Hfm.
  assert (Hsh : exists hw, template_shape template l = Done hw).
  { unfold template_shape. unfold find_match in Hfm.
    destruct (template l); [eauto|discriminate]. }
  destruct Hsh as [hw Hsh].
  unfold result_of, check_object, bind, lift. rewrite Hfm.
  destruct m as [[[v loc] s]|]; cbn; [|reflexivity].
  destruct (v >? THRESHOLD); cbn; [|reflexivity].
  unfold bind, get, modify, emit, ret, lift; cbn. rewrite Hsh.
  destruct ((now - last_seen l st) >? COOLDOWN_TIME); reflexivity.
Qed.

(** When [find_match] raises, [check_object] raises the same and does
    nothing else. *)
Lemma check_object_raised l gray now st e :
  find_match gray (template l) = Raised e ->
  check_object template l gray now st = (Raised e, st, []).
Proof. intros Hfm. unfold check_object, bind, lift. now rewrite Hfm. Qed.

(** A frame on which [find_match] returns for one label is one on which it
    returns for every label that has a template. *)
Lemma find_match_done_other l l' gray m :
  find_match gray (template l) = Done m ->
  template l' <> None ->
  exists m', find_match gray (template l') = Done m'.
Proof.
  intros Hfm Ht'.
  destruct (template l') as [t'|] eqn:Et'; [|congruence].
  destruct (find_match gray (Some t')) as [m'|e] eqn:Hfm'; [eauto|].
  destruct (template l) as [t|] eqn:Et; [|discriminate].
  rewrite (find_match_raises_any_template gray t' t e Hfm') in Hfm.
  discriminate.
Qed.

Lemma loop_body_state_eq c gray st :
  capture c = Some gray ->
  state_after (loop_body template c) st
  = match result_of (check_object template ObjectA gray (clock c)) st with
    | Done _ =>
        state_after (check_object template ObjectB gray (clock c))
          (state_after (check_object template ObjectA gray (clock c)) st)
    | Raised _ => state_after (check_object template ObjectA gray (clock c)) st
    end.
Proof.
  intros Hcap. unfold loop_body, fetch. rewrite Hcap.
  unfold state_after at 1. unfold try_except. rewrite bind_ret_l.
  set (mA := check_object template ObjectA gray (clock c)).
  set (mB := check_object template ObjectB gray (clock c)).
  clearbody mA mB.
  unfold result_of, state_after, bind, get, emit; cbn.
  destruct (mA st) as [[[[]|e1] st1] ev1]; cbn; [|reflexivity].
  destruct (mB st1) as [[[[]|e2] st2] ev2]; reflexivity.
Qed.

Lemma loop_body_fixed_match l gray v loc s c st :
  template ObjectA <> None ->
  capture c = Some gray ->
  find_match gray (template l) = Done (Some (v, loc, s)) ->
  (v >? THRESHOLD) = true ->
  let st' := state_after (loop_body template c) st in
  (count l st', last_seen l st')
  = debounce (count l st, last_seen l st) (clock c).
Proof.
  intros HtA Hcap Hfm Hv. cbn zeta.
  rewrite (loop_body_state_eq c gray st Hcap).
  destruct (find_match_done_other l ObjectA gray _ Hfm HtA) as [mA HmA].
  rewrite (check_object_done ObjectA gray (clock c) st mA HmA).
  unfold debounce; cbn [fst snd].
  pose proof (check_object_state ObjectA gray (clock c) st) as HsA.
  set (st1 := state_after (check_object template ObjectA gray (clock c)) st) in *.
  pose proof (check_object_state ObjectB gray (clock c) st1) as HsB.
  destruct l.
  - destruct (check_object_fixed_match ObjectA gray v loc s (clock c) st Hfm Hv) as [_ Hl].
    fold st1 in Hl.
    assert (HB : count ObjectA (state_after (check_object template ObjectB gray (clock c)) st1)
                 = count ObjectA st1
                 /\ last_seen ObjectA (state_after (check_object template ObjectB gray (clock c)) st1)
                    = last_seen ObjectA st1).
    { destruct HsB as [->|[-> _]]; [now split|].
      apply counted_other. discriminate. }
    destruct HB as [-> ->]. rewrite Hl.
    destruct ((clock c - last_seen ObjectA st) >? COOLDOWN_TIME);
      [|reflexivity].
    destruct (counted_same ObjectA (clock c) st) as [-> ->]. reflexivity.
  - destruct (check_object_fixed_match ObjectB gray v loc s (clock c) st1 Hfm Hv) as [_ Hl].
    rewrite Hl.
    assert (HA : count ObjectB st1 = count ObjectB st
                 /\ last_seen ObjectB st1 = last_seen ObjectB st).
    { destruct HsA as [->|[-> _]]; [now split|].
      apply counted_other. discriminate. }
    destruct HA as [Hc1 Hl1]. rewrite Hl1.
    destruct ((clock c - last_seen ObjectB st) >? COOLDOWN_TIME).
    + destruct (counted_same ObjectB (clock c) st1) as [-> ->].
      now rewrite Hc1.
    + now rewrite Hc1, Hl1.
Qed.

(** Turns that all see a frame showing [l] above the threshold fold
    [debounce] over their clock readings. *)
Lemma run_watching l gray v loc s times :
  template ObjectA <> None ->
  find_match gray (template l) = Done (Some (v, loc, s)) ->
  (v >? THRESHOLD) = true ->
  forall st,
    let st' := state_after (run template (watching gray times)) st in
    (count l st', last_seen l st')
    = fold_left debounce times (count l st, last_seen l st).
Proof.
  intros HtA Hfm Hv. induction times as [|t times IH]; intros st; cbn zeta.
  - reflexivity.
  - cbn [watching map]. rewrite run_cons_state. cbn [key_q fold_left].
    cbn zeta. fold (watching (F:=F) gray times).
    rewrite IH.
    set (c := {| capture := Some gray; clock := t; key_q := false |}).
    rewrite (loop_body_fixed_match l gray v loc s c st HtA eq_refl Hfm Hv).
    reflexivity.
Qed.

Lemma count_times_watching l gray v loc s times :
  template ObjectA <> None ->
  find_match gray (template l) = Done (Some (v, loc, s)) ->
  (v >? THRESHOLD) = true ->
  forall st,
    count_times template l (watching gray times) st
    = debounce_times (count l st, last_seen l st) times.
Proof.
  intros HtA Hfm Hv. induction times as [|t times IH]; intros st.
  - reflexivity.
  - cbn [watching map count_times debounce_times key_q]. cbn zeta.
    fold (watching (F:=F) gray times).
    set (c := {| capture := Some gray; clock := t; key_q := false |}).
    pose proof (loop_body_fixed_match l gray v loc s c st HtA eq_refl Hfm Hv)
      as Hstep. cbn zeta in Hstep. subst c. cbn [clock] in Hstep.
    rewrite IH. rewrite <- Hstep. cbn [fst]. reflexivity.
Qed.
End CounterFacts.

(** *** The counter over real time *)

(** Readings that pass the cooldown test one after the other are pairwise
    more than [COOLDOWN_TIME] apart. *)
Lemma cooled_down_apart (ts : list R) : forall prev,
  cooled_down prev ts ->
  Forall (fun t => 2 < t - prev)%R ts
  /\ ForallOrdPairs (fun t1 t2 => 2 < t2 - t1)%R ts.
Proof.
  induction ts as [|t ts IH]; intros prev Hcd.
  - split; constructor.
  - destruct Hcd as [Ht Hts]. apply R_ltb_lt in Ht. cbn in Ht.
    destruct (IH t Hts) as [Hall Hpairs]. split.
    + constructor; [exact Ht|].
      eapply Forall_impl; [|exact Hall]. cbn. intros a Ha. lra.
    + constructor; assumption.
Qed.

(** C1 (amended).  For every label and every sequence of turns of the loop,
    the label's count never decreases, and a turn adds at most one to it: it
    does so only when the match score exceeds [THRESHOLD] and
    [now - last_seen > COOLDOWN_TIME], and then sets [last_seen] to [now];
    otherwise count and timestamp stay.  So every count passes the cooldown
    test against the count before it, and over real time any two counts of
    a label are more than [COOLDOWN_TIME] apart.  On turns that all see a
    frame showing the label above the threshold (for label B provided A's
    template is loaded, without which no turn reaches B), the run applies
    the cooldown test to the clock readings one after the other: a reading
    is counted when it is more than [COOLDOWN_TIME] after the last counted
    one, as the float subtraction and comparison see it.  The test is
    strict, so a frame 2.0 s after a count is not counted: at binary64,
    20 frames 0.5 s apart from the clock reading 1700000000 are counted 4
    times (at 0, 2.5, 5 and 7.5 s), not 5; where the rounding of the
    readings makes a gap of 2.0 s come out above 2, as from the reading
    10.1, they are counted 5 times (at 10.1, 12.6, 15.1, then already at
    17.1, and at 19.6). *)
Theorem counter_monotone_and_debounced :
  (forall (F : Type) (N : PyNum F) (img : Type) (cv : CV2 F img)
          (template : label -> option img) (l : label),
      (forall c st,
          let st' := state_after (loop_body template c) st in
          (count l st' = count l st /\ last_seen l st' = last_seen l st)
          \/ (count l st' = (count l st + 1)%Z
              /\ last_seen l st' = clock c
              /\ qualifies template l c st))
      /\ (forall cs st,
            (count l st <= count l (state_after (run template cs) st))%Z)
      /\ (forall cs st,
            count l (state_after (run template cs) st)
            = (count l st
               + Z.of_nat (List.length (count_times template l cs st)))%Z)
      /\ (forall cs st,
            cooled_down (last_seen l st) (count_times template l cs st)))
  /\ (forall (img : Type) (cv : CV2 R img)
             (template : label -> option img) (l : label) cs st,
        ForallOrdPairs (fun t1 t2 => 2 < t2 - t1)%R
          (count_times template l cs st))
  /\ (forall (F : Type) (N : PyNum F) (img : Type) (cv : CV2 F img)
             (template : label -> option img) (l : label)
             (gray : img) (v : F) (loc : Z * Z) (s : F)
             (times : list F) (st : tracker F),
        template ObjectA <> None ->
        find_match gray (template l) = Done (Some (v, loc, s)) ->
        (v >? THRESHOLD)%py = true ->
        (let st' := state_after (run template (watching gray times)) st in
         (count l st', last_seen l st')
         = fold_left debounce times (count l st, last_seen l st))
        /\ count_times template l (watching gray times) st
           = debounce_times (count l st, last_seen l st) times)
  /\ @count_times float _ _ (scripted_cv disk_both)
       (templates_of (Some (small_template "objectA.png"))
                     (Some (small_template "objectB.png")))
       ObjectA
       (watching (frame_320x240 (fun _ => 0.9) (fun _ => 0.3))%float
                 (ticks (f_of_Z 1700000000) 20))
       initial
     = [1700000000; 1700000002.5; 1700000005; 1700000007.5]%float
  /\ @count_times float _ _ (scripted_cv disk_both)
       (templates_of (Some (small_template "objectA.png"))
                     (Some (small_template "objectB.png")))
       ObjectA
       (watching (frame_320x240 (fun _ => 0.9) (fun _ => 0.3))%float
                 (ticks (lit 101 10) 20))
       initial
     = [10.1; 12.6; 15.1; 17.100000000000001; 19.600000000000001]%float.
Proof.
  split; [|split; [|split; [|split]]].
  - intros F N img cv template l. repeat split.
    + intros c st. apply loop_body_label.
    + intros cs st. apply run_count_monotone.
    + intros cs st. apply run_count.
    + intros cs st. apply run_cooled_down.
  - intros img cv template l cs st.
    apply (cooled_down_apart _ (last_seen l st)). apply run_cooled_down.
  - intros F N img cv template l gray v loc s times st HtA Hfm Hv. split.
    + apply (run_watching template l gray v loc s times HtA Hfm Hv st).
    + apply (count_times_watching template l gray v loc s times HtA Hfm Hv st).
  - vm_compute. reflexivity.
  - vm_compute. reflexivity.
Qed.

(** C1, at an input: on the scripted camera at binary64, with both
    templates on disk, a frame showing A at score 0.9 every 0.5 s from the
    clock reading 1700000000 is counted 4 times in 20 frames. *)
Lemma counter_debounced_witness :
  count ObjectA
    (state_after
       (@run float _ _ (scripted_cv disk_both)
          (templates_of (Some (small_template "objectA.png"))
                        (Some (small_template "objectB.png")))
          (watching (frame_320x240 (fun _ => 0.9) (fun _ => 0.3))%float
                    (ticks (f_of_Z 1700000000) 20)))
       initial)
  = 4%Z.
Proof.
  pose proof (proj1
                (proj1 (proj2 (proj2 counter_monotone_and_debounced))
                   float _ _ (scripted_cv disk_both)
                   (templates_of (Some (small_template "objectA.png"))
                                 (Some (small_template "objectB.png")))
                   ObjectA
                   (frame_320x240 (fun _ => 0.9) (fun _ => 0.3))%float
                   0.90000000000000002%float (40, 30)%Z 0.75%float
                   (ticks (f_of_Z 1700000000) 20) initial
                   ltac:(discriminate)
                   ltac:(vm_compute; reflexivity)
                   ltac:(vm_compute; reflexivity))) as Hw.
  cbn zeta in Hw. apply (f_equal fst) in Hw. cbn [fst] in Hw.
  rewrite Hw. vm_compute. reflexivity.
Defined.

(** C1 as stated fails: at binary64, on the scripted camera, a match of
    score 0.9 repeated every 0.5 s for 10 s (20 frames) is counted 4 times,
    not 5, from the clock reading 1700000000; and 3 times from the clock
    reading 0, where the first frame is within the cooldown of the initial
    [last_seen = 0]. *)
Lemma ten_seconds_count_four :
  snd (fst (tracker_on (F:=float) disk_both
              (watching (frame_320x240 (fun _ => 0.9) (fun _ => 0.3))%float
                        (ticks (f_of_Z 1700000000) 20))))
  = {| count_a := 4; count_b := 0;
       last_seen_a := 1700000007.5%float; last_seen_b := 0%float |}
  /\ snd (fst (tracker_on (F:=float) disk_both
                 (watching (frame_320x240 (fun _ => 0.9) (fun _ => 0.3))%float
                           (ticks (f_of_Z 0) 20))))
     = {| count_a := 3; count_b := 0;
          last_seen_a := 7.5%float; last_seen_b := 0%float |}.
Proof. split; vm_compute; reflexivity. Qed.
(** ** A missing template *)

Section MissingTemplate.
Context {F : Type} `{PyNum F} {img : Type} `{CV2 F img}.
Local Open Scope py_scope.

(** An unreadable file: the load prints the error and returns [None]. *)
Lemma load_and_prep_missing (path : string) :
  imread path = None ->
  load_and_prep path = (Done None, [PrintLoadError path]).
Proof. intros Hr. unfold load_and_prep. now rewrite Hr. Qed.

(** Without a template, [check_object] raises before it looks at the
    frame. *)
Lemma check_object_no_template (template : label -> option img) l gray now st :
  template l = None ->
  check_object template l gray now st = (Raised AttributeError, st, []).
Proof.
  intros Ht. unfold check_object, bind, lift, find_match. now rewrite Ht.
Qed.

(** With A's template missing, a turn that got a frame ends in the handler
    before B is looked at. *)
Lemma loop_body_without_a (template_b : option img) c gray st :
  capture c = Some gray ->
  loop_body (templates_of None template_b) c st
  = (Done tt, st, [PrintConnectionError AttributeError; Sleep 2]).
Proof.
  intros Hcap. unfold loop_body, fetch. rewrite Hcap.
  unfold try_except. rewrite bind_ret_l. unfold bind at 1.
  rewrite check_object_no_template by reflexivity. reflexivity.
Qed.

Lemma loop_body_no_frame (template : label -> option img) c st :
  capture c = None ->
  loop_body template c st
  = (Done tt, st, [PrintConnectionError CaptureError; Sleep 2]).
Proof.
  intros Hcap. unfold loop_body, fetch. rewrite Hcap. reflexivity.
Qed.

Lemma run_without_a (template_b : option img) cs : forall st,
  state_after (run (templates_of None template_b) cs) st = st.
Proof.
  induction cs as [|c cs IH]; intros st; [reflexivity|].
  rewrite run_cons_state. cbn zeta.
  assert (Hst : state_after (loop_body (templates_of None template_b) c) st = st).
  { unfold state_after. destruct (capture c) as [gray|] eqn:Hcap.
    - now rewrite (loop_body_without_a template_b c gray st Hcap).
    - now rewrite (loop_body_no_frame _ c st Hcap). }
  rewrite Hst. destruct (key_q c); [reflexivity|apply IH].
Qed.
End MissingTemplate.

(** C4, where the code departs from it.  When "objectA.png" cannot be read
    the load does print the error and return [None], and the loop goes on;
    but every turn then raises in [find_match] for A and ends in the
    handler, so B is never looked at: no run changes any count, whatever
    B's template and the frames.  On the scripted camera, frames that show
    B at score 0.9 count B when both templates are on disk, and count
    nothing (and are never shown) when only A's file is missing; when only
    B's file is missing, A is still counted and drawn, but every turn ends
    in the handler, sleeps 2 seconds and shows no frame. *)
Theorem missing_template_a_disables_b :
  (forall (F : Type) (N : PyNum F) (img : Type) (cv : CV2 F img) (path : string),
      imread path = None ->
      load_and_prep path = (Done None, [PrintLoadError path]))
  /\ (forall (F : Type) (N : PyNum F) (img : Type) (cv : CV2 F img)
             (template_b : option img) (cs : list (cycle F img)) (st : tracker F),
        state_after (run (templates_of None template_b) cs) st = st)
  /\ tracker_on (F:=float) disk_both
       (watching (frame_320x240 (fun _ => 0.3) (fun _ => 0.9))%float
                 (ticks (f_of_Z 1700000000) 2))
     = (Done tt,
        {| count_a := 0; count_b := 1;
           last_seen_a := 0%float; last_seen_b := 1700000000%float |},
        [PrintStarting; PrintDetected ObjectB 1;
         Rectangle ObjectB (200, 100)%Z (400, 230)%Z; ImShow 0 1;
         Rectangle ObjectB (200, 100)%Z (400, 230)%Z; ImShow 0 1])
  /\ tracker_on (F:=float) disk_without_a
       (watching (frame_320x240 (fun _ => 0.3) (fun _ => 0.9))%float
                 (ticks (f_of_Z 1700000000) 2))
     = (Done tt,
        {| count_a := 0; count_b := 0;
           last_seen_a := 0%float; last_seen_b := 0%float |},
        [PrintLoadError "objectA.png"; PrintStarting;
         PrintConnectionError AttributeError; Sleep 2;
         PrintConnectionError AttributeError; Sleep 2])
  /\ tracker_on (F:=float) disk_without_b
       (watching (frame_320x240 (fun _ => 0.9) (fun _ => 0.3))%float
                 (ticks (f_of_Z 1700000000) 2))
     = (Done tt,
        {| count_a := 1; count_b := 0;
           last_seen_a := 1700000000%float; last_seen_b := 0%float |},
        [PrintLoadError "objectB.png"; PrintStarting;
         PrintDetected ObjectA 1;
         Rectangle ObjectA (40, 30)%Z (240, 160)%Z;
         PrintConnectionError AttributeError; Sleep 2;
         Rectangle ObjectA (40, 30)%Z (240, 160)%Z;
         PrintConnectionError AttributeError; Sleep 2]).
Proof.
  split; [|split; [|split; [|split]]].
  - intros F N img cv path. apply load_and_prep_missing.
  - intros F N img cv template_b cs st. apply run_without_a.
  - vm_compute. reflexivity.
  - vm_compute. reflexivity.
  - vm_compute. reflexivity.
Qed.

(** ** The service: [/optimize] with too few points *)

(** C6. A request to [/optimize] whose locations list has fewer than 2
    elements (or lacks the key) is answered with status 400 and the body
    [{"error": "Need at least 2 points"}]; the handler raises nothing, emits
    nothing and leaves the module's state as it was. *)
Theorem optimize_route_too_few
    {F : Type} `{PyNum F} `{LibM F}
    (data : optimize_request F) (st : server_state) :
  (List.length (match locations data with Some l => l | None => [] end) < 2)%nat ->
  optimize_route data st
  = (Done {| status := 400; body := ErrorJson "Need at least 2 points" |},
     st, []).
Proof.
  intros Hlen. unfold optimize_route.
  destruct (locations data) as [[|p [|q l]]|]; cbn in Hlen; try lia;
    reflexivity.
Qed.

(** C6, at an input: a single point, over binary64. *)
Lemma optimize_route_too_few_witness :
  @optimize_route float _ libm_squaring
    {| locations := Some [ {| lat := NInt 0; lng := NInt 0 |} ] |}
    server_start
  = (Done {| status := 400; body := ErrorJson "Need at least 2 points" |},
     server_start, []).
Proof.
  apply (optimize_route_too_few (F:=float)). cbn. lia.
Defined.

(** ** The service: [/calculate-manual] *)

Section ManualFacts.
Context {F : Type} `{PyNum F}.
Variable float_of_str : string -> option F.
Local Open Scope py_scope.

Lemma calculate_emissions_air (d w : F) :
  calculate_emissions d w (PStr "air") = Done (emission_formula d w (lit 500 1000)).
Proof. reflexivity. Qed.

Lemma calculate_emissions_road (d w : F) :
  calculate_emissions d w (PStr "road") = Done (emission_formula d w (lit 80 1000)).
Proof. reflexivity. Qed.

Lemma calculate_emissions_formula (d w : F) (mode : pyval F) :
  calculate_emissions d w mode
  = match factor_for mode with
    | Done factor => Done (emission_formula d w factor)
    | Raised e => Raised e
    end.
Proof. reflexivity. Qed.

(** The handler on a JSON object: each field is looked up with its default,
    converted, and the first failure is what the handler raises. *)
Lemma calculate_manual_dict entries st :
  calculate_manual float_of_str (PDict entries) st
  = match py_float float_of_str (field entries "distance" (PFloat (f_of_Z 0))) with
    | Raised e => (Raised e, st, [])
    | Done distance =>
        match py_float float_of_str (field entries "weight" (PFloat (f_of_Z 0))) with
        | Raised e => (Raised e, st, [])
        | Done weight =>
            match factor_for (field entries "mode" (PStr "road")) with
            | Raised e => (Raised e, st, [])
            | Done factor =>
                let emission_kg := emission_formula distance weight factor in
                let baseline_kg := emission_formula distance weight (lit 500 1000) in
                (Done (jsonify (ManualJson emission_kg baseline_kg
                                  (py_max (f_of_Z 0) (baseline_kg - emission_kg)))),
                 st, [])
            end
        end
    end.
Proof.
  unfold calculate_manual.
  assert (Hp : (if truthy (PDict entries) then PDict entries else PDict [])
               = PDict entries) by (destruct entries; reflexivity).
  rewrite Hp. unfold payload_get. fold (field entries "distance" (PFloat (f_of_Z 0))).
  fold (field entries "weight" (PFloat (f_of_Z 0))).
  fold (field entries "mode" (PStr "road")).
  unfold bind, lift, ret; cbn [fst snd app].
  destruct (py_float float_of_str (field entries "distance" _)) as [d|e];
    [|reflexivity].
  destruct (py_float float_of_str (field entries "weight" _)) as [w|e];
    [|reflexivity].
  rewrite calculate_emissions_formula, calculate_emissions_air.
  destruct (factor_for (field entries "mode" _)) as [f|e]; reflexivity.
Qed.

(** A body that is falsy ([null], [false], [0], an empty string, list or
    object) is handled as [{}]. *)
Lemma calculate_manual_falsy request_json st :
  truthy request_json = false ->
  calculate_manual float_of_str request_json st
  = calculate_manual float_of_str (PDict []) st.
Proof. intros Hf. unfold calculate_manual. now rewrite Hf. Qed.

(** A body that is truthy and no object has no [get]. *)
Lemma calculate_manual_not_dict request_json st :
  truthy request_json = true ->
  (forall entries, request_json <> PDict entries) ->
  calculate_manual float_of_str request_json st = (Raised AttributeError, st, []).
Proof.
  intros Ht Hnd. unfold calculate_manual. rewrite Ht.
  destruct request_json; try reflexivity. now destruct (Hnd entries).
Qed.

(** Whatever the handler answers has status 200. *)
Lemma calculate_manual_status request_json st resp st' ev :
  calculate_manual float_of_str request_json st = (Done resp, st', ev) ->
  status resp = 200%Z /\ st' = st /\ ev = []
  /\ exists e b, body resp = ManualJson e b (py_max (f_of_Z 0) (b - e)).
Proof.
  intros Hr.
  assert (Hd : exists entries,
             calculate_manual float_of_str request_json st
             = calculate_manual float_of_str (PDict entries) st).
  { destruct (truthy request_json) eqn:Ht.
    - destruct request_json;
        try (rewrite calculate_manual_not_dict in Hr;
             [discriminate|exact Ht|intros ? ?; discriminate]).
      eauto.
    - exists []. now apply calculate_manual_falsy. }
  destruct Hd as [entries Hd]. rewrite Hd, calculate_manual_dict in Hr.
  destruct (py_float _ (field entries "distance" _)); [|discriminate].
  destruct (py_float _ (field entries "weight" _)); [|discriminate].
  destruct (factor_for _); [|discriminate].
  cbn zeta in Hr. injection Hr as <- <- <-. cbn. eauto 6.
Qed.
End ManualFacts.

(** C8. [calculate_manual] returns
    [emission_kg = distance * (weight / 1000) * factor[mode]], where the
    factor falls back to road's (0.080) when the mode is not in the table,
    and [baseline_kg] is the same formula with the air factor (0.500)
    whatever the mode; [savings_kg] is [max(0.0, baseline_kg - emission_kg)].
    In particular distance 100, weight 1000, mode "rail" give 2.0, 50.0 and
    48.0, at binary64 (where every step rounds to these very values) and
    over the reals. *)
Theorem calculate_manual_formula :
  (forall (F : Type) (N : PyNum F) (float_of_str : string -> option F)
          (entries : list (string * pyval F)) (st : server_state)
          (distance weight factor : F),
      py_float float_of_str (field entries "distance" (PFloat (f_of_Z 0)))
      = Done distance ->
      py_float float_of_str (field entries "weight" (PFloat (f_of_Z 0)))
      = Done weight ->
      factor_for (field entries "mode" (PStr "road")) = Done factor ->
      calculate_manual float_of_str (PDict entries) st
      = (Done {| status := 200;
                 body :=
                   ManualJson
                     (emission_formula distance weight factor)
                     (emission_formula distance weight (lit 500 1000))
                     (py_max (f_of_Z 0)
                        (emission_formula distance weight (lit 500 1000)
                         - emission_formula distance weight factor)%py) |},
         st, []))
  /\ (forall (F : Type) (N : PyNum F) (m : string),
        factor_for (F:=F) (PStr m)
        = Done (if String.eqb "road" m then lit 80 1000
                else if String.eqb "rail" m then lit 20 1000
                else if String.eqb "air" m then lit 500 1000
                else lit 80 1000))
  /\ (lit (F:=float) 80 1000, lit (F:=float) 20 1000, lit (F:=float) 500 1000)
     = (0.080, 0.020, 0.500)%float
  /\ (lit (F:=R) 80 1000, lit (F:=R) 20 1000, lit (F:=R) 500 1000)
     = (0.080, 0.020, 0.500)%R
  /\ (forall float_of_str st,
        calculate_manual (F:=float) float_of_str
          (PDict [("distance", PInt 100); ("weight", PInt 1000);
                  ("mode", PStr "rail")]) st
        = (Done {| status := 200; body := ManualJson 2%float 50%float 48%float |},
           st, []))
  /\ (forall float_of_str st,
        calculate_manual (F:=R) float_of_str
          (PDict [("distance", PInt 100); ("weight", PInt 1000);
                  ("mode", PStr "rail")]) st
        = (Done {| status := 200; body := ManualJson 2%R 50%R 48%R |}, st, [])).
Proof.
  split; [|split; [|split; [|split; [|split]]]].
  - intros F N float_of_str entries st d w f Hd Hw Hf.
    rewrite calculate_manual_dict, Hd, Hw, Hf. reflexivity.
  - intros F N m. unfold factor_for, EMISSION_FACTORS, road_factor.
    cbn [dict_get].
    destruct (String.eqb "road" m); [reflexivity|].
    destruct (String.eqb "rail" m); [reflexivity|].
    destruct (String.eqb "air" m); reflexivity.
  - reflexivity.
  - unfold lit; cbn. repeat f_equal; lra.
  - intros float_of_str st. rewrite calculate_manual_dict. reflexivity.
  - intros float_of_str st. rewrite calculate_manual_dict.
    cbn -[Rdiv Rmult Rminus IZR]. unfold jsonify, emission_formula, py_max, lit.
    cbn [f_mul f_div f_sub f_of_Z f_ltb PyNum_R].
    replace (R_ltb _ _) with true by (symmetry; apply R_ltb_lt; lra).
    repeat f_equal; lra.
Qed.

(** C8, at the input of the specification, over binary64. *)
Lemma calculate_manual_formula_witness :
  calculate_manual (F:=float) (fun _ => None)
    (PDict [("distance", PFloat 100%float); ("weight", PFloat 1000%float);
            ("mode", PStr "rail")]) server_start
  = (Done {| status := 200; body := ManualJson 2%float 50%float 48%float |},
     server_start, []).
Proof.
  exact (proj1 calculate_manual_formula float _ (fun _ => None)
           [("distance", PFloat 100%float); ("weight", PFloat 1000%float);
            ("mode", PStr "rail")]
           server_start 100%float 1000%float 0.020%float
           eq_refl eq_refl eq_refl).
Defined.

(** C9 as stated fails: a malformed numeric field is not coerced to 0.0.
    With [distance: null] the handler raises [TypeError], whatever the
    reading of strings; with [distance: "abc"], which is no number, it
    raises [ValueError]. *)
Lemma calculate_manual_malformed_raises :
  (forall (F : Type) (N : PyNum F) (float_of_str : string -> option F)
          (st : server_state),
      calculate_manual float_of_str (PDict [("distance", PNone)]) st
      = (Raised TypeError, st, []))
  /\ calculate_manual (F:=float) (fun _ => None)
       (PDict [("distance", PStr "abc"); ("weight", PInt 1000)]) server_start
     = (Raised ValueError, server_start, []).
Proof. split; [intros F N float_of_str st|]; reflexivity. Qed.

(** C9 (amended).  On a request to [/calculate-manual] a missing field takes
    its default, 0.0 for [distance] and [weight] and "road" for [mode], and
    a falsy body is read as [{}]; the handler never answers with anything
    but status 200 (it reports no validation error) and never touches the
    module's state.  A field that is present is converted by [float]: a
    float is taken as it is, a boolean as 1.0 or 0.0, an int as the nearest
    float; a value [float] cannot convert makes the handler raise, and is
    not coerced to 0.0: [TypeError] for [null], a list or an object,
    [ValueError] for a string that is no number, [OverflowError] for an int
    beyond the range of binary64 (such as 10^400). *)
Theorem calculate_manual_defaults :
  (forall (F : Type) (N : PyNum F) (float_of_str : string -> option F),
    (forall entries key default,
        dict_get entries key = None -> field (F:=F) entries key default = default)
    /\ (forall st,
          calculate_manual float_of_str (PDict []) st
          = (Done {| status := 200;
                     body :=
                       ManualJson
                         (emission_formula (f_of_Z 0) (f_of_Z 0) (lit 80 1000))
                         (emission_formula (f_of_Z 0) (f_of_Z 0) (lit 500 1000))
                         (py_max (f_of_Z 0)
                            (emission_formula (f_of_Z 0) (f_of_Z 0) (lit 500 1000)
                             - emission_formula (f_of_Z 0) (f_of_Z 0) (lit 80 1000))%py) |},
             st, []))
    /\ (forall request_json st,
          truthy request_json = false ->
          calculate_manual float_of_str request_json st
          = calculate_manual float_of_str (PDict []) st)
    /\ (forall entries st,
          calculate_manual float_of_str (PDict entries) st
          = match py_float float_of_str
                    (field entries "distance" (PFloat (f_of_Z 0))) with
            | Raised e => (Raised e, st, [])
            | Done distance =>
                match py_float float_of_str
                        (field entries "weight" (PFloat (f_of_Z 0))) with
                | Raised e => (Raised e, st, [])
                | Done weight =>
                    match factor_for (field entries "mode" (PStr "road")) with
                    | Raised e => (Raised e, st, [])
                    | Done factor =>
                        (Done {| status := 200;
                                 body :=
                                   ManualJson
                                     (emission_formula distance weight factor)
                                     (emission_formula distance weight (lit 500 1000))
                                     (py_max (f_of_Z 0)
                                        (emission_formula distance weight (lit 500 1000)
                                         - emission_formula distance weight factor)%py) |},
                         st, [])
                    end
                end
            end)
    /\ (forall x, py_float float_of_str (PFloat x) = Done x)
    /\ (forall z, f_isinf (f_of_Z (F:=F) z) = false ->
                  py_float float_of_str (PInt z) = Done (f_of_Z z))
    /\ (forall z, f_isinf (f_of_Z (F:=F) z) = true ->
                  py_float float_of_str (PInt z) = Raised OverflowError)
    /\ (forall b, py_float float_of_str (PBool b)
                  = Done (f_of_Z (if b then 1 else 0)))
    /\ (forall s x, float_of_str s = Some x ->
                    py_float float_of_str (PStr s) = Done x)
    /\ py_float float_of_str PNone = Raised TypeError
    /\ (forall items, py_float float_of_str (PList items) = Raised TypeError)
    /\ (forall entries, py_float float_of_str (PDict entries) = Raised TypeError)
    /\ (forall s, float_of_str s = None ->
                  py_float float_of_str (PStr s) = Raised ValueError)
    /\ (forall request_json st resp st' ev,
          calculate_manual float_of_str request_json st = (Done resp, st', ev) ->
          status resp = 200%Z /\ st' = st /\ ev = []))
  /\ (forall (float_of_str : string -> option float) (st : server_state),
        py_float float_of_str (PInt (10 ^ 400)) = Raised OverflowError
        /\ py_float float_of_str (PInt (10 ^ 300)) = Done 1e300%float
        /\ calculate_manual float_of_str
             (PDict [("distance", PInt (10 ^ 400))]) st
           = (Raised OverflowError, st, [])).
Proof.
  split; [|intros float_of_str st; repeat split; vm_compute; reflexivity].
  intros F N float_of_str.
  repeat match goal with |- _ /\ _ => split end.
  - intros entries key default Hk. unfold field. now rewrite Hk.
  - intros st. rewrite calculate_manual_dict. reflexivity.
  - intros request_json st. apply calculate_manual_falsy.
  - intros entries st. apply calculate_manual_dict.
  - reflexivity.
  - intros z Hz. cbn. unfold float_of_int. now rewrite Hz.
  - intros z Hz. cbn. unfold float_of_int. now rewrite Hz.
  - reflexivity.
  - intros s x Hs. cbn. now rewrite Hs.
  - reflexivity.
  - reflexivity.
  - reflexivity.
  - intros s Hs. cbn. now rewrite Hs.
  - intros request_json st resp st' ev Hr.
    destruct (calculate_manual_status float_of_str request_json st resp st' ev Hr)
      as (Hs & Hst & Hev & _). auto.
Qed.

(** C9, at an input: an empty object, over binary64, is answered with the
    emissions of distance 0.0 and weight 0.0. *)
Lemma calculate_manual_defaults_witness :
  calculate_manual (F:=float) (fun _ => None) (PDict []) server_start
  = (Done {| status := 200; body := ManualJson 0%float 0%float 0%float |},
     server_start, []).
Proof.
  exact (proj1 (proj2 (proj1 calculate_manual_defaults float _
                         (fun _ => None)))
           server_start).
Defined.

(** ** The service: [/optimize] *)

Lemma and_then_done {T U : Type} (o : outcome T) (k : T -> outcome U) (r : U) :
  and_then o k = Done r -> exists v, o = Done v /\ k v = Done r.
Proof. destruct o as [v|e]; cbn; [eauto|discriminate]. Qed.

Lemma and_then_raised {T U : Type} (o : outcome T) (k : T -> outcome U) (e : exn) :
  and_then o k = Raised e ->
  o = Raised e \/ exists v, o = Done v /\ k v = Raised e.
Proof. destruct o as [v|e']; cbn; [eauto|]. intros [= ->]. now left. Qed.

Section MinFacts.
Context {F : Type} `{PyNum F} {Ord : PyOrder F} {X : Type}.
Variable key : X -> outcome F.
Local Open Scope py_scope.

Lemma min_from_in rest : forall best kb m,
  min_from key best kb rest = Done m -> In m (best :: rest).
Proof.
  induction rest as [|x rest IH]; intros best kb m; cbn [min_from].
  - intros [= ->]. now left.
  - intros Hm. apply and_then_done in Hm. destruct Hm as (k & _ & Hm).
    destruct (k <? kb); apply IH in Hm; destruct Hm as [<-|Hin];
      cbn; auto.
Qed.

Lemma min_from_raised rest : forall best kb e,
  min_from key best kb rest = Raised e ->
  exists y, In y rest /\ key y = Raised e.
Proof.
  induction rest as [|x rest IH]; intros best kb e; cbn [min_from];
    [discriminate|].
  intros He. apply and_then_raised in He.
  destruct He as [He|(k & Hk & He)].
  - exists x. split; [now left|exact He].
  - destruct (k <? kb); apply IH in He; destruct He as (y & Hin & Hy);
      exists y; (split; [now right|exact Hy]).
Qed.

(** [min] returns an element such that no element has a key below its
    key. *)
Lemma min_from_least rest : forall best kb (seen : list X) m,
  key best = Done kb ->
  (forall y, In y seen -> exists ky, key y = Done ky /\ (ky <? kb) = false) ->
  min_from key best kb rest = Done m ->
  exists km,
    key m = Done km
    /\ forall y, In y seen \/ In y (best :: rest) ->
                 exists ky, key y = Done ky /\ (ky <? km) = false.
Proof.
  induction rest as [|x rest IH]; intros best kb seen m Hb Hseen;
    cbn [min_from].
  - intros [= <-]. exists kb. split; [exact Hb|].
    intros y [Hy|[<-|[]]]; [now apply Hseen|].
    exists kb. split; [exact Hb|apply f_ltb_irrefl].
  - intros Hm. apply and_then_done in Hm. destruct Hm as (k & Hk & Hm).
    destruct (k <? kb) eqn:Hlt.
    + destruct (IH x k (best :: seen) m Hk) as (km & Hkm & Hall);
        [|exact Hm|].
      * intros y [<-|Hy].
        -- exists kb. split; [exact Hb|].
           destruct (kb <? k) eqn:Hbk; [|reflexivity].
           rewrite <- (f_ltb_irrefl kb). symmetry.
           now apply (f_ltb_trans kb k kb).
        -- destruct (Hseen y Hy) as (ky & Hky & Hle).
           exists ky. split; [exact Hky|].
           destruct (ky <? k) eqn:Hyk; [|reflexivity].
           rewrite <- Hle. symmetry. now apply (f_ltb_trans ky k kb).
      * exists km. split; [exact Hkm|].
        intros y [Hy|[<-|[<-|Hy]]]; apply Hall; cbn; auto.
    + destruct (IH best kb (x :: seen) m Hb) as (km & Hkm & Hall);
        [|exact Hm|].
      * intros y [<-|Hy]; [|now apply Hseen].
        exists k. split; [exact Hk|exact Hlt].
      * exists km. split; [exact Hkm|].
        intros y [Hy|[<-|[<-|Hy]]]; apply Hall; cbn; auto.
Qed.

Lemma py_min_in first others m :
  py_min key first others = Done m -> In m (first :: others).
Proof.
  unfold py_min. intros Hm. apply and_then_done in Hm.
  destruct Hm as (k & _ & Hm). now apply min_from_in in Hm.
Qed.

Lemma py_min_raised first others e :
  py_min key first others = Raised e ->
  exists y, In y (first :: others) /\ key y = Raised e.
Proof.
  unfold py_min. intros He. apply and_then_raised in He.
  destruct He as [He|(k & Hk & He)].
  - exists first. split; [now left|exact He].
  - apply min_from_raised in He. destruct He as (y & Hin & Hy).
    exists y. split; [now right|exact Hy].
Qed.

Lemma py_min_least first others m :
  py_min key first others = Done m ->
  exists km,
    key m = Done km
    /\ forall y, In y (first :: others) ->
                 exists ky, key y = Done ky /\ (ky <? km) = false.
Proof.
  unfold py_min. intros Hm. apply and_then_done in Hm.
  destruct Hm as (k & Hk & Hm).
  destruct (min_from_least others first k [] m Hk) as (km & Hkm & Hall);
    [intros y []|exact Hm|].
  exists km. split; [exact Hkm|]. intros y Hy. apply Hall. now right.
Qed.
End MinFacts.

Section RouteLoop.
Context {F : Type} `{PyNum F} {Ord : PyOrder F} `{LibM F}.
Local Open Scope py_scope.

Lemma same_or_equal_refl (x : obj (F:=F)) : same_or_equal x x = true.
Proof. unfold same_or_equal. now rewrite Nat.eqb_refl. Qed.

(** [remove] strikes the first element that is its argument or equals
    it; it finds one when the list holds the argument. *)
Lemma remove_first_split (x : obj (F:=F)) l : forall l',
  remove_first x l = Some l' ->
  exists before struck after,
    l = before ++ struck :: after
    /\ l' = before ++ after
    /\ same_or_equal struck x = true
    /\ Forall (fun y => same_or_equal y x = false) before.
Proof.
  induction l as [|y l IH]; intros l'; cbn [remove_first]; [discriminate|].
  destruct (same_or_equal y x) eqn:Heq.
  - intros [= <-]. exists [], y, l. repeat split; auto.
  - destruct (remove_first x l) as [r|]; [|discriminate].
    intros [= <-]. destruct (IH r eq_refl) as (b & s & a & -> & -> & Hs & Hb).
    exists (y :: b), s, a. repeat split; auto.
Qed.

Lemma remove_first_found (x : obj (F:=F)) l :
  In x l -> exists l', remove_first x l = Some l'.
Proof.
  induction l as [|y l IH]; intros Hin; [destruct Hin|].
  cbn [remove_first]. destruct (same_or_equal y x) eqn:Heq; [eauto|].
  destruct Hin as [->|Hin]; [now rewrite same_or_equal_refl in Heq|].
  destruct (IH Hin) as (l' & ->). eauto.
Qed.

Lemma objects_values (start : nat) (l : list (location F)) :
  map snd (objects start l) = l.
Proof.
  unfold objects. revert start.
  induction l as [|p l IH]; intros start; [reflexivity|].
  cbn. now rewrite IH.
Qed.

Lemma objects_distinct (start : nat) (l : list (location F)) :
  NoDup (map fst (objects start l)).
Proof.
  unfold objects.
  assert (Hfst : forall n, map fst (combine (seq n (List.length l)) l)
                           = seq n (List.length l)).
  { induction l as [|p l IH]; intros n; [reflexivity|].
    cbn. now rewrite IH. }
  rewrite Hfst. apply seq_NoDup.
Qed.

Lemma objects_length (start : nat) (l : list (location F)) :
  List.length (objects start l) = List.length l.
Proof.
  unfold objects, obj. rewrite length_combine, length_seq. apply Nat.min_id.
Qed.

(** Among objects of distinct identities, two objects of one identity are
    one object. *)
Lemma same_identity (l : list (obj (F:=F))) (x y : obj (F:=F)) :
  NoDup (map fst l) -> In x l -> In y l -> fst x = fst y -> x = y.
Proof.
  induction l as [|z l IH]; intros Hnd Hx Hy Hid; [destruct Hx|].
  cbn [map] in Hnd. apply NoDup_cons_iff in Hnd. destruct Hnd as [Hz Hnd].
  destruct Hx as [<-|Hx], Hy as [<-|Hy]; auto.
  - exfalso. apply Hz. rewrite Hid. now apply in_map.
  - exfalso. apply Hz. rewrite <- Hid. now apply in_map.
Qed.

(** What the [while] loop has done when it ends without raising: it
    appended the stops of a greedy visit and logged their latitudes. *)
Lemma visit_spec (bound : nat) :
  forall (current : obj (F:=F)) unvisited path logs path' logs',
    (List.length unvisited <= bound)%nat ->
    NoDup (map fst unvisited) ->
    visit bound current unvisited path logs = Done (path', logs') ->
    exists order shown,
      path' = path ++ order
      /\ logs' = logs ++ map (@LogConnected F) shown
      /\ Forall2 (fun o x => as_float (lat (snd o)) = Done x) order shown
      /\ List.length order = List.length unvisited
      /\ greedy (snd current) (map snd unvisited) (map snd order).
Proof.
  induction bound as [|bound IH];
    intros current unvisited path logs path' logs' Hlen Hnd Hv.
  - destruct unvisited; [|cbn in Hlen; lia].
    cbn in Hv. injection Hv as <- <-.
    exists [], []. cbn. rewrite !app_nil_r. repeat split; constructor.
  - destruct unvisited as [|first others].
    + cbn in Hv. injection Hv as <- <-.
      exists [], []. cbn. rewrite !app_nil_r. repeat split; constructor.
    + cbn [visit] in Hv.
      apply and_then_done in Hv. destruct Hv as (nearest & Hmin & Hv).
      apply and_then_done in Hv. destruct Hv as (x & Hx & Hv).
      destruct (remove_first nearest (first :: others)) as [rest|] eqn:Hrm;
        [|discriminate].
      pose proof (py_min_in _ _ _ _ Hmin) as Hin.
      destruct (py_min_least _ _ _ _ Hmin) as (km & Hkm & Hleast).
      destruct (remove_first_split _ _ _ Hrm)
        as (bo & r & ao & Hu & -> & Hr & Hbo).
      assert (Hnd' : NoDup (map fst (bo ++ ao))).
      { rewrite Hu in Hnd. rewrite map_app in Hnd |- *. cbn [map] in Hnd.
        now apply NoDup_remove_1 in Hnd. }
      assert (Hlen' : (List.length (bo ++ ao) <= bound)%nat).
      { apply (f_equal (@List.length _)) in Hu. unfold obj in *.
        rewrite length_app in Hu |- *. cbn [List.length] in Hu, Hlen. lia. }
      destruct (IH nearest (bo ++ ao) _ _ _ _ Hlen' Hnd' Hv)
        as (order & shown & -> & -> & Hsh & Hlo & Hg).
      exists (nearest :: order), (x :: shown).
      rewrite <- !app_assoc.
      split; [reflexivity|]. split; [reflexivity|].
      split; [now constructor|]. split.
      { cbn [List.length]. rewrite Hlo.
        apply (f_equal (@List.length _)) in Hu. unfold obj in *.
        rewrite length_app in Hu |- *. cbn [List.length] in Hu |- *. lia. }
      change (map snd (nearest :: order)) with (snd nearest :: map snd order).
      cbn [greedy]. split; [now apply in_map|]. split.
      { exists km. split; [exact Hkm|].
        intros v Hv'. apply in_map_iff in Hv'. destruct Hv' as (y & <- & Hy).
        now apply Hleast. }
      exists (map snd bo), (snd r), (map snd ao). split.
      { rewrite Hu, map_app. reflexivity. }
      split.
      { unfold same_or_equal in Hr. apply orb_true_iff in Hr.
        destruct Hr as [Hid|Heq]; [left|now right].
        apply Nat.eqb_eq in Hid.
        rewrite (same_identity (first :: others) r nearest Hnd); auto.
        rewrite Hu. apply in_or_app. right. now left. }
      split.
      { apply Forall_map. eapply Forall_impl; [|exact Hbo].
        intros y Hy. unfold same_or_equal in Hy.
        apply orb_false_iff in Hy. tauto. }
      rewrite <- map_app. exact Hg.
Qed.

(** The loop raises only what [get_dist] raises between two locations of
    the request, or what the conversion of a latitude raises for the log;
    the bound of the model and the [ValueError] of [remove] never come
    up. *)
Lemma visit_raised (bound : nat) :
  forall (current : obj (F:=F)) unvisited path logs e,
    (List.length unvisited <= bound)%nat ->
    visit bound current unvisited path logs = Raised e ->
    exists p q,
      In p (snd current :: map snd unvisited)
      /\ In q (map snd unvisited)
      /\ (get_dist p q = Raised e \/ as_float (lat q) = Raised e).
Proof.
  induction bound as [|bound IH]; intros current unvisited path logs e Hlen Hv.
  - destruct unvisited; [discriminate|cbn in Hlen; lia].
  - destruct unvisited as [|first others]; [discriminate|].
    cbn [visit] in Hv.
    apply and_then_raised in Hv. destruct Hv as [Hv|(nearest & Hmin & Hv)].
    { apply py_min_raised in Hv. destruct Hv as (y & Hy & Hk).
      exists (snd current), (snd y). split; [now left|].
      split; [now apply in_map|now left]. }
    pose proof (py_min_in _ _ _ _ Hmin) as Hin.
    apply and_then_raised in Hv. destruct Hv as [Hv|(x & Hx & Hv)].
    { exists (snd current), (snd nearest). split; [now left|].
      split; [now apply in_map|now right]. }
    destruct (remove_first_found nearest (first :: others) Hin) as (rest & Hrm).
    rewrite Hrm in Hv.
    destruct (remove_first_split _ _ _ Hrm) as (bo & r & ao & Hu & -> & _ & _).
    assert (Hsub : forall z, In z (bo ++ ao) -> In z (first :: others)).
    { intros z Hz. rewrite Hu. apply in_app_or in Hz. apply in_or_app.
      destruct Hz; [now left|right; now right]. }
    assert (Hlen' : (List.length (bo ++ ao) <= bound)%nat).
    { apply (f_equal (@List.length _)) in Hu. unfold obj in *.
      rewrite length_app in Hu |- *. cbn [List.length] in Hu, Hlen. lia. }
    destruct (IH nearest (bo ++ ao) _ _ e Hlen' Hv) as (p & q & Hp & Hq & Hpq).
    exists p, q. split; [|split; [|exact Hpq]].
    + right. destruct Hp as [<-|Hp]; [now apply in_map|].
      apply in_map_iff in Hp. destruct Hp as (z & <- & Hz).
      apply in_map. now apply Hsub.
    + apply in_map_iff in Hq. destruct Hq as (z & <- & Hz).
      apply in_map. now apply Hsub.
Qed.

(** The accumulating loop of the total adds the lengths of the legs from
    left to right. *)
Lemma add_legs_lengths (path : list (location F)) : forall total_deg,
  add_legs total_deg path
  = (ds <-- leg_lengths path ;;; Done (fold_left f_add ds total_deg)).
Proof.
  induction path as [|p path IH]; intros total_deg; [reflexivity|].
  destruct path as [|q path]; [reflexivity|].
  assert (Ha : add_legs total_deg (p :: q :: path)
               = (d <-- get_dist p q ;;; add_legs (total_deg + d) (q :: path)))
    by reflexivity.
  assert (Hl : leg_lengths (p :: q :: path)
               = (d <-- get_dist p q ;;;
                  ds <-- leg_lengths (q :: path) ;;; Done (d :: ds)))
    by reflexivity.
  rewrite Ha, Hl.
  destruct (get_dist p q) as [d|e]; [|reflexivity].
  cbn [and_then]. rewrite IH.
  destruct (leg_lengths (q :: path)) as [ds|e]; reflexivity.
Qed.

(** The legs of a greedy visit have all been measured. *)
Lemma greedy_legs (stops : list (location F)) : forall current unvisited,
  greedy current unvisited stops ->
  exists ds, leg_lengths (current :: stops) = Done ds.
Proof.
  induction stops as [|s stops IH]; intros current unvisited Hg.
  - exists []. reflexivity.
  - cbn [greedy] in Hg.
    destruct Hg as (_ & (d & Hd & _) & (b & r & a & _ & _ & _ & Hg)).
    destruct (IH s (b ++ a) Hg) as (ds & Hds).
    exists (d :: ds).
    assert (Hl : leg_lengths (current :: s :: stops)
                 = (d <-- get_dist current s ;;;
                    ds <-- leg_lengths (s :: stops) ;;; Done (d :: ds)))
      by reflexivity.
    rewrite Hl, Hd. cbn [and_then]. now rewrite Hds.
Qed.

(** The statistics of a path whose legs have been measured. *)
Lemma stats_of_legs (path : list (location F)) (ds : list F) :
  leg_lengths path = Done ds ->
  exists stats,
    stats_of path = Done stats
    /\ total_distance_km stats = fold_left f_add ds (f_of_Z 0) * f_of_Z 111.
Proof.
  intros Hds. unfold stats_of. rewrite add_legs_lengths, Hds. cbn [and_then].
  rewrite !calculate_emissions_road. cbn [and_then].
  eexists. split; reflexivity.
Qed.

(** What [stats_of] computes from the total. *)
Lemma stats_of_formulas (path : list (location F)) (stats : route_stats F) :
  stats_of path = Done stats ->
  optimized stats
  = emission_formula (total_distance_km stats) (f_of_Z 1000) (lit 80 1000)
  /\ baseline stats
     = emission_formula (total_distance_km stats * lit 145 100)
         (f_of_Z 1000) (lit 80 1000)
  /\ saved stats = py_max (f_of_Z 0) (baseline stats - optimized stats)
  /\ percent stats
     = (if baseline stats >? f_of_Z 0
        then saved stats / baseline stats * f_of_Z 100
        else f_of_Z 0)
  /\ exists ds, leg_lengths path = Done ds
                /\ total_distance_km stats
                   = fold_left f_add ds (f_of_Z 0) * f_of_Z 111.
Proof.
  unfold stats_of. rewrite add_legs_lengths.
  destruct (leg_lengths path) as [ds|e]; [|discriminate].
  cbn [and_then]. rewrite !calculate_emissions_road. cbn [and_then].
  intros [= <-]. cbn. repeat split. exists ds. split; reflexivity.
Qed.

(** The handler on at least two locations, when it answers. *)
Lemma optimize_route_done (first second : location F)
    (rest : list (location F)) (st : server_state) resp st' ev :
  optimize_route {| locations := Some (first :: second :: rest) |} st
  = (Done resp, st', ev) ->
  exists stops shown stats,
    resp = {| status := 200;
              body := RouteJson (first :: stops)
                        (LogStarted :: map (@LogConnected F) shown) stats |}
    /\ st' = st /\ ev = []
    /\ List.length stops = List.length (second :: rest)
    /\ Forall2 (fun q x => as_float (lat q) = Done x) stops shown
    /\ greedy first (second :: rest) stops
    /\ stats_of (first :: stops) = Done stats.
Proof.
  unfold optimize_route. cbn [locations]. unfold bind, lift, ret.
  destruct (visit _ _ _ _ _) as [[path logs]|e] eqn:Hv; [|discriminate].
  cbn [fst snd].
  destruct (stats_of (map snd path)) as [stats|e] eqn:Hs; [|discriminate].
  intros [= <- <- <-].
  assert (Hlen : (List.length (objects 1 (second :: rest))
                  <= List.length (second :: rest))%nat)
    by (rewrite objects_length; apply le_n).
  destruct (visit_spec _ _ _ _ _ _ _ Hlen
              (objects_distinct 1 (second :: rest)) Hv)
    as (order & shown & -> & -> & Hsh & Hlo & Hg).
  rewrite objects_values in Hg. rewrite objects_length in Hlo.
  cbn [snd] in Hg.
  change (map snd ([(O, first)] ++ order)) with (first :: map snd order)
    in Hs |- *.
  exists (map snd order), shown, stats.
  split; [reflexivity|]. split; [reflexivity|]. split; [reflexivity|].
  split; [unfold obj in *; now rewrite length_map|].
  split; [|split; [exact Hg|exact Hs]].
  clear -Hsh. induction Hsh; cbn; constructor; auto.
Qed.

(** The handler on at least two locations, when it raises. *)
Lemma optimize_route_raised (first second : location F)
    (rest : list (location F)) (st : server_state) e st' ev :
  optimize_route {| locations := Some (first :: second :: rest) |} st
  = (Raised e, st', ev) ->
  st' = st /\ ev = []
  /\ exists p q,
      In p (first :: second :: rest)
      /\ In q (second :: rest)
      /\ (get_dist p q = Raised e \/ as_float (lat q) = Raised e).
Proof.
  unfold optimize_route. cbn [locations]. unfold bind, lift, ret.
  assert (Hlen : (List.length (objects 1 (second :: rest))
                  <= List.length (second :: rest))%nat)
    by (rewrite objects_length; apply le_n).
  destruct (visit _ _ _ _ _) as [[path logs]|e'] eqn:Hv.
  - cbn [fst snd].
    destruct (visit_spec _ _ _ _ _ _ _ Hlen
                (objects_distinct 1 (second :: rest)) Hv)
      as (order & shown & -> & -> & Hsh & Hlo & Hg).
    rewrite objects_values in Hg. cbn [snd] in Hg.
    destruct (greedy_legs _ _ _ Hg) as (ds & Hds).
    change (map snd ([(O, first)] ++ order)) with (first :: map snd order).
    destruct (stats_of_legs _ _ Hds) as (stats & -> & _). discriminate.
  - intros [= <- <- <-]. split; [reflexivity|]. split; [reflexivity|].
    apply visit_raised in Hv; [|exact Hlen].
    rewrite objects_values in Hv. exact Hv.
Qed.

(** The handler always ends, one way or the other, and leaves the state
    alone. *)
Lemma optimize_route_ends (data : optimize_request F) (st : server_state) :
  exists r, optimize_route data st = (r, st, []).
Proof.
  unfold optimize_route.
  destruct (match locations data with Some l => l | None => [] end)
    as [|current [|second rest]]; [eexists; reflexivity..|].
  unfold bind, lift, ret.
  destruct (visit _ _ _ _ _) as [[path logs]|e]; [|eexists; reflexivity].
  cbn [fst snd]. destruct (stats_of _); eexists; reflexivity.
Qed.

(** It answers when the distances between the locations of the request
    and the latitudes can all be computed. *)
Lemma optimize_route_total (first second : location F)
    (rest : list (location F)) (st : server_state) :
  (forall p q, In p (first :: second :: rest) -> In q (second :: rest) ->
               exists d, get_dist p q = Done d) ->
  (forall q, In q (second :: rest) -> exists x, as_float (lat q) = Done x) ->
  exists resp,
    optimize_route {| locations := Some (first :: second :: rest) |} st
    = (Done resp, st, []).
Proof.
  intros Hd Hl.
  destruct (optimize_route_ends {| locations := Some (first :: second :: rest) |} st)
    as ([resp|e] & Hr); [eauto|].
  destruct (optimize_route_raised _ _ _ _ _ _ _ Hr)
    as (_ & _ & p & q & Hp & Hq & [Hpq|Hpq]).
  - destruct (Hd p q Hp Hq) as (d & Hdq). congruence.
  - destruct (Hl q Hq) as (x & Hx). congruence.
Qed.
End RouteLoop.

(** *** Exact arithmetic: no distance is out of range *)

Section RouteReals.
Local Open Scope R_scope.

Lemma R_eqb_eq (a b : R) : R_eqb a b = true <-> a = b.
Proof. unfold R_eqb. destruct (Req_dec_T a b); split; auto; discriminate. Qed.

Lemma py_max_R (a b : R) : py_max a b = Rmax a b.
Proof.
  unfold py_max, Rmax. cbn [f_ltb PyNum_R]. unfold R_ltb.
  destruct (Rlt_dec a b), (Rle_dec a b); lra.
Qed.

Lemma as_float_R (a : num R) : as_float a = Done (num_value a).
Proof. destruct a; reflexivity. Qed.

Lemma num_sub_R (a b : num R) :
  exists c, num_sub a b = Done c /\ num_value c = num_value a - num_value b.
Proof.
  destruct a as [m|x], b as [n|y]; eexists; (split; [reflexivity|]); cbn;
    try reflexivity.
  apply minus_IZR.
Qed.

Lemma num_add_R (a b : num R) :
  exists c, num_add a b = Done c /\ num_value c = num_value a + num_value b.
Proof.
  destruct a as [m|x], b as [n|y]; eexists; (split; [reflexivity|]); cbn;
    try reflexivity.
  apply plus_IZR.
Qed.

Lemma Rpower_two (x : R) : 0 < x -> Rpower x 2 = x * x.
Proof.
  intros Hx. replace 2 with (INR 2) by (cbn; lra).
  rewrite Rpower_pow by exact Hx. cbn. lra.
Qed.

Lemma float_pow2_R (x : R) : float_pow2 x = Done (x * x).
Proof.
  unfold float_pow2, f_isnan. cbn [f_eqb f_ltb f_isinf f_neg f_of_Z PyNum_R].
  replace (R_eqb x x) with true by (symmetry; now apply R_eqb_eq).
  cbn [negb].
  unfold R_eqb at 1. destruct (Req_dec_T x 0) as [->|Hx0].
  { f_equal. lra. }
  unfold R_ltb. destruct (Rlt_dec x 0) as [Hneg|Hpos].
  - unfold R_eqb. destruct (Req_dec_T (- x) 1) as [H1|H1].
    + f_equal. nra.
    + cbn [platform_pow LibM_R]. f_equal.
      rewrite Rpower_two by lra. lra.
  - unfold R_eqb. destruct (Req_dec_T x 1) as [H1|H1].
    + f_equal. nra.
    + cbn [platform_pow LibM_R]. f_equal.
      rewrite Rpower_two by lra. lra.
Qed.

Lemma num_pow2_R (a : num R) :
  exists c, num_pow2 a = Done c /\ num_value c = num_value a * num_value a.
Proof.
  destruct a as [n|x].
  - eexists. split; [reflexivity|]. cbn. apply mult_IZR.
  - cbn [num_pow2]. rewrite float_pow2_R. eexists. split; reflexivity.
Qed.

(** Over the reals [get_dist] is the Euclidean distance of the two points
    and never raises. *)
Lemma get_dist_R (p q : location R) :
  get_dist p q
  = Done (R_sqrt.sqrt
            ((num_value (lat p) - num_value (lat q))
             * (num_value (lat p) - num_value (lat q))
             + (num_value (lng p) - num_value (lng q))
               * (num_value (lng p) - num_value (lng q)))).
Proof.
  unfold get_dist.
  destruct (num_sub_R (lat p) (lat q)) as (d1 & -> & Hd1). cbn [and_then].
  destruct (num_pow2_R d1) as (s1 & -> & Hs1). cbn [and_then].
  destruct (num_sub_R (lng p) (lng q)) as (d2 & -> & Hd2). cbn [and_then].
  destruct (num_pow2_R d2) as (s2 & -> & Hs2). cbn [and_then].
  destruct (num_add_R s1 s2) as (s & -> & Hs). cbn [and_then].
  unfold math_sqrt. rewrite as_float_R. cbn [and_then].
  rewrite Hs, Hs1, Hs2, Hd1, Hd2.
  cbn [f_ltb f_of_Z f_sqrt PyNum_R].
  match goal with |- context [R_ltb (?u * ?u + ?v * ?v) 0] =>
    replace (R_ltb (u * u + v * v) 0) with false
      by (symmetry; apply R_ltb_ge;
          pose proof (Rle_0_sqr u); pose proof (Rle_0_sqr v);
          unfold Rsqr in *; lra)
  end.
  reflexivity.
Qed.

(** Over the reals the handler answers every request of at least two
    locations. *)
Lemma optimize_route_R (first second : location R)
    (rest : list (location R)) (st : server_state) :
  exists stops shown stats,
    optimize_route {| locations := Some (first :: second :: rest) |} st
    = (Done {| status := 200;
               body := RouteJson (first :: stops)
                         (LogStarted :: map (@LogConnected R) shown)
                         stats |},
       st, [])
    /\ greedy first (second :: rest) stops
    /\ stats_of (first :: stops) = Done stats.
Proof.
  destruct (optimize_route_total first second rest st) as (resp & Hr).
  - intros p q _ _. rewrite get_dist_R. eauto.
  - intros q _. rewrite as_float_R. eauto.
  - destruct (optimize_route_done _ _ _ _ _ _ _ Hr)
      as (stops & shown & stats & -> & _ & _ & _ & _ & Hg & Hs).
    exists stops, shown, stats. auto.
Qed.
End RouteReals.

(** *** The route *)

(** C5 as stated fails: not every list of at least 2 locations gets a
    path.  At binary64, on every platform, a request whose second latitude
    is the integer 10^400 makes [get_dist] raise [OverflowError] when the
    integer is converted for the subtraction from 0.5; and where the
    platform's [pow] reports the overflow of a square, so does a latitude
    of 1e200. *)
Lemma optimize_route_overflows :
  (forall (L : LibM float) (st : server_state),
      optimize_route
        {| locations :=
             Some [ {| lat := NFloat 0.5%float; lng := NFloat 0%float |};
                    {| lat := NInt (10 ^ 400); lng := NInt 0 |} ] |} st
      = (Raised OverflowError, st, []))
  /\ @optimize_route float _ libm_squaring
       {| locations :=
            Some [ {| lat := NFloat 0%float; lng := NFloat 0%float |};
                   {| lat := NFloat 1e200%float; lng := NFloat 0%float |} ] |}
       server_start
     = (Raised OverflowError, server_start, []).
Proof. split; [intros L st|]; vm_compute; reflexivity. Qed.

(** C5 (amended).  In both arithmetics and on every platform, a request of
    at least 2 locations either raises (only what [get_dist] raises between
    two of its locations, or the conversion of a latitude for the log:
    [OverflowError] on numbers out of range) or is answered 200, and it is
    answered whenever these computations all return.  The path answered
    starts at the first location and then makes one stop for each other
    location, in the order of a greedy nearest-neighbour visit: each stop
    is one of the locations not yet struck off; no such location has a
    distance from the stop before, as [get_dist] computes it (the rounded
    Euclidean distance in raw lat/lng degrees), below the distance of the
    stop chosen; and the first location not yet struck off that is the
    stop, or equals it, is then struck off.  [total_distance_km] is the
    sum of the computed lengths of the consecutive legs, added from left
    to right to 0.0, times 111.0.  On float coordinates [get_dist] is the
    square root of the sum of the squares of the two differences, each
    operation rounded, the squares by [**].  On [(0,0), (0,1)], with int
    or with float coordinates, the path keeps both points in order and
    [total_distance_km] is 111.0 at binary64, on every platform. *)
Theorem optimize_route_nearest_first :
  (forall (F : Type) (N : PyNum F) (Ord : PyOrder F) (L : LibM F)
          (first second : location F) (rest : list (location F))
          (st : server_state),
      (forall resp st' ev,
          optimize_route {| locations := Some (first :: second :: rest) |} st
          = (Done resp, st', ev) ->
          exists stops logs stats,
            resp = {| status := 200;
                      body := RouteJson (first :: stops) logs stats |}
            /\ st' = st /\ ev = []
            /\ List.length stops = List.length (second :: rest)
            /\ greedy first (second :: rest) stops
            /\ exists legs,
                leg_lengths (first :: stops) = Done legs
                /\ total_distance_km stats
                   = (fold_left f_add legs (f_of_Z 0) * f_of_Z 111)%py)
      /\ (forall e st' ev,
            optimize_route {| locations := Some (first :: second :: rest) |} st
            = (Raised e, st', ev) ->
            st' = st /\ ev = []
            /\ exists p q,
                In p (first :: second :: rest)
                /\ In q (second :: rest)
                /\ (get_dist p q = Raised e \/ as_float (lat q) = Raised e))
      /\ ((forall p q, In p (first :: second :: rest) ->
                       In q (second :: rest) ->
                       exists d, get_dist p q = Done d) ->
          (forall q, In q (second :: rest) ->
                     exists x, as_float (lat q) = Done x) ->
          exists resp,
            optimize_route {| locations := Some (first :: second :: rest) |} st
            = (Done resp, st, [])))
  /\ (forall (F : Type) (N : PyNum F) (L : LibM F) (a b c d : F),
        get_dist {| lat := NFloat a; lng := NFloat b |}
                 {| lat := NFloat c; lng := NFloat d |}
        = (sq_lat <-- float_pow2 (a - c) ;;;
           sq_lng <-- float_pow2 (b - d) ;;;
           if sq_lat + sq_lng <? f_of_Z 0 then Raised ValueError
           else Done (f_sqrt (sq_lat + sq_lng)))%py)
  /\ (forall (L : LibM float) (st : server_state),
        optimize_route
          {| locations := Some [ {| lat := NInt 0; lng := NInt 0 |};
                                 {| lat := NInt 0; lng := NInt 1 |} ] |} st
        = (Done {| status := 200;
                   body := RouteJson
                             [ {| lat := NInt 0; lng := NInt 0 |};
                               {| lat := NInt 0; lng := NInt 1 |} ]
                             [LogStarted; LogConnected 0%float]
                             {| total_distance_km := 111%float;
                                optimized := 8.8800000000000008%float;
                                baseline := 12.875999999999999%float;
                                saved := 3.9959999999999987%float;
                                percent := 31.03448275862068%float |} |},
           st, []))
  /\ (forall (L : LibM float) (st : server_state),
        optimize_route
          {| locations :=
               Some [ {| lat := NFloat 0%float; lng := NFloat 0%float |};
                      {| lat := NFloat 0%float; lng := NFloat 1%float |} ] |} st
        = (Done {| status := 200;
                   body := RouteJson
                             [ {| lat := NFloat 0%float; lng := NFloat 0%float |};
                               {| lat := NFloat 0%float; lng := NFloat 1%float |} ]
                             [LogStarted; LogConnected 0%float]
                             {| total_distance_km := 111%float;
                                optimized := 8.8800000000000008%float;
                                baseline := 12.875999999999999%float;
                                saved := 3.9959999999999987%float;
                                percent := 31.03448275862068%float |} |},
           st, [])).
Proof.
  split; [|split; [|split]].
  - intros F N Ord L first second rest st. split; [|split].
    + intros resp st' ev Hr.
      destruct (optimize_route_done _ _ _ _ _ _ _ Hr)
        as (stops & shown & stats & -> & -> & -> & Hl & _ & Hg & Hs).
      exists stops, (LogStarted :: map (@LogConnected F) shown), stats.
      repeat split; auto.
      now destruct (stats_of_formulas _ _ Hs) as (_ & _ & _ & _ & Hlegs).
    + intros e st' ev. apply optimize_route_raised.
    + apply optimize_route_total.
  - intros F N L a b c d. unfold get_dist. cbn.
    destruct (float_pow2 (a - c)%py) as [s1|e]; [|reflexivity]. cbn.
    destruct (float_pow2 (b - d)%py) as [s2|e]; reflexivity.
  - intros L st. vm_compute. reflexivity.
  - intros L st. vm_compute. reflexivity.
Qed.

(** C5, at an input: at binary64 the request [(0,0), (3,4), (1,1)] is
    answered, so its path is the greedy one ([(1,1)] before [(3,4)]), and
    its length is the sum of the computed legs times 111.0. *)
Lemma optimize_route_nearest_first_witness :
  exists stops logs stats,
    {| status := 200;
       body := RouteJson [ {| lat := NInt 0; lng := NInt 0 |};
                           {| lat := NInt 1; lng := NInt 1 |};
                           {| lat := NInt 3; lng := NInt 4 |} ]
                         [LogStarted; LogConnected 1%float;
                          LogConnected 3%float]
                         {| total_distance_km := 557.19389699991643%float;
                            optimized := 44.575511759993319%float;
                            baseline := 64.634492051990307%float;
                            saved := 20.058980291996988%float;
                            percent := 31.034482758620683%float |} |}
    = {| status := 200;
         body := RouteJson ({| lat := NInt 0; lng := NInt 0 |} :: stops)
                           logs stats |}
    /\ server_start = server_start /\ @nil event = []
    /\ List.length stops
       = List.length [ {| lat := NInt 3; lng := NInt 4 |};
                       {| lat := @NInt float 1; lng := NInt 1 |} ]
    /\ @greedy float _ libm_squaring
         {| lat := NInt 0; lng := NInt 0 |}
         [ {| lat := NInt 3; lng := NInt 4 |};
           {| lat := NInt 1; lng := NInt 1 |} ] stops
    /\ exists legs,
        @leg_lengths float _ libm_squaring
          ({| lat := NInt 0; lng := NInt 0 |} :: stops) = Done legs
        /\ total_distance_km stats
           = (fold_left f_add legs (f_of_Z 0) * f_of_Z 111)%py.
Proof.
  apply (proj1 (proj1 optimize_route_nearest_first float _ PyOrder_float
                  libm_squaring
                  {| lat := NInt 0; lng := NInt 0 |}
                  {| lat := NInt 3; lng := NInt 4 |}
                  [ {| lat := NInt 1; lng := NInt 1 |} ] server_start)).
  vm_compute. reflexivity.
Defined.

(** *** The statistics *)

Lemma optimize_route_stats {F : Type} `{PyNum F} `{LibM F}
    (data : optimize_request F) st resp st' ev route logs stats :
  optimize_route data st = (Done resp, st', ev) ->
  body resp = RouteJson route logs stats ->
  stats_of route = Done stats.
Proof.
  unfold optimize_route.
  destruct (match locations data with Some l => l | None => [] end)
    as [|current [|second rest]].
  - intros [= <- _ _] Hb. discriminate.
  - intros [= <- _ _] Hb. discriminate.
  - unfold bind, lift, ret.
    destruct (visit _ _ _ _ _) as [[path logs']|e]; [|discriminate].
    cbn [fst snd]. destruct (stats_of (map snd path)) as [stats'|e] eqn:Hs;
      [|discriminate].
    intros [= <- _ _] [= <- _ <-]. exact Hs.
Qed.




(** ** Savings are never negative *)

(** At binary64 [max(0.0, x)] is at least 0.0, also when [x] is a NaN. *)
Lemma py_max_zero_float (x : float) :
  (0 <=? py_max (F:=float) 0 x)%float = true.
Proof.
  unfold py_max. cbn [f_ltb PyNum_float].
  destruct (PrimFloat.ltb 0 x) eqn:Hlt; [|reflexivity].
  rewrite ltb_spec in Hlt. rewrite leb_spec.
  unfold SFltb in Hlt. unfold SFleb.
  destruct (SFcompare (Prim2SF 0) (Prim2SF x)) as [[]|];
    try discriminate; reflexivity.
Qed.

(** At binary64 [x - x] is 0.0 or a NaN, never positive. *)
Lemma sub_self_not_positive (x : float) : (0 <? x - x)%float = false.
Proof.
  rewrite ltb_spec, sub_spec.
  replace (Prim2SF 0) with (S754_zero false) by reflexivity.
  destruct (Prim2SF x) as [s|s| |s m e]; try (destruct s; reflexivity).
  - reflexivity.
  - unfold SF64sub, SFsub. rewrite Z.sub_diag. reflexivity.
Qed.

(** Whatever [stats_of] answers, [saved] is the [max] it computed. *)
Lemma stats_of_saved {F : Type} `{PyNum F} `{LibM F}
    (path : list (location F)) stats :
  stats_of path = Done stats ->
  saved stats = py_max (f_of_Z 0) (baseline stats - optimized stats)%py.
Proof.
  intros Hs. now destruct (stats_of_formulas _ _ Hs) as (_ & _ & Hsv & _).
Qed.

(** C10. The savings the service reports are never negative:
    [/calculate-manual] returns
    [savings_kg = max(0.0, baseline_kg - emission_kg) >= 0], which is 0 when
    the mode is "air", and [/optimize] returns
    [saved = max(0.0, baseline_emission - optimized_emission) >= 0]; over
    the reals, and at binary64 for every input, NaN and infinities
    included, on every platform. *)
Theorem savings_never_negative :
  (forall float_of_str request_json st resp st' ev,
      calculate_manual (F:=R) float_of_str request_json st = (Done resp, st', ev) ->
      exists e b s,
        body resp = ManualJson e b s
        /\ s = Rmax 0 (b - e) /\ (0 <= s)%R)
  /\ (forall float_of_str entries st resp st' ev,
        field entries "mode" (PStr "road") = PStr "air" ->
        calculate_manual (F:=R) float_of_str (PDict entries) st
        = (Done resp, st', ev) ->
        exists b, body resp = ManualJson b b 0%R)
  /\ (forall (first second : location R) (rest : list (location R)) st,
        exists route logs stats,
          optimize_route {| locations := Some (first :: second :: rest) |} st
          = (Done {| status := 200; body := RouteJson route logs stats |}, st, [])
          /\ saved stats = Rmax 0 (baseline stats - optimized stats)
          /\ (0 <= saved stats)%R)
  /\ (forall float_of_str request_json st resp st' ev,
        calculate_manual (F:=float) float_of_str request_json st
        = (Done resp, st', ev) ->
        exists e b s,
          body resp = ManualJson e b s
          /\ s = py_max 0%float (b - e)%float
          /\ (0 <=? s)%float = true)
  /\ (forall float_of_str entries st resp st' ev,
        field entries "mode" (PStr "road") = PStr "air" ->
        calculate_manual (F:=float) float_of_str (PDict entries) st
        = (Done resp, st', ev) ->
        exists b, body resp = ManualJson b b 0%float)
  /\ (forall (L : LibM float) (data : optimize_request float)
             st resp st' ev route logs stats,
        optimize_route data st = (Done resp, st', ev) ->
        body resp = RouteJson route logs stats ->
        saved stats = py_max 0%float (baseline stats - optimized stats)%float
        /\ (0 <=? saved stats)%float = true).
Proof.
  split; [|split; [|split; [|split; [|split]]]].
  - intros float_of_str request_json st resp st' ev Hr.
    destruct (calculate_manual_status float_of_str request_json st resp st' ev Hr)
      as (_ & _ & _ & e & b & Hb).
    exists e, b, (Rmax 0 (b - e)). rewrite Hb, py_max_R.
    repeat split. apply Rmax_l.
  - intros float_of_str entries st resp st' ev Hm Hr.
    rewrite calculate_manual_dict, Hm in Hr.
    destruct (py_float _ (field entries "distance" _)) as [d|]; [|discriminate].
    destruct (py_float _ (field entries "weight" _)) as [w|]; [|discriminate].
    cbn [factor_for EMISSION_FACTORS dict_get String.eqb Ascii.eqb Bool.eqb] in Hr.
    cbn zeta in Hr. injection Hr as <- _ _.
    exists (emission_formula d w (lit 500 1000)). cbn [body jsonify].
    rewrite py_max_R. f_equal. cbn [f_sub f_of_Z PyNum_R].
    rewrite Rminus_diag. apply Rmax_left. lra.
  - intros first second rest st.
    destruct (optimize_route_R first second rest st)
      as (stops & shown & stats & Hr & _ & Hs).
    pose proof (stats_of_saved _ _ Hs) as Hsv. rewrite py_max_R in Hsv.
    cbn [f_sub f_of_Z PyNum_R] in Hsv.
    do 3 eexists. split; [exact Hr|]. split; [exact Hsv|].
    rewrite Hsv. apply Rmax_l.
  - intros float_of_str request_json st resp st' ev Hr.
    destruct (calculate_manual_status float_of_str request_json st resp st' ev Hr)
      as (_ & _ & _ & e & b & Hb).
    exists e, b, (py_max 0%float (b - e)%float).
    repeat split; [exact Hb|apply py_max_zero_float].
  - intros float_of_str entries st resp st' ev Hm Hr.
    rewrite calculate_manual_dict, Hm in Hr.
    destruct (py_float _ (field entries "distance" _)) as [d|]; [|discriminate].
    destruct (py_float _ (field entries "weight" _)) as [w|]; [|discriminate].
    cbn [factor_for EMISSION_FACTORS dict_get String.eqb Ascii.eqb Bool.eqb] in Hr.
    cbn zeta in Hr. injection Hr as <- _ _.
    exists (emission_formula d w (lit 500 1000)). cbn [body jsonify].
    f_equal. unfold py_max. cbn [f_ltb f_sub f_of_Z PyNum_float].
    change (float_of_Z 0) with 0%float.
    now rewrite sub_self_not_positive.
  - intros L data st resp st' ev route logs stats Hr Hb.
    pose proof (stats_of_saved route stats
                  (optimize_route_stats data st resp st' ev route logs stats Hr Hb))
      as Hsv.
    split; [exact Hsv|]. rewrite Hsv. apply py_max_zero_float.
Qed.

(** C10, at an input: distance 100, weight 1000, mode "rail", over
    binary64: the savings are [max(0.0, 50.0 - 2.0) = 48.0]. *)
Lemma savings_never_negative_witness :
  exists e b s,
    ManualJson 2%float 50%float 48%float = ManualJson e b s
    /\ s = py_max 0%float (b - e)%float
    /\ (0 <=? s)%float = true.
Proof.
  exact (proj1 (proj2 (proj2 (proj2 savings_never_negative)))
           (fun _ => None)
           (PDict [("distance", PInt 100); ("weight", PInt 1000);
                   ("mode", PStr "rail")])
           server_start
           {| status := 200; body := ManualJson 2%float 50%float 48%float |}
           server_start [] eq_refl).
Defined.

(** ** Further properties of the design *)

Section DrawingFacts.
Context {F : Type} `{PyNum F} {img : Type} `{CV2 F img}.
Variable template : label -> option img.
Local Open Scope py_scope.

(** What [check_object] prints and draws on a match. *)
Lemma check_object_events l gray now st v loc s t :
  template l = Some t ->
  find_match gray (template l) = Done (Some (v, loc, s)) ->
  events_of (check_object template l gray now) st
  = if v >? THRESHOLD then
      (if (now - last_seen l st) >? COOLDOWN_TIME
       then [PrintDetected l (count l st + 1)] else [])
      ++ [Rectangle l loc
            ((fst loc + snd (shape t))%Z, (snd loc + fst (shape t))%Z)]
    else [].
Proof.
  intros Ht Hfm. unfold events_of, check_object, bind, lift.
  rewrite Hfm; cbn. destruct (v >? THRESHOLD); cbn; [|reflexivity].
  unfold bind, get, modify, emit, ret, lift, template_shape; cbn. rewrite Ht.
  destruct ((now - last_seen l st) >? COOLDOWN_TIME); cbn; [|reflexivity].
  destruct (counted_same l now st) as [-> _]. reflexivity.
Qed.

(** The loop never ends on an exception. *)
Lemma run_done cs : forall st, result_of (run template cs) st = Done tt.
Proof.
  induction cs as [|c cs IH]; intros st; [reflexivity|].
  cbn [run]. pose proof (loop_body_done template c st) as Hd.
  unfold result_of, bind in *.
  destruct (loop_body template c st) as [[r st1] ev1]; cbn in Hd |- *.
  subst r. destruct (key_q c); [reflexivity|].
  specialize (IH st1).
  now destruct (run template cs st1) as [[r2 st2] ev2].
Qed.
End DrawingFacts.

(** X1. The bounding box is drawn on every match whose score exceeds
    [THRESHOLD], whether or not the cooldown lets the match be counted: on
    such a match [check_object] prints the detection (with the new total)
    only when the cooldown test passes, and draws the rectangle, from the
    match location to that location plus the template's width and height,
    in both cases; on a match at or below the threshold it does nothing. *)
Theorem rectangle_on_every_qualifying_match :
  forall (F : Type) (N : PyNum F) (img : Type) (cv : CV2 F img)
         (template : label -> option img) (l : label) (gray : img) (now : F)
         (st : tracker F) (v : F) (loc : Z * Z) (s : F) (t : img),
    template l = Some t ->
    find_match gray (template l) = Done (Some (v, loc, s)) ->
    events_of (check_object template l gray now) st
    = if f_ltb THRESHOLD v then
        (if f_ltb COOLDOWN_TIME (f_sub now (last_seen l st))
         then [PrintDetected l (count l st + 1)] else [])
        ++ [Rectangle l loc
              ((fst loc + snd (shape t))%Z, (snd loc + fst (shape t))%Z)]
      else [].
Proof.
  intros F N img cv template l gray now st v loc s t.
  apply check_object_events.
Qed.

(** X1, at an input: on the scripted camera at binary64, one second after a
    count, the match of score 0.9 is drawn and not counted. *)
Lemma rectangle_on_every_qualifying_match_witness :
  events_of
    (@check_object float _ _ (scripted_cv disk_both)
       (templates_of (Some (small_template "objectA.png"))
                     (Some (small_template "objectB.png")))
       ObjectA (frame_320x240 (fun _ => 0.9) (fun _ => 0.3))%float
       1700000001%float)
    {| count_a := 1; count_b := 0;
       last_seen_a := 1700000000%float; last_seen_b := 0%float |}
  = [Rectangle ObjectA (40, 30)%Z (240, 160)%Z].
Proof.
  exact (rectangle_on_every_qualifying_match float _ _ (scripted_cv disk_both)
           (templates_of (Some (small_template "objectA.png"))
                         (Some (small_template "objectB.png")))
           ObjectA (frame_320x240 (fun _ => 0.9) (fun _ => 0.3))%float
           1700000001%float
           {| count_a := 1; count_b := 0;
              last_seen_a := 1700000000%float; last_seen_b := 0%float |}
           0.9%float (40, 30)%Z 0.75%float (small_template "objectA.png")
           eq_refl eq_refl).
Defined.

(** X2. The acquisition loop survives every failure: a turn whose fetch or
    decoding fails prints the error, sleeps 2 seconds and leaves the
    counters as they were; no turn lets an exception out, so a run ends only
    at the quit key (or with the turns it was given). *)
Theorem loop_survives_failures :
  forall (F : Type) (N : PyNum F) (img : Type) (cv : CV2 F img)
         (template : label -> option img),
    (forall (now : F) (q : bool) (st : tracker F),
        loop_body template {| capture := None; clock := now; key_q := q |} st
        = (Done tt, st, [PrintConnectionError CaptureError; Sleep 2]))
    /\ (forall c st, result_of (loop_body template c) st = Done tt)
    /\ (forall cs st, result_of (run template cs) st = Done tt)
    /\ (forall c cs st,
          state_after (run template (c :: cs)) st
          = if key_q c then state_after (loop_body template c) st
            else state_after (run template cs)
                   (state_after (loop_body template c) st)).
Proof.
  intros F N img cv template. repeat split.
  - intros c st. apply loop_body_done.
  - intros cs st. apply run_done.
  - intros c cs st. apply run_cons_state.
Qed.

Section HandlerFacts.
Context {F : Type} `{PyNum F} `{LibM F}.

Lemma lift_bind_state {T U : Type} (o : outcome T)
    (k : T -> handler U) (st : server_state) :
  (forall v, state_after (k v) st = st /\ events_of (k v) st = []) ->
  state_after (bind (lift o) k) st = st
  /\ events_of (bind (lift o) k) st = [].
Proof.
  intros Hk. unfold state_after, events_of, bind, lift in *.
  destruct o as [v|e]; [|split; reflexivity].
  specialize (Hk v). destruct (k v st) as [[r st2] ev2]. cbn in *.
  destruct Hk as [-> ->]. split; reflexivity.
Qed.

Lemma optimize_route_pure (data : optimize_request F) (st : server_state) :
  state_after (optimize_route data) st = st
  /\ events_of (optimize_route data) st = [].
Proof.
  unfold optimize_route.
  destruct (match locations data with Some l => l | None => [] end)
    as [|current [|second rest]]; try (split; reflexivity).
  apply lift_bind_state. intros r.
  apply lift_bind_state. intros stats. split; reflexivity.
Qed.

Lemma calculate_manual_pure (float_of_str : string -> option F)
    (request_json : pyval F) (st : server_state) :
  state_after (calculate_manual float_of_str request_json) st = st
  /\ events_of (calculate_manual float_of_str request_json) st = [].
Proof.
  unfold calculate_manual.
  repeat (apply lift_bind_state; intros ?). split; reflexivity.
Qed.
End HandlerFacts.

(** X3. The request handlers are stateless: [/counts] answers 200 with the
    counts mapping as it stands (initially [{"a": 0, "b": 0}]), and none of
    [/counts], [/optimize] and [/calculate-manual] changes the module's
    state or emits anything, whatever the request and the platform and
    whether it answers or raises. *)
Theorem handlers_are_stateless :
  forall (F : Type) (N : PyNum F) (L : LibM F) (st : server_state),
    get_counts (F:=F) st
    = (Done {| status := 200; body := CountsJson (current_counts st) |}, st, [])
    /\ current_counts server_start = [("a", 0%Z); ("b", 0%Z)]
    /\ (forall data : optimize_request F,
          state_after (optimize_route data) st = st
          /\ events_of (optimize_route data) st = [])
    /\ (forall (float_of_str : string -> option F) (request_json : pyval F),
          state_after (calculate_manual float_of_str request_json) st = st
          /\ events_of (calculate_manual float_of_str request_json) st = []).
Proof.
  intros F N L st. split; [reflexivity|]. split; [reflexivity|]. split.
  - intros data. apply optimize_route_pure.
  - intros float_of_str request_json. apply calculate_manual_pure.
Qed.

(** ** The matcher, in every arithmetic *)

Section MatcherLast.
Context {F : Type} `{PyNum F} {img : Type} `{CV2 F img}.
Variable resized : F -> img.
Variable template : img.

(** From a best-so-far of score [v0] the loop either keeps it, no scale
    passing the test against it, or ends on a scale after which no scale
    passes the test. *)
Lemma fold_keep_best_last l : forall v0 loc0 s0,
  (fold_left (keep_best resized template) l (Some (v0, loc0, s0))
   = Some (v0, loc0, s0)
   /\ Forall (fun s' => f_ltb v0 (score_at resized template s') = false) l)
  \/ (exists before s after v loc,
        l = before ++ s :: after
        /\ fold_left (keep_best resized template) l (Some (v0, loc0, s0))
           = Some (v, loc, s)
        /\ answer_at resized template s = (v, loc)
        /\ Forall (fun s' => f_ltb v (score_at resized template s') = false)
             after).
Proof.
  induction l as [|c l IH]; intros v0 loc0 s0.
  - left. split; [reflexivity|constructor].
  - cbn [fold_left]. unfold keep_best at 2 4, update_found.
    unfold score_at in *. fold (answer_at resized template c).
    destruct (answer_at resized template c) as [vc locc] eqn:Hc.
    destruct (f_ltb v0 vc) eqn:Hlt.
    + right. destruct (IH vc locc c)
        as [[Hr Hall]|(before & s & after & v & loc & -> & Hr & Ha & Hall)].
      * exists [], c, l, vc, locc. repeat split; auto.
      * exists (c :: before), s, after, v, loc. repeat split; auto.
    + destruct (IH v0 loc0 s0)
        as [[Hr Hall]|(before & s & after & v & loc & -> & Hr & Ha & Hall)].
      * left. split; [exact Hr|]. constructor; [|exact Hall].
        now rewrite Hc.
      * right. exists (c :: before), s, after, v, loc. repeat split; auto.
Qed.
End MatcherLast.

(** X5. In every arithmetic, binary64 with its NaN included, [find_match]
    raises [AttributeError] on a template that was not loaded.  On a loaded
    one it raises nothing but [cv2.error], and only when [cv2.resize]
    refuses the frame at one of the scales; when every resize succeeds it
    returns: [None] when no scale was tried, and otherwise the matcher's
    own answer at one of the scales that were not skipped, such that no
    scale tried after it passed the test [max_val > found[0]] against
    it. *)
Theorem find_match_returns_a_tried_answer :
  forall (F : Type) (N : PyNum F) (img : Type) (cv : CV2 F img)
         (frame_gray : img),
    find_match frame_gray None = Raised AttributeError
    /\ forall template : img,
        (forall e,
            find_match frame_gray (Some template) = Raised e ->
            e = CvError /\ exists s, In s scales /\ resize frame_gray s s = None)
        /\ (forall resized : F -> img,
              (forall s, In s scales ->
                         resize frame_gray s s = Some (resized s)) ->
              exists r,
                find_match frame_gray (Some template) = Done r
                /\ match r with
                   | None => tried resized template scales = []
                   | Some (v, loc, s) =>
                       exists before after,
                         tried resized template scales = before ++ s :: after
                         /\ In s scales
                         /\ answer_at resized template s = (v, loc)
                         /\ Forall (fun s' =>
                                      f_ltb v (score_at resized template s')
                                      = false)
                                   after
                   end).
Proof.
  intros F N img cv frame_gray. split; [reflexivity|].
  intros template. split.
  - intros e He. pose proof (find_match_raised _ _ _ He) as ->.
    split; [reflexivity|]. now apply (find_match_raises_iff frame_gray template).
  - intros resized Hres. eexists.
    split; [apply (find_match_resized frame_gray template resized Hres)|].
    assert (Hsub : forall s, In s (tried resized template scales) -> In s scales).
    { intros s Hs. unfold tried in Hs. now apply filter_In in Hs. }
    destruct (tried resized template scales) as [|c l] eqn:Ht; [reflexivity|].
    cbn [fold_left]. unfold keep_best at 2, update_found.
    fold (answer_at resized template c).
    destruct (answer_at resized template c) as [vc locc] eqn:Hc.
    destruct (fold_keep_best_last resized template l vc locc c)
      as [[-> Hall]|(before & s & after & v & loc & -> & -> & Ha & Hall)].
    + exists [], l. repeat split; auto. apply Hsub. now left.
    + exists (c :: before), after. repeat split; auto.
      apply Hsub. right. apply in_or_app. right. now left.
Qed.

(** ** Each label has a counter of its own *)

Section OwnCounter.
Context {F : Type} `{PyNum F} {img : Type} `{CV2 F img}.
Variable template : label -> option img.
Local Open Scope py_scope.

(** [check_object] leaves the other label alone. *)
Lemma check_object_other l l' gray now st :
  l <> l' ->
  count l' (state_after (check_object template l gray now) st) = count l' st
  /\ last_seen l' (state_after (check_object template l gray now) st)
     = last_seen l' st.
Proof.
  intros Hne.
  destruct (check_object_state template l gray now st) as [->|[-> _]];
    [now split|now apply counted_other].
Qed.

(** On its own label [check_object] is [debounce], behind the threshold. *)
Lemma check_object_own l gray now st :
  (count l (state_after (check_object template l gray now) st),
   last_seen l (state_after (check_object template l gray now) st))
  = match find_match gray (template l) with
    | Done (Some (v, _, _)) =>
        if v >? THRESHOLD
        then debounce (count l st, last_seen l st) now
        else (count l st, last_seen l st)
    | _ => (count l st, last_seen l st)
    end.
Proof.
  destruct (find_match gray (template l)) as [[[[v loc] s]|]|e] eqn:Hfm.
  - destruct (v >? THRESHOLD) eqn:Hv.
    + destruct (check_object_fixed_match template l gray v loc s now st Hfm Hv)
        as [_ ->].
      unfold debounce; cbn [fst snd].
      destruct ((now - last_seen l st) >? COOLDOWN_TIME); [|reflexivity].
      now destruct (counted_same l now st) as [-> ->].
    + unfold state_after, check_object, bind, lift. rewrite Hfm; cbn.
      now rewrite Hv.
  - unfold state_after, check_object, bind, lift. now rewrite Hfm.
  - unfold state_after, check_object, bind, lift. now rewrite Hfm.
Qed.

Lemma loop_body_a c st :
  (count ObjectA (state_after (loop_body template c) st),
   last_seen ObjectA (state_after (loop_body template c) st))
  = own_step (template ObjectA) (count ObjectA st, last_seen ObjectA st) c.
Proof.
  unfold own_step. destruct (capture c) as [gray|] eqn:Hcap.
  - rewrite (loop_body_state_eq template c gray st Hcap).
    rewrite <- (check_object_own ObjectA gray (clock c) st).
    destruct (result_of _ st); [|reflexivity].
    destruct (check_object_other ObjectB ObjectA gray (clock c)
                (state_after (check_object template ObjectA gray (clock c)) st))
      as [-> ->]; [discriminate|reflexivity].
  - unfold state_after. now rewrite (loop_body_no_frame template c st Hcap).
Qed.

Lemma loop_body_b c st :
  template ObjectA <> None ->
  (count ObjectB (state_after (loop_body template c) st),
   last_seen ObjectB (state_after (loop_body template c) st))
  = own_step (template ObjectB) (count ObjectB st, last_seen ObjectB st) c.
Proof.
  intros HtA. unfold own_step. destruct (capture c) as [gray|] eqn:Hcap.
  - rewrite (loop_body_state_eq template c gray st Hcap).
    destruct (find_match gray (template ObjectA)) as [mA|e] eqn:HfA.
    + rewrite (check_object_done template ObjectA gray (clock c) st mA HfA).
      rewrite (check_object_own ObjectB gray (clock c)).
      destruct (check_object_other ObjectA ObjectB gray (clock c) st)
        as [-> ->]; [discriminate|reflexivity].
    + unfold result_of, state_after.
      rewrite (check_object_raised template ObjectA gray (clock c) st e HfA).
      cbn [fst snd].
      destruct (template ObjectA) as [tA|] eqn:EtA; [|congruence].
      destruct (template ObjectB) as [tB|]; [|reflexivity].
      now rewrite (find_match_raises_any_template gray tA tB e HfA).
  - unfold state_after. now rewrite (loop_body_no_frame template c st Hcap).
Qed.

Lemma run_a cs : forall st,
  (count ObjectA (state_after (run template cs) st),
   last_seen ObjectA (state_after (run template cs) st))
  = fold_left (own_step (template ObjectA)) (until_quit cs)
      (count ObjectA st, last_seen ObjectA st).
Proof.
  induction cs as [|c cs IH]; intros st; [reflexivity|].
  rewrite run_cons_state. cbn zeta. cbn [until_quit fold_left].
  rewrite <- loop_body_a.
  destruct (key_q c); [reflexivity|apply IH].
Qed.

Lemma run_b cs : forall st,
  template ObjectA <> None ->
  (count ObjectB (state_after (run template cs) st),
   last_seen ObjectB (state_after (run template cs) st))
  = fold_left (own_step (template ObjectB)) (until_quit cs)
      (count ObjectB st, last_seen ObjectB st).
Proof.
  induction cs as [|c cs IH]; intros st HtA; [reflexivity|].
  rewrite run_cons_state. cbn zeta. cbn [until_quit fold_left].
  rewrite <- (loop_body_b c st HtA).
  destruct (key_q c); [reflexivity|now apply IH].
Qed.
End OwnCounter.

(** X6. Each label is counted by a debouncer of its own.  Over any run, the
    count and timestamp of A are the fold, over the turns up to the quit
    key, of: [debounce] at the clock reading when the frame was fetched and
    A's match exceeds the threshold, nothing otherwise; so B's template,
    matches and counters never change what A counts.  The same holds for B
    as long as A's template is loaded.  (A frame that [cv2.resize] refuses
    makes [find_match] raise for both labels alike, and counts nothing.) *)
Theorem each_label_debounced_alone :
  forall (F : Type) (N : PyNum F) (img : Type) (cv : CV2 F img)
         (template : label -> option img),
    (forall cs st,
        (count ObjectA (state_after (run template cs) st),
         last_seen ObjectA (state_after (run template cs) st))
        = fold_left (own_step (template ObjectA)) (until_quit cs)
            (count_a st, last_seen_a st))
    /\ (forall (template' : label -> option img) cs st st',
          template' ObjectA = template ObjectA ->
          count_a st' = count_a st ->
          last_seen_a st' = last_seen_a st ->
          count_a (state_after (run template' cs) st')
          = count_a (state_after (run template cs) st)
          /\ last_seen_a (state_after (run template' cs) st')
             = last_seen_a (state_after (run template cs) st))
    /\ (forall cs st,
          template ObjectA <> None ->
          (count ObjectB (state_after (run template cs) st),
           last_seen ObjectB (state_after (run template cs) st))
          = fold_left (own_step (template ObjectB)) (until_quit cs)
              (count_b st, last_seen_b st)).
Proof.
  intros F N img cv template. split; [|split].
  - intros cs st. apply run_a.
  - intros template' cs st st' Ht Hc Hl.
    pose proof (run_a template cs st) as H1.
    pose proof (run_a template' cs st') as H2.
    cbn [count last_seen] in H1, H2.
    rewrite Ht, Hc, Hl, <- H1 in H2.
    injection H2 as -> ->. split; reflexivity.
  - intros cs st HtA. now apply run_b.
Qed.

(** X6, at an input: on the scripted camera at binary64, losing B's template
    does not change what A counts over 20 frames. *)
Lemma each_label_debounced_alone_witness :
  count_a
    (state_after
       (@run float _ _ (scripted_cv disk_both)
          (templates_of (Some (small_template "objectA.png")) None)
          (watching (frame_320x240 (fun _ => 0.9) (fun _ => 0.9))%float
                    (ticks (f_of_Z 1700000000) 20)))
       initial)
  = count_a
      (state_after
         (@run float _ _ (scripted_cv disk_both)
            (templates_of (Some (small_template "objectA.png"))
                          (Some (small_template "objectB.png")))
            (watching (frame_320x240 (fun _ => 0.9) (fun _ => 0.9))%float
                      (ticks (f_of_Z 1700000000) 20)))
         initial).
Proof.
  exact (proj1 (proj1 (proj2 (each_label_debounced_alone float _ _
                                (scripted_cv disk_both)
                                (templates_of (Some (small_template "objectA.png"))
                                              (Some (small_template "objectB.png")))))
                  (templates_of (Some (small_template "objectA.png")) None)
                  (watching (frame_320x240 (fun _ => 0.9) (fun _ => 0.9))%float
                            (ticks (f_of_Z 1700000000) 20))
                  initial initial eq_refl eq_refl eq_refl)).
Defined.

(** ** Runs of the loop *)

Section RunFacts.
Context {F : Type} `{PyNum F} {img : Type} `{CV2 F img}.
Variable template : label -> option img.

(** A turn, as the triple it returns. *)
Lemma loop_body_triple c st :
  loop_body template c st
  = (Done tt, state_after (loop_body template c) st,
     events_of (loop_body template c) st).
Proof.
  pose proof (loop_body_done template c st) as Hd.
  unfold result_of, state_after, events_of in *.
  destruct (loop_body template c st) as [[r st1] ev1]. cbn in *. now subst r.
Qed.

Lemma run_cons c cs st :
  run template (c :: cs) st
  = if key_q c
    then (Done tt, state_after (loop_body template c) st,
          events_of (loop_body template c) st)
    else let '(r, st2, ev2) :=
           run template cs (state_after (loop_body template c) st) in
         (r, st2, events_of (loop_body template c) st ++ ev2).
Proof.
  cbn [run]. unfold bind at 1. rewrite loop_body_triple.
  destruct (key_q c); [|reflexivity].
  cbn. now rewrite app_nil_r.
Qed.

(** Turns after the quit key are not run. *)
Lemma run_until_quit cs : forall st,
  run template cs st = run template (until_quit cs) st.
Proof.
  induction cs as [|c cs IH]; intros st; [reflexivity|].
  cbn [until_quit]. rewrite !run_cons.
  destruct (key_q c); [reflexivity|]. now rewrite IH.
Qed.

(** A run over turns without the quit key, followed by more turns. *)
Lemma run_app cs1 cs2 : forall st,
  forallb (fun c => negb (key_q c)) cs1 = true ->
  run template (cs1 ++ cs2) st
  = let '(_, st1, ev1) := run template cs1 st in
    let '(r, st2, ev2) := run template cs2 st1 in
    (r, st2, ev1 ++ ev2).
Proof.
  induction cs1 as [|c cs1 IH]; intros st Hq.
  - cbn. now destruct (run template cs2 st) as [[r st2] ev2].
  - cbn [forallb] in Hq. apply andb_true_iff in Hq. destruct Hq as [Hc Hq].
    apply negb_true_iff in Hc.
    rewrite <- app_comm_cons, !run_cons, Hc.
    rewrite (IH _ Hq).
    destruct (run template cs1 _) as [[r1 st1] ev1].
    destruct (run template cs2 st1) as [[r2 st2] ev2].
    now rewrite app_assoc.
Qed.
End RunFacts.

(** X7. The loop leaves at the first quit key and composes over time: a run
    over a sequence of turns is the run over its turns up to and including
    the first one with the quit key (later turns change nothing and log
    nothing); and a run over turns without the quit key followed by further
    turns is the run over the further turns started from the counters the
    first ones left, its log appended to theirs. *)
Theorem run_stops_at_quit_and_composes :
  forall (F : Type) (N : PyNum F) (img : Type) (cv : CV2 F img)
         (template : label -> option img),
    (forall cs st, run template cs st = run template (until_quit cs) st)
    /\ (forall c cs1 cs2 st,
          key_q c = true ->
          run template (cs1 ++ c :: cs2) st = run template (cs1 ++ [c]) st)
    /\ (forall cs1 cs2 st,
          forallb (fun c => negb (key_q c)) cs1 = true ->
          run template (cs1 ++ cs2) st
          = (result_of (run template cs2) (state_after (run template cs1) st),
             state_after (run template cs2) (state_after (run template cs1) st),
             events_of (run template cs1) st
             ++ events_of (run template cs2) (state_after (run template cs1) st))).
Proof.
  intros F N img cv template. split; [|split].
  - intros cs st. apply run_until_quit.
  - intros c cs1 cs2 st Hc.
    rewrite (run_until_quit template (cs1 ++ c :: cs2)),
            (run_until_quit template (cs1 ++ [c])).
    f_equal. induction cs1 as [|d cs1 IH]; cbn [app until_quit].
    + now rewrite Hc.
    + now rewrite IH.
  - intros cs1 cs2 st Hq. rewrite (run_app template cs1 cs2 st Hq).
    unfold result_of, state_after, events_of.
    destruct (run template cs1 st) as [[r1 st1] ev1]. cbn [fst snd].
    now destruct (run template cs2 st1) as [[r2 st2] ev2].
Qed.

(** X7, at an input: on the scripted camera at binary64, six frames seen in
    one run or in two runs of three leave the same counters. *)
Lemma run_stops_at_quit_and_composes_witness :
  state_after
    (@run float _ _ (scripted_cv disk_both)
       (templates_of (Some (small_template "objectA.png"))
                     (Some (small_template "objectB.png")))
       (watching (frame_320x240 (fun _ => 0.9) (fun _ => 0.9))%float
                 (ticks (f_of_Z 1700000000) 3)
        ++ watching (frame_320x240 (fun _ => 0.9) (fun _ => 0.9))%float
                    (ticks (f_of_Z 1700000002) 3)))
    initial
  = {| count_a := 2; count_b := 2;
       last_seen_a := 1700000002.5%float;
       last_seen_b := 1700000002.5%float |}.
Proof.
  exact (f_equal (fun x => snd (fst x))
           (proj2 (proj2 (run_stops_at_quit_and_composes float _ _
                            (scripted_cv disk_both)
                            (templates_of (Some (small_template "objectA.png"))
                                          (Some (small_template "objectB.png")))))
              (watching (frame_320x240 (fun _ => 0.9) (fun _ => 0.9))%float
                        (ticks (f_of_Z 1700000000) 3))
              (watching (frame_320x240 (fun _ => 0.9) (fun _ => 0.9))%float
                        (ticks (f_of_Z 1700000002) 3))
              initial eq_refl)).
Defined.

(** ** Counts, timestamps and the overlay *)

Section CountBounds.
Context {F : Type} `{PyNum F} {img : Type} `{CV2 F img}.
Variable template : label -> option img.

(** A label is counted at most once per turn that was run. *)
Lemma count_times_length l cs : forall st,
  (List.length (count_times template l cs st)
   <= List.length (until_quit cs))%nat.
Proof.
  induction cs as [|c cs IH]; intros st; [apply le_n|].
  cbn [count_times until_quit]. cbn zeta. rewrite length_app.
  specialize (IH (state_after (loop_body template c) st)).
  destruct (count l st <? count l _)%Z, (key_q c); cbn in *; lia.
Qed.

Lemma run_count_bounds l cs st :
  (count l st <= count l (state_after (run template cs) st)
   <= count l st + Z.of_nat (List.length (until_quit cs)))%Z.
Proof.
  rewrite run_count. pose proof (count_times_length l cs st). lia.
Qed.

(** The timestamp of a label moves only when the label is counted, and
    then to the clock reading of a turn that was run. *)
Lemma run_last_seen l cs : forall st,
  (count l (state_after (run template cs) st) = count l st
   /\ last_seen l (state_after (run template cs) st) = last_seen l st)
  \/ ((count l st < count l (state_after (run template cs) st))%Z
      /\ In (last_seen l (state_after (run template cs) st))
            (map (@clock F img) (until_quit cs))).
Proof.
  induction cs as [|c cs IH]; intros st; [now left|].
  rewrite run_cons_state. cbn zeta. cbn [until_quit map].
  destruct (loop_body_label template l c st) as [[Hc Hl]|(Hc & Hl & _)];
    cbn zeta in Hc, Hl.
  - destruct (key_q c); [left; now split|].
    destruct (IH (state_after (loop_body template c) st)) as [[Hc' Hl']|[Hc' Hin]].
    + left. split; congruence.
    + right. split; [lia|now right].
  - destruct (key_q c).
    + right. split; [lia|]. left. now rewrite Hl.
    + pose proof (run_count_monotone template l cs
                    (state_after (loop_body template c) st)) as Hm.
      right. split; [lia|].
      destruct (IH (state_after (loop_body template c) st)) as [[Hc' Hl']|[Hc' Hin]].
      * left. now rewrite Hl', Hl.
      * now right.
Qed.
End CountBounds.

(** A load raises nothing but [cv2.error], and only on an image wider
    than 200 that [cv2.resize] refuses at the factor [200 / width]; it then
    prints nothing. *)
Lemma load_and_prep_raised {F : Type} `{PyNum F} {img : Type} `{CV2 F img}
    (path : string) (e : exn) :
  fst (load_and_prep path) = Raised e ->
  e = CvError
  /\ snd (load_and_prep path) = []
  /\ exists im,
      imread path = Some im
      /\ (200 < snd (shape im))%Z
      /\ resize im (f_of_Z 200 / f_of_Z (snd (shape im)))%py
                   (f_of_Z 200 / f_of_Z (snd (shape im)))%py = None.
Proof.
  unfold load_and_prep.
  destruct (imread path) as [im|]; [|discriminate].
  destruct (shape im) as [height width] eqn:Hsh. cbn [snd].
  destruct (200 <? width)%Z eqn:Hw; [|discriminate].
  destruct (resize im _ _) eqn:Hr; [discriminate|].
  cbn. intros [= <-]. split; [reflexivity|]. split; [reflexivity|].
  exists im. rewrite Hsh. cbn [snd]. split; [reflexivity|].
  split; [now apply Z.ltb_lt|exact Hr].
Qed.

(** X8. The script can only crash at the loads, and its counts stay within
    the turns it ran.  A load raises nothing but [cv2.error], on a template
    wider than 200 that [cv2.resize] refuses at the factor [200 / width]
    (as it does a template 1000 wide and 2 high); the loads are outside
    any [try], so the script then ends before the loop, without the
    starting line.  When both loads return, whatever the answers of the
    camera, [main] ends without an exception, its log starts with the load
    errors (A's before B's) and the starting line, and the count of each
    label is at least 0 and at most the number of turns up to the quit
    key. *)
Theorem main_counts_within_turns :
  (forall (F : Type) (N : PyNum F) (img : Type) (cv : CV2 F img)
          (cs : list (cycle F img)) (l : label),
      match fst (load_and_prep "objectA.png"),
            fst (load_and_prep "objectB.png") with
      | Raised e, _ =>
          e = CvError /\ main cs = (Raised CvError, initial, [])
      | Done _, Raised e =>
          e = CvError
          /\ main cs
             = (Raised CvError, initial, snd (load_and_prep "objectA.png"))
      | Done _, Done _ =>
          exists st ev,
            main cs
            = (Done tt, st,
               snd (load_and_prep "objectA.png")
               ++ snd (load_and_prep "objectB.png")
               ++ PrintStarting :: ev)
            /\ (0 <= count l st <= Z.of_nat (List.length (until_quit cs)))%Z
      end)
  /\ (forall (F : Type) (N : PyNum F) (img : Type) (cv : CV2 F img)
             (path : string) (e : exn),
        fst (load_and_prep path) = Raised e ->
        e = CvError
        /\ exists im,
            imread path = Some im
            /\ (200 < snd (shape im))%Z
            /\ resize im (f_of_Z 200 / f_of_Z (snd (shape im)))%py
                         (f_of_Z 200 / f_of_Z (snd (shape im)))%py = None)
  /\ (forall cs : list (cycle float (scripted float)),
        tracker_on (F:=float) disk_flat_a cs = (Raised CvError, initial, [])).
Proof.
  split; [|split].
  - intros F N img cv cs l. unfold main.
    destruct (load_and_prep "objectA.png") as [[ta|ea] eva] eqn:HA;
      cbn [fst snd].
    + destruct (load_and_prep "objectB.png") as [[tb|eb] evb] eqn:HB;
        cbn [fst snd].
      * set (template := fun l0 : label =>
                           match l0 with ObjectA => ta | ObjectB => tb end).
        pose proof (run_done template cs initial) as Hd.
        pose proof (run_count_bounds template l cs initial) as Hb.
        unfold result_of, state_after in Hd, Hb.
        destruct (run template cs initial) as [[r st] ev].
        cbn [fst snd] in Hd, Hb.
        subst r. exists st, ev. split; [reflexivity|].
        assert (H0 : count l (initial (F:=F)) = 0%Z) by (destruct l; reflexivity).
        rewrite H0 in Hb. lia.
      * destruct (load_and_prep_raised "objectB.png" eb) as (-> & Hev & _);
          [now rewrite HB|].
        rewrite HB in Hev. cbn [snd] in Hev. subst evb.
        rewrite app_nil_r. split; reflexivity.
    + destruct (load_and_prep_raised "objectA.png" ea) as (-> & Hev & _);
        [now rewrite HA|].
      rewrite HA in Hev. cbn [snd] in Hev. subst eva.
      destruct (fst (load_and_prep "objectB.png")); split; reflexivity.
  - intros F N img cv path e He.
    destruct (load_and_prep_raised path e He) as (-> & _ & Him). auto.
  - intros cs. unfold tracker_on, main. vm_compute. reflexivity.
Qed.

(** X9. The timestamp of a label moves only with its count: over any run,
    either the label's count and [last_seen] are both as they were, or the
    count grew and [last_seen] is the clock reading of one of the turns that
    were run. *)
Theorem last_seen_moves_with_count :
  forall (F : Type) (N : PyNum F) (img : Type) (cv : CV2 F img)
         (template : label -> option img) (l : label)
         (cs : list (cycle F img)) (st : tracker F),
    (count l (state_after (run template cs) st) = count l st
     /\ last_seen l (state_after (run template cs) st) = last_seen l st)
    \/ ((count l st < count l (state_after (run template cs) st))%Z
        /\ In (last_seen l (state_after (run template cs) st))
              (map (@clock F img) (until_quit cs))).
Proof.
  intros F N img cv template l cs st. apply run_last_seen.
Qed.

Section Overlay.
Context {F : Type} `{PyNum F} {img : Type} `{CV2 F img}.
Variable template : label -> option img.
Local Open Scope py_scope.

(** [check_object] emits nothing but the detection line and the box. *)
Lemma check_object_detection_events l gray now st :
  forallb is_detection (events_of (check_object template l gray now) st) = true.
Proof.
  unfold events_of, check_object, bind, lift.
  destruct (find_match gray (template l)) as [[[[v loc] s]|]|e]; cbn;
    try reflexivity.
  destruct (v >? THRESHOLD); cbn; [|reflexivity].
  unfold bind, get, modify, emit, ret, lift; cbn.
  destruct ((now - last_seen l st) >? COOLDOWN_TIME); cbn;
    destruct (template_shape template l); reflexivity.
Qed.

(** A turn that got a frame, by the outcome of its two checks. *)
Lemma loop_body_by_checks c gray st :
  capture c = Some gray ->
  loop_body template c st
  = match check_object template ObjectA gray (clock c) st with
    | (Done _, st1, ev1) =>
        match check_object template ObjectB gray (clock c) st1 with
        | (Done _, st2, ev2) =>
            (Done tt, st2,
             (ev1 ++ ev2) ++ [ImShow (count_a st2) (count_b st2)])
        | (Raised e, st2, ev2) =>
            (Done tt, st2, (ev1 ++ ev2) ++ [PrintConnectionError e; Sleep 2])
        end
    | (Raised e, st1, ev1) =>
        (Done tt, st1, ev1 ++ [PrintConnectionError e; Sleep 2])
    end.
Proof.
  intros Hcap. unfold loop_body, fetch. rewrite Hcap.
  unfold try_except. rewrite bind_ret_l.
  set (mA := check_object template ObjectA gray (clock c)).
  set (mB := check_object template ObjectB gray (clock c)).
  clearbody mA mB.
  unfold bind, get, emit; cbn.
  destruct (mA st) as [[[[]|e1] st1] ev1]; cbn; [|reflexivity].
  destruct (mB st1) as [[[[]|e2] st2] ev2]; cbn; [|reflexivity].
  now rewrite app_assoc.
Qed.

Lemma loop_body_events c st :
  exists drawn,
    forallb is_detection drawn = true
    /\ (events_of (loop_body template c) st
        = drawn ++ [ImShow (count_a (state_after (loop_body template c) st))
                           (count_b (state_after (loop_body template c) st))]
        \/ exists e,
            events_of (loop_body template c) st
            = drawn ++ [PrintConnectionError e; Sleep 2]).
Proof.
  destruct (capture c) as [gray|] eqn:Hcap.
  - unfold events_of, state_after. rewrite (loop_body_by_checks c gray st Hcap).
    pose proof (check_object_detection_events ObjectA gray (clock c) st) as HA.
    unfold events_of in HA.
    destruct (check_object template ObjectA gray (clock c) st)
      as [[[[]|e1] st1] ev1]; cbn [snd] in HA.
    + pose proof (check_object_detection_events ObjectB gray (clock c) st1) as HB.
      unfold events_of in HB.
      destruct (check_object template ObjectB gray (clock c) st1)
        as [[[[]|e2] st2] ev2]; cbn [fst snd] in HB |- *;
        exists (ev1 ++ ev2); (split; [rewrite forallb_app; now rewrite HA, HB|]).
      * now left.
      * right. now exists e2.
    + exists ev1. split; [exact HA|]. right. now exists e1.
  - exists []. split; [reflexivity|]. right. exists CaptureError.
    unfold events_of. now rewrite (loop_body_no_frame template c st Hcap).
Qed.

Lemma loop_body_shows c gray st mA mB :
  capture c = Some gray ->
  find_match gray (template ObjectA) = Done mA ->
  find_match gray (template ObjectB) = Done mB ->
  exists drawn,
    forallb is_detection drawn = true
    /\ events_of (loop_body template c) st
       = drawn ++ [ImShow (count_a (state_after (loop_body template c) st))
                          (count_b (state_after (loop_body template c) st))].
Proof.
  intros Hcap HfA HfB.
  unfold events_of, state_after. rewrite (loop_body_by_checks c gray st Hcap).
  pose proof (check_object_detection_events ObjectA gray (clock c) st) as HA.
  pose proof (check_object_done template ObjectA gray (clock c) st mA HfA) as HdA.
  unfold events_of, result_of in HA, HdA.
  destruct (check_object template ObjectA gray (clock c) st)
    as [[rA st1] ev1]; cbn [fst snd] in HA, HdA. subst rA.
  pose proof (check_object_detection_events ObjectB gray (clock c) st1) as HB.
  pose proof (check_object_done template ObjectB gray (clock c) st1 mB HfB) as HdB.
  unfold events_of, result_of in HB, HdB.
  destruct (check_object template ObjectB gray (clock c) st1)
    as [[rB st2] ev2]; cbn [fst snd] in HB, HdB |- *. subst rB.
  exists (ev1 ++ ev2). split; [rewrite forallb_app; now rewrite HA, HB|].
  reflexivity.
Qed.

(** A frame that [cv2.resize] refuses at some scale is not shown: the turn
    ends in the handler with [cv2.error], nothing drawn. *)
Lemma loop_body_refused c gray st tA s :
  capture c = Some gray ->
  template ObjectA = Some tA ->
  In s scales -> resize gray s s = None ->
  loop_body template c st
  = (Done tt, st, [PrintConnectionError CvError; Sleep 2]).
Proof.
  intros Hcap HtA Hin Hs.
  assert (HfA : find_match gray (template ObjectA) = Raised CvError).
  { rewrite HtA. apply find_match_raises_iff. eauto. }
  rewrite (loop_body_by_checks c gray st Hcap).
  now rewrite (check_object_raised template ObjectA gray (clock c) st _ HfA).
Qed.
End Overlay.

(** X10. A turn of the loop ends in exactly one of two ways, after the
    detection lines and boxes of the labels it got to: it shows the frame
    once, with the counts as the turn left them (so the overlay never lags
    behind a count made in the same turn), or it prints the error and
    sleeps 2 seconds without showing anything.  It shows the frame whenever
    the frame was fetched and [find_match] returned for both labels, which
    it does when both templates are loaded and [cv2.resize] accepts the
    frame at the five scales; a fetched frame that [cv2.resize] refuses at
    a scale is not shown, the turn printing [cv2.error] and sleeping. *)
Theorem turn_shows_updated_counts_or_backs_off :
  forall (F : Type) (N : PyNum F) (img : Type) (cv : CV2 F img)
         (template : label -> option img) (c : cycle F img) (st : tracker F),
    (exists drawn,
        forallb is_detection drawn = true
        /\ (events_of (loop_body template c) st
            = drawn ++ [ImShow (count_a (state_after (loop_body template c) st))
                               (count_b (state_after (loop_body template c) st))]
            \/ exists e,
                events_of (loop_body template c) st
                = drawn ++ [PrintConnectionError e; Sleep 2]))
    /\ (forall gray tA tB,
          capture c = Some gray ->
          template ObjectA = Some tA ->
          template ObjectB = Some tB ->
          (forall s, In s scales -> resize gray s s <> None) ->
          exists drawn,
            forallb is_detection drawn = true
            /\ events_of (loop_body template c) st
               = drawn ++ [ImShow (count_a (state_after (loop_body template c) st))
                                  (count_b (state_after (loop_body template c) st))])
    /\ (forall gray tA s,
          capture c = Some gray ->
          template ObjectA = Some tA ->
          In s scales -> resize gray s s = None ->
          loop_body template c st
          = (Done tt, st, [PrintConnectionError CvError; Sleep 2])).
Proof.
  intros F N img cv template c st. split; [|split].
  - apply loop_body_events.
  - intros gray tA tB Hcap HtA HtB Hres.
    destruct (find_match_returns gray tA Hres) as (mA & HfA).
    destruct (find_match_returns gray tB Hres) as (mB & HfB).
    rewrite <- HtA in HfA. rewrite <- HtB in HfB.
    exact (loop_body_shows template c gray st mA mB Hcap HfA HfB).
  - intros gray tA s. apply loop_body_refused.
Qed.

(** ** The route and its log, in every arithmetic *)

Section RouteLog.
Context {F : Type} `{PyNum F} {Ord : PyOrder F} `{LibM F}.
Local Open Scope py_scope.

(** The stops of a greedy visit are locations that were left to visit. *)
Lemma greedy_members (stops : list (location F)) : forall current unvisited,
  greedy current unvisited stops ->
  Forall (fun p => In p unvisited) stops.
Proof.
  induction stops as [|s stops IH]; intros current unvisited Hg;
    [constructor|].
  cbn [greedy] in Hg.
  destruct Hg as (Hin & _ & (b & r & a & Hu & _ & _ & Hg)).
  constructor; [exact Hin|].
  eapply Forall_impl; [|exact (IH s (b ++ a) Hg)].
  intros p Hp. rewrite Hu. apply in_app_or in Hp. apply in_or_app.
  destruct Hp; [now left|right; now right].
Qed.

(** The request of two locations. *)
Lemma optimize_route_two (first second : location F) (st : server_state) :
  optimize_route {| locations := Some [first; second] |} st
  = match get_dist first second with
    | Raised e => (Raised e, st, [])
    | Done d =>
        match as_float (lat second) with
        | Raised e => (Raised e, st, [])
        | Done x =>
            match stats_of [first; second] with
            | Raised e => (Raised e, st, [])
            | Done stats =>
                (Done {| status := 200;
                         body := RouteJson [first; second]
                                   [LogStarted; LogConnected x] stats |},
                 st, [])
            end
        end
    end.
Proof.
  unfold optimize_route. cbn [locations List.length objects seq combine].
  unfold bind, lift, ret. cbn [visit]. unfold py_min. cbn [min_from snd].
  destruct (get_dist first second) as [d|e]; [|reflexivity].
  cbn [and_then snd].
  destruct (as_float (lat second)) as [x|e]; [|reflexivity].
  cbn [and_then remove_first]. rewrite same_or_equal_refl.
  cbn [fst snd app map].
  destruct (stats_of [first; second]); reflexivity.
Qed.
End RouteLog.

(** X12. In both arithmetics and on every platform, whenever a request of
    at least two locations is answered, the route starts at the first
    location and then makes as many stops as there are other locations,
    each of them one of these locations; the log is
    "Optimization Started..." followed by one "Connected to nearest node"
    line for each stop after the first, in the order of the route, with the
    latitude of that stop as a float; the statistics are those of the route
    returned.  A request of exactly two locations raises what [get_dist]
    between them or the conversion of the second latitude raises, and is
    otherwise answered with the two locations in the order they came, the
    distance being [(0.0 + get_dist(first, second)) * 111.0]. *)
Theorem route_log_follows_route :
  forall (F : Type) (N : PyNum F) (Ord : PyOrder F) (L : LibM F),
    (forall (first second : location F) (rest : list (location F))
            (st : server_state) resp st' ev,
        optimize_route {| locations := Some (first :: second :: rest) |} st
        = (Done resp, st', ev) ->
        exists stops shown stats,
          resp = {| status := 200;
                    body := RouteJson (first :: stops)
                              (LogStarted :: map (@LogConnected F) shown)
                              stats |}
          /\ List.length stops = List.length (second :: rest)
          /\ Forall (fun p => In p (second :: rest)) stops
          /\ Forall2 (fun q x => as_float (lat q) = Done x) stops shown
          /\ stats_of (first :: stops) = Done stats)
    /\ (forall (first second : location F) (st : server_state) (e : exn),
          (get_dist first second = Raised e
           \/ (exists d, get_dist first second = Done d)
              /\ as_float (lat second) = Raised e) ->
          optimize_route {| locations := Some [first; second] |} st
          = (Raised e, st, []))
    /\ (forall (first second : location F) (st : server_state) (d x : F),
          get_dist first second = Done d ->
          as_float (lat second) = Done x ->
          exists stats,
            optimize_route {| locations := Some [first; second] |} st
            = (Done {| status := 200;
                       body := RouteJson [first; second]
                                 [LogStarted; LogConnected x] stats |}, st, [])
            /\ total_distance_km stats = ((f_of_Z 0 + d) * f_of_Z 111)%py).
Proof.
  intros F N Ord L. split; [|split].
  - intros first second rest st resp st' ev Hr.
    destruct (optimize_route_done _ _ _ _ _ _ _ Hr)
      as (stops & shown & stats & -> & _ & _ & Hl & Hsh & Hg & Hs).
    exists stops, shown, stats. repeat split; auto.
    exact (greedy_members _ _ _ Hg).
  - intros first second st e Hpq. rewrite optimize_route_two.
    destruct Hpq as [->|[(d & ->) ->]]; reflexivity.
  - intros first second st d x Hd Hx. rewrite optimize_route_two, Hd, Hx.
    unfold stats_of.
    assert (Ha : add_legs (f_of_Z 0) [first; second]
                 = Done (f_of_Z 0 + d)%py).
    { cbn [add_legs]. rewrite Hd. reflexivity. }
    rewrite Ha. cbn [and_then]. rewrite !calculate_emissions_road.
    cbn [and_then]. eexists. split; reflexivity.
Qed.

(** X12, at an input: at binary64 the request [(0,0), (0,1)] has the leg
    [get_dist = 1.0] and the latitude [0.0] for its log line, and is
    answered with the two points in order and 111.0 km. *)
Lemma route_log_follows_route_witness :
  exists stats,
    @optimize_route float _ libm_squaring
      {| locations := Some [ {| lat := NInt 0; lng := NInt 0 |};
                             {| lat := NInt 0; lng := NInt 1 |} ] |}
      server_start
    = (Done {| status := 200;
               body := RouteJson [ {| lat := NInt 0; lng := NInt 0 |};
                                   {| lat := NInt 0; lng := NInt 1 |} ]
                                 [LogStarted; LogConnected 0%float] stats |},
       server_start, [])
    /\ total_distance_km stats = ((0 + 1) * 111)%float.
Proof.
  apply (proj2 (proj2 (route_log_follows_route float _ PyOrder_float
                         libm_squaring))
           {| lat := NInt 0; lng := NInt 0 |}
           {| lat := NInt 0; lng := NInt 1 |} server_start 1%float 0%float);
    vm_compute; reflexivity.
Defined.

(** ** What [/calculate-manual] raises *)

Section ModeFacts.
Context {F : Type} `{PyNum F}.

(** The look-up of a mode raises on a list or an object, and on nothing
    else. *)
Lemma factor_for_raises (mode : pyval F) (e : exn) :
  factor_for mode = Raised e ->
  e = TypeError
  /\ ((exists items, mode = PList items)
      \/ (exists entries, mode = PDict entries)).
Proof.
  destruct mode; cbn [factor_for]; try discriminate;
    intros [= <-]; split; eauto.
Qed.

Lemma py_float_raises (float_of_str : string -> option F)
    (v : pyval F) (e : exn) :
  py_float float_of_str v = Raised e ->
  e = TypeError \/ e = ValueError \/ e = OverflowError.
Proof.
  destruct v; cbn [py_float]; try discriminate;
    try (intros [= <-]; now left).
  - unfold float_of_int. destruct (f_isinf (f_of_Z z)); [|discriminate].
    intros [= <-]. auto.
  - destruct (float_of_str s); [discriminate|]. intros [= <-]. auto.
Qed.

(** On an object the handler raises nothing but what [float] and the
    look-up of the mode raise. *)
Lemma calculate_manual_dict_raises (float_of_str : string -> option F)
    entries st e st' ev :
  calculate_manual float_of_str (PDict entries) st = (Raised e, st', ev) ->
  e = TypeError \/ e = ValueError \/ e = OverflowError.
Proof.
  rewrite calculate_manual_dict.
  destruct (py_float _ (field entries "distance" _)) as [d|e1] eqn:Hd.
  2:{ intros [= <- _ _]. exact (py_float_raises _ _ _ Hd). }
  destruct (py_float _ (field entries "weight" _)) as [w|e2] eqn:Hw.
  2:{ intros [= <- _ _]. exact (py_float_raises _ _ _ Hw). }
  destruct (factor_for _) as [f|e3] eqn:Hf; [discriminate|].
  intros [= <- _ _]. left. exact (proj1 (factor_for_raises _ _ Hf)).
Qed.

Lemma calculate_manual_empty_done (float_of_str : string -> option F) st :
  exists resp, calculate_manual float_of_str (PDict []) st = (Done resp, st, []).
Proof. rewrite calculate_manual_dict. cbn. eauto. Qed.

Lemma calculate_manual_attribute_error (float_of_str : string -> option F)
    (request_json : pyval F) (st : server_state) :
  calculate_manual float_of_str request_json st = (Raised AttributeError, st, [])
  <-> truthy request_json && negb (is_object request_json) = true.
Proof.
  split.
  - intros Hr. destruct (truthy request_json) eqn:Ht.
    + destruct request_json; try reflexivity.
      apply calculate_manual_dict_raises in Hr.
      destruct Hr as [Hr|[Hr|Hr]]; discriminate.
    + rewrite (calculate_manual_falsy float_of_str request_json st Ht) in Hr.
      destruct (calculate_manual_empty_done float_of_str st) as [resp Hd].
      rewrite Hd in Hr. discriminate.
  - intros Hb. apply andb_true_iff in Hb. destruct Hb as [Ht Ho].
    apply calculate_manual_not_dict; [exact Ht|].
    intros entries ->. discriminate.
Qed.

Lemma calculate_manual_raises (float_of_str : string -> option F)
    (request_json : pyval F) (st : server_state) (e : exn) :
  result_of (calculate_manual float_of_str request_json) st = Raised e ->
  e = AttributeError \/ e = TypeError \/ e = ValueError \/ e = OverflowError.
Proof.
  unfold result_of. intros Hr.
  destruct (truthy request_json && negb (is_object request_json)) eqn:Hb.
  - apply (proj2 (calculate_manual_attribute_error float_of_str request_json st))
      in Hb.
    rewrite Hb in Hr.
    cbn in Hr. injection Hr as <-. now left.
  - right.
    assert (Hd : exists entries,
               calculate_manual float_of_str request_json st
               = calculate_manual float_of_str (PDict entries) st).
    { destruct (truthy request_json) eqn:Ht.
      - destruct request_json; try discriminate Hb. eauto.
      - exists []. now apply calculate_manual_falsy. }
    destruct Hd as [entries Hd]. rewrite Hd in Hr.
    destruct (calculate_manual float_of_str (PDict entries) st)
      as [[r st'] ev] eqn:Hc.
    cbn in Hr. subst r.
    exact (calculate_manual_dict_raises _ _ _ _ _ _ Hc).
Qed.
End ModeFacts.


(** X16. What [/calculate-manual] raises, in every arithmetic: it raises
    [AttributeError] exactly when the JSON body is truthy and is no object
    (a non-empty array or string, a non-zero number, [true]), since such a
    value has no [get]; every other exception it raises is the
    [TypeError], [ValueError] or [OverflowError] of a field that cannot be
    converted or looked up.  A falsy body of any kind is answered like
    [{}]. *)
Theorem manual_body_must_be_an_object :
  forall (F : Type) (N : PyNum F) (float_of_str : string -> option F)
         (request_json : pyval F) (st : server_state),
    (calculate_manual float_of_str request_json st
     = (Raised AttributeError, st, [])
     <-> truthy request_json && negb (is_object request_json) = true)
    /\ (forall e,
          result_of (calculate_manual float_of_str request_json) st = Raised e ->
          e = AttributeError \/ e = TypeError \/ e = ValueError
          \/ e = OverflowError)
    /\ (truthy request_json = false ->
        exists resp,
          calculate_manual float_of_str request_json st = (Done resp, st, [])
          /\ calculate_manual float_of_str (PDict []) st = (Done resp, st, [])).
Proof.
  intros F N float_of_str request_json st. split; [|split].
  - apply calculate_manual_attribute_error.
  - apply calculate_manual_raises.
  - intros Hf.
    destruct (calculate_manual_empty_done float_of_str st) as [resp Hd].
    exists resp. split; [|exact Hd].
    now rewrite (calculate_manual_falsy float_of_str request_json st Hf).
Qed.
